(** * Download coordination of the course prefetch handlers

    Shallow embedding of
    - [CoreCourseActivityPrefetchHandlerBase] (activity-prefetch-handler.ts):
      [prefetchPackage], [setDownloaded], [setDownloading],
      [setPreviousStatusAndReject];
    - [CoreCourseResourcePrefetchHandlerBase] (resource-prefetch-handler.ts):
      [downloadOrPrefetch];
    - [CoreCourseModuleComponent] (components/module/module.ts): the
      PACKAGE_STATUS_CHANGED observer and [showStatus];
    and, for the further properties, of [download], [prefetch] and
    [getFiles] of the resource handler, of the [downloadEnabled] setter,
    [download] and [ngOnDestroy] of the module component, of
    [sumFileSizes], [uniqueArray], [promiseFails], [promiseWorks] and
    [allPromises] of [CoreUtilsProvider] (providers/utils/utils.ts), and of
    the file and size functions of the wiki, assignment and database
    prefetch handlers.

    Promises are modelled as resumable computations ([proc]): a promise is
    either settled or waits for one asynchronous operation and carries the
    reactions chained on it.  The application is a transition system whose
    actions are the calls made by clients and the completions of pending
    asynchronous operations, in any interleaving (single threaded event
    loop). *)

From Stdlib Require Import ZArith String List Bool Lia Sorted.
From Stdlib Require Floats.PrimFloat.
From stdpp Require Import base option list gmap strings fin_maps.

Local Open Scope string_scope.
Local Open Scope list_scope.

(** ** JavaScript values and promise outcomes *)

#[warnings="-register-all"]
Inductive value : Type :=
| VUndefined
| VBool (b : bool)
| VNumber (z : Z)
| VString (s : string)
| VArray (l : list value).

(** [typeof v == 'string'] *)
Definition is_string (v : value) : bool :=
  match v with VString _ => true | _ => false end.

Inductive outcome : Type :=
| Resolved (v : value)
| Rejected (e : value).

(** ** Package status *)

(** [CoreConstants.NOT_DOWNLOADED], [DOWNLOADING], [DOWNLOADED], [OUTDATED]. *)
Inductive Status : Type := NOT_DOWNLOADED | DOWNLOADING | DOWNLOADED | OUTDATED.

Global Instance Status_eq_dec : EqDecision Status.
Proof. solve_decision. Defined.

(** A package is identified by (siteId, component, componentId). *)
Abbreviation Key := (string * string * Z)%type.

(** ** Status Store *)

Module StatusStore.

(** Modelled from the spec: the filepool provider that persists package
    statuses is not among the sources.  Section 3 of the specification gives
    the record, section 4.1 the operations.  The [updated] time stamp, which
    every write sets and no operation reads, is left out: the model has no
    wall clock. *)
Record PackageStatusRecord : Type := mkRecord {
  status : Status;
  previousStatus : option Status;
  extra : string
}.

Abbreviation Table := (gmap Key PackageStatusRecord).

(** Modelled from the spec: [get(siteId, component, componentId)]. *)
Definition get (t : Table) (k : Key) : option PackageStatusRecord := t !! k.

(** Modelled from the spec: the status read by [getStatus]; an absent record
    is equivalent to NOT_DOWNLOADED. *)
Definition status_of (r : option PackageStatusRecord) : Status :=
  match r with Some x => status x | None => NOT_DOWNLOADED end.

(** Modelled from the spec: [getStatus(key)] without the freshness probe of
    the owning provider. *)
Definition getStatus (t : Table) (k : Key) : Status := status_of (get t k).

(** Modelled from the spec: the extra payload of a record; an absent record
    has none. *)
Definition extra_of (r : option PackageStatusRecord) : string :=
  match r with Some x => extra x | None => "" end.

(** Modelled from the spec: the extra payload stored for a package. *)
Definition getExtra (t : Table) (k : Key) : string := extra_of (get t k).

(** Modelled from the spec: what [set] writes over the record [old].  A
    transition from DOWNLOADING to DOWNLOADED clears [previousStatus]; an
    omitted [extra] leaves the stored payload as it is. *)
Definition written (s : Status) (e : option string)
    (old : option PackageStatusRecord) : option PackageStatusRecord :=
  let prev :=
    match old with
    | Some r =>
        if bool_decide (status r = DOWNLOADING) && bool_decide (s = DOWNLOADED)
        then None else previousStatus r
    | None => None
    end in
  Some (mkRecord s prev (default (extra_of old) e)).

(** Modelled from the spec: [setPrevious] captures the current status into
    [previousStatus]; it does nothing when the package is already
    DOWNLOADING, and nothing when there is no record to capture from. *)
Definition captured (old : option PackageStatusRecord)
    : option PackageStatusRecord :=
  match old with
  | Some r =>
      if bool_decide (status r = DOWNLOADING) then Some r
      else Some (mkRecord (status r) (Some (status r)) (extra r))
  | None => None
  end.

(** Modelled from the spec: [restorePrevious] sets the status back to the
    captured one, NOT_DOWNLOADED when none was captured. *)
Definition restored (old : option PackageStatusRecord)
    : option PackageStatusRecord :=
  match old with
  | Some r =>
      Some (mkRecord (default NOT_DOWNLOADED (previousStatus r))
                     (previousStatus r) (extra r))
  | None => None
  end.

(** Modelled from the spec: [set(siteId, component, componentId, status,
    extra?)] on the table. *)
Definition set (t : Table) (k : Key) (s : Status) (e : option string) : Table :=
  partial_alter (written s e) k t.

(** Modelled from the spec: [setPrevious(siteId, component, componentId)] on
    the table. *)
Definition setPrevious (t : Table) (k : Key) : Table :=
  partial_alter captured k t.

(** Modelled from the spec: [restorePrevious(siteId, component, componentId)]
    on the table. *)
Definition restorePrevious (t : Table) (k : Key) : Table :=
  partial_alter restored k t.

End StatusStore.

(** ** Promises *)

(** The module object returned by the web service; the handlers read its
    [id], and the resource handler its downloadable [contents]. *)
Record CourseModule : Type := mkModule {
  id : Z;
  contents : list value
}.

(** A call into the filepool made by the resource handler.  What the
    filepool does with the status of the package while it downloads is its
    own business (its code is not among the sources) and is not modelled:
    for the handlers these calls are operations of the environment. *)
Inductive FilepoolCall : Type :=
| FpDownloadOrPrefetchFiles (siteId : string) (files : list value)
    (prefetch : bool) (ignoreStale : bool) (component : string) (componentId : Z)
| FpPrefetchPackage (siteId : string) (files : list value)
    (component : string) (componentId : Z) (dirPath : option string)
| FpDownloadPackage (siteId : string) (files : list value)
    (component : string) (componentId : Z) (dirPath : option string).

(** The asynchronous operations a handler waits for.  [OpDownloadFn] is the
    prefetch function supplied by the caller, named by [downloadFn]; its
    behaviour belongs to the environment. *)
Inductive asyncOp : Type :=
| OpStorePackageStatus (siteId : string) (s : Status) (component : string)
    (componentId : Z) (extra : option string)
| OpSetPackagePreviousStatus (siteId : string) (component : string)
    (componentId : Z)
| OpDownloadFn (downloadFn : string) (module : CourseModule) (courseId : Z)
    (single : bool) (siteId : string) (args : list value)
| OpLoadModuleContents (module : CourseModule) (courseId : Z) (ignoreCache : bool)
| OpGetIntroFiles (module : CourseModule) (courseId : Z)
| OpAll (calls : list FilepoolCall).

(** A promise under construction: settled ([Ret]), waiting for an operation
    with the reaction to its outcome ([Await]), or about to run the clean-up
    that removes an entry of the ongoing downloads ([Delete]). *)
Inductive proc : Type :=
| Ret (o : outcome)
| Await (op : asyncOp) (k : outcome -> proc)
| Delete (key : Key) (p : proc).

Fixpoint settle_with (p : proc) (f : outcome -> proc) : proc :=
  match p with
  | Ret o => f o
  | Await op k => Await op (fun o => settle_with (k o) f)
  | Delete key q => Delete key (settle_with q f)
  end.

(** [p.then(f)] *)
Definition then_ (p : proc) (f : value -> proc) : proc :=
  settle_with p (fun o =>
    match o with Resolved v => f v | Rejected e => Ret (Rejected e) end).

(** [p.catch(g)] *)
Definition catch_ (p : proc) (g : value -> proc) : proc :=
  settle_with p (fun o =>
    match o with Resolved v => Ret (Resolved v) | Rejected e => g e end).

(** [p.finally(h)], for a clean-up [h] that cannot fail. *)
Definition finally_ (p : proc) (h : proc -> proc) : proc :=
  settle_with p (fun o => h (Ret o)).

(** [Promise.reject(e)] and the promise of a single operation. *)
Definition reject (e : value) : proc := Ret (Rejected e).
Definition call (op : asyncOp) : proc := Await op Ret.

(** What a caller holds: a promise that was settled when it was made, or a
    reference to a promise of the application. *)
Inductive promise : Type :=
| PSettled (o : outcome)
| PRef (pid : nat).

(** ** Application state *)

Inductive Event : Type :=
| EvSetPrevious (k : Key)
| EvSet (k : Key) (s : Status) (e : option string)
| EvRestorePrevious (k : Key)
| EvCall (k : Key) (op : asyncOp).

(** A promise of the application, with the package it was created for. *)
Record Job : Type := mkJob {
  job_key : Key;
  job_proc : proc
}.

(** [online] is [appProvider.isOnline()], [currentSiteId] is
    [sitesProvider.getCurrentSiteId()], [packages] the Status Store,
    [downloadPromises] the ongoing downloads of the handlers (one handler per
    component, so that site, component and id identify an entry), [promises]
    the promises handed out so far and [trace] the operations performed. *)
Record App : Type := mkApp {
  online : bool;
  currentSiteId : string;
  packages : gmap Key StatusStore.PackageStatusRecord;
  downloadPromises : gmap Key nat;
  promises : list Job;
  trace : list Event
}.

Definition set_packages (st : App) (t : gmap Key StatusStore.PackageStatusRecord)
    (evs : list Event) : App :=
  mkApp (online st) (currentSiteId st) t (downloadPromises st)
        (promises st) (trace st ++ evs).

Definition set_downloadPromises (st : App) (d : gmap Key nat) : App :=
  mkApp (online st) (currentSiteId st) (packages st) d
        (promises st) (trace st).

Definition set_promises (st : App) (l : list Job) : App :=
  mkApp (online st) (currentSiteId st) (packages st)
        (downloadPromises st) l (trace st).

Definition log (st : App) (evs : list Event) : App :=
  mkApp (online st) (currentSiteId st) (packages st)
        (downloadPromises st) (promises st) (trace st ++ evs).

Definition set_online (st : App) (b : bool) : App :=
  mkApp b (currentSiteId st) (packages st)
        (downloadPromises st) (promises st) (trace st).

(** [siteId || this.sitesProvider.getCurrentSiteId()] *)
Definition or_current (siteId : option string) (st : App) : string :=
  match siteId with
  | Some s => if String.eqb s "" then currentSiteId st else s
  | None => currentSiteId st
  end.

(** [this.translate.instant(key)]; the translation tables are external, the
    message is identified by its key. *)
Definition translate_instant (key : string) : value := VString key.

(** ** Filepool provider and ongoing downloads *)

Module FilepoolProvider.

(** Modelled from the spec: [storePackageStatus] of the filepool provider is
    not among the sources.  It is the Status Store write: [setPrevious] and
    then [set] when a package starts downloading (section 4.2, step 3), [set]
    alone otherwise.  The write is asynchronous; [storePackageStatus] is the
    promise, [storePackageStatus_done] what its completion does. *)
Definition storePackageStatus (siteId : string) (s : Status) (component : string)
    (componentId : Z) (extra : option string) : proc :=
  call (OpStorePackageStatus siteId s component componentId extra).

(** Modelled from the spec: what the completed write does to the Status
    Store, and the operations it records. *)
Definition storePackageStatus_done (k : Key) (s : Status) (e : option string)
    (st : App) : App :=
  if bool_decide (s = DOWNLOADING) then
    set_packages st
      (StatusStore.set (StatusStore.setPrevious (packages st) k) k s e)
      [EvSetPrevious k; EvSet k s e]
  else
    set_packages st (StatusStore.set (packages st) k s e) [EvSet k s e].

(** Modelled from the spec: [setPackagePreviousStatus] of the filepool
    provider is the Status Store's [restorePrevious]. *)
Definition setPackagePreviousStatus (siteId : string) (component : string)
    (componentId : Z) : proc :=
  call (OpSetPackagePreviousStatus siteId component componentId).

(** Modelled from the spec: what the completed [restorePrevious] does. *)
Definition setPackagePreviousStatus_done (k : Key) (st : App) : App :=
  set_packages st (StatusStore.restorePrevious (packages st) k)
    [EvRestorePrevious k].

End FilepoolProvider.

(** The handler object; [component] names the kind of module it serves. *)
Record Handler : Type := mkHandler {
  component : string
}.

Module ModulePrefetchHandlerBase.

(** Modelled from the spec: [CoreCourseModulePrefetchHandlerBase]
    (module-prefetch-handler.ts) is not among the sources.  OngoingDownload
    maps (siteId, component, componentId) to the promise of the download in
    flight. *)
Definition isDownloading (h : Handler) (id : Z) (siteId : option string)
    (st : App) : bool :=
  bool_decide (is_Some (downloadPromises st !! (or_current siteId st, component h, id))).

(** Modelled from the spec: the promise of the download in flight; callers
    ask for it only when [isDownloading] holds. *)
Definition getOngoingDownload (h : Handler) (id : Z) (siteId : option string)
    (st : App) : promise :=
  match downloadPromises st !! (or_current siteId st, component h, id) with
  | Some pid => PRef pid
  | None => PSettled (Resolved VUndefined)
  end.

(** Runs a promise as far as it goes without waiting: the clean-up removes
    the entry of the ongoing downloads, an operation that is reached is
    issued (and recorded in the trace). *)
Fixpoint advance (key : Key) (p : proc) (st : App) : proc * App :=
  match p with
  | Ret o => (p, st)
  | Await op k => (p, log st [EvCall key op])
  | Delete k q => advance key q (set_downloadPromises st (delete k (downloadPromises st)))
  end.

(** Modelled from the spec: the entry is created when the download starts and
    removed when it settles, whatever the outcome, before the promise handed
    to the callers settles; that promise is the one stored in the entry. *)
Definition addOngoingDownload (h : Handler) (id : Z) (p : proc)
    (siteId : option string) (st : App) : promise * App :=
  let key := (or_current siteId st, component h, id) in
  let pid := length (promises st) in
  let st1 := set_downloadPromises st (<[key := pid]> (downloadPromises st)) in
  let '(q, st2) := advance key (finally_ p (Delete key)) st1 in
  (PRef pid, set_promises st2 (promises st2 ++ [mkJob key q])).

End ModulePrefetchHandlerBase.

(** ** CoreCourseActivityPrefetchHandlerBase *)

Module ActivityPrefetchHandler.
Import ModulePrefetchHandlerBase.

Definition setDownloaded (h : Handler) (id : Z) (siteId : option string)
    (extra : option string) (st : App) : proc :=
  let siteId := or_current siteId st in
  FilepoolProvider.storePackageStatus siteId DOWNLOADED (component h) id extra.

Definition setDownloading (h : Handler) (id : Z) (siteId : option string)
    (st : App) : proc :=
  let siteId := or_current siteId st in
  FilepoolProvider.storePackageStatus siteId DOWNLOADING (component h) id None.

Definition setPreviousStatusAndReject (h : Handler) (id : Z) (error : value)
    (siteId : option string) (st : App) : proc :=
  let siteId := or_current siteId st in
  then_ (FilepoolProvider.setPackagePreviousStatus siteId (component h) id)
        (fun _ => reject error).

(** [if (typeof extra != 'string') { extra = ''; }] *)
Definition only_string (extra : value) : string :=
  match extra with VString s => s | _ => "" end.

(** The chain built by [prefetchPackage] ([const prefetchPromise]); [siteId]
    is the site id computed at the start of [prefetchPackage].  The current
    site does not change while the application runs, so that the reactions
    read the one of the call. *)
Definition prefetchPromise (h : Handler) (module : CourseModule) (courseId : Z)
    (single : bool) (downloadFn : string) (siteId : string)
    (args : list value) (st : App) : proc :=
  catch_
    (then_
      (then_ (setDownloading h (id module) (Some siteId) st)
         (fun _ =>
            (* Package marked as downloading, call the download function. *)
            call (OpDownloadFn downloadFn module courseId single siteId args)))
      (fun extra =>
         (* Only accept string types. *)
         let extra := only_string extra in
         (* Prefetch finished, mark as downloaded. *)
         setDownloaded h (id module) (Some siteId) (Some extra) st))
    (fun error =>
       (* Error prefetching, go back to previous status and reject the promise. *)
       setPreviousStatusAndReject h (id module) error (Some siteId) st).

Definition prefetchPackage (h : Handler) (module : CourseModule) (courseId : Z)
    (single : bool) (downloadFn : string) (siteId : option string)
    (args : list value) (st : App) : promise * App :=
  let siteId := or_current siteId st in
  if negb (online st) then
    (* Cannot prefetch in offline. *)
    (PSettled (Rejected (translate_instant "core.networkerrormsg")), st)
  else if isDownloading h (id module) (Some siteId) st then
    (* There's already a download ongoing for this module, return the promise. *)
    (getOngoingDownload h (id module) (Some siteId) st, st)
  else
    addOngoingDownload h (id module)
      (prefetchPromise h module courseId single downloadFn siteId args st)
      (Some siteId) st.

End ActivityPrefetchHandler.

(** ** CoreCourseResourcePrefetchHandlerBase *)

Module ResourcePrefetchHandler.
Import ModulePrefetchHandlerBase.

(** [courseProvider.loadModuleContents(module, courseId, undefined, false,
    ignoreCache)]; it fills [module.contents], which the model receives as
    the value the operation resolves with. *)
Definition loadContents (module : CourseModule) (courseId : Z)
    (ignoreCache : bool) : proc :=
  call (OpLoadModuleContents module courseId ignoreCache).

Definition getIntroFiles (module : CourseModule) (courseId : Z) : proc :=
  call (OpGetIntroFiles module courseId).

(** The files of a list value ([introFiles], [module.contents]). *)
Definition files_of (v : value) : list value :=
  match v with VArray l => l | _ => [] end.

(** The chain built by [downloadOrPrefetch] ([const prefetchPromise]). *)
Definition prefetchPromise (h : Handler) (module : CourseModule) (courseId : Z)
    (prefetch : bool) (dirPath : option string) (siteId : string) : proc :=
  (* Load module contents (ignore cache so we always have the latest data). *)
  then_ (loadContents module courseId true) (fun loaded =>
    then_
      (* Get the intro files. *)
      (getIntroFiles module courseId)
      (fun introFiles =>
         let downloadFn :=
           if prefetch then FpPrefetchPackage else FpDownloadPackage in
         let contentFiles := files_of loaded in
         match dirPath with
         | Some dir =>
             if String.eqb dir "" then
               call (OpAll [downloadFn siteId (files_of introFiles ++ contentFiles)%list
                              (component h) (id module) None])
             else
               call (OpAll
                 [ (* Download intro files in filepool root folder. *)
                   FpDownloadOrPrefetchFiles siteId (files_of introFiles)
                     prefetch false (component h) (id module);
                   (* Download content files inside dirPath. *)
                   downloadFn siteId contentFiles (component h) (id module)
                     (Some dir) ])
         | None =>
             (* No dirPath, download everything in filepool root folder. *)
             call (OpAll [downloadFn siteId (files_of introFiles ++ contentFiles)%list
                            (component h) (id module) None])
         end)).

Definition downloadOrPrefetch (h : Handler) (module : CourseModule)
    (courseId : Z) (prefetch : bool) (dirPath : option string) (st : App)
    : promise * App :=
  if negb (online st) then
    (* Cannot download in offline. *)
    (PSettled (Rejected (translate_instant "core.networkerrormsg")), st)
  else
    let siteId := currentSiteId st in
    if isDownloading h (id module) (Some siteId) st then
      (* There's already a download ongoing for this module, return the promise. *)
      (getOngoingDownload h (id module) (Some siteId) st, st)
    else
      addOngoingDownload h (id module)
        (prefetchPromise h module courseId prefetch dirPath siteId)
        (Some siteId) st.

End ResourcePrefetchHandler.

(** ** The event loop *)

Module Loop.
Import ModulePrefetchHandlerBase.

(** What the environment does: a client calls a handler, a pending operation
    of promise [pid] completes with the environment's [response], or the
    connectivity changes.  A Status Store operation that completes with
    [Resolved _] was carried out and resolves with no value; one that
    completes with [Rejected e] found the store unavailable.  Nothing else
    writes the Status Store (specification, section 3: the status changes
    only through the download coordinator), and the current site stays the
    same. *)
Inductive Action : Type :=
| CallPrefetchPackage (h : Handler) (module : CourseModule) (courseId : Z)
    (single : bool) (downloadFn : string) (siteId : option string)
    (args : list value)
| CallDownloadOrPrefetch (h : Handler) (module : CourseModule) (courseId : Z)
    (prefetch : bool) (dirPath : option string)
| Settle (pid : nat) (response : outcome)
| Connectivity (isOnline : bool).

(** Completion of an operation: the outcome seen by the reactions and the
    effect on the Status Store. *)
Definition reply (op : asyncOp) (response : outcome) : outcome :=
  match op, response with
  | OpStorePackageStatus _ _ _ _ _, Resolved _ => Resolved VUndefined
  | OpSetPackagePreviousStatus _ _ _, Resolved _ => Resolved VUndefined
  | _, _ => response
  end.

Definition complete (op : asyncOp) (response : outcome) (st : App) : App :=
  match op, response with
  | OpStorePackageStatus siteId s comp cid e, Resolved _ =>
      FilepoolProvider.storePackageStatus_done (siteId, comp, cid) s e st
  | OpSetPackagePreviousStatus siteId comp cid, Resolved _ =>
      FilepoolProvider.setPackagePreviousStatus_done (siteId, comp, cid) st
  | _, _ => st
  end.

Definition settle (pid : nat) (response : outcome) (st : App) : App :=
  match promises st !! pid with
  | Some (mkJob key (Await op k)) =>
      let '(q, st2) := advance key (k (reply op response)) (complete op response st) in
      set_promises st2 (<[pid := mkJob key q]> (promises st2))
  | _ => st
  end.

Definition step (a : Action) (st : App) : option promise * App :=
  match a with
  | CallPrefetchPackage h module courseId single downloadFn siteId args =>
      let '(p, st') :=
        ActivityPrefetchHandler.prefetchPackage h module courseId single
          downloadFn siteId args st in
      (Some p, st')
  | CallDownloadOrPrefetch h module courseId prefetch dirPath =>
      let '(p, st') :=
        ResourcePrefetchHandler.downloadOrPrefetch h module courseId prefetch
          dirPath st in
      (Some p, st')
  | Settle pid response => (None, settle pid response st)
  | Connectivity b => (None, set_online st b)
  end.

(** A run: the state reached and the promises returned to the callers, in
    the order of the calls. *)
Fixpoint exec (acts : list Action) (st : App) : list promise * App :=
  match acts with
  | [] => ([], st)
  | a :: rest =>
      let '(r, st1) := step a st in
      let '(rs, st2) := exec rest st1 in
      (match r with Some p => p :: rs | None => rs end, st2)
  end.

Definition run (acts : list Action) (st : App) : App := (exec acts st).2.

(** Before any download: no entry, no promise.  The Status Store, the
    connectivity and the current site are arbitrary. *)
Definition initial (st : App) : Prop :=
  downloadPromises st = ∅ ∧ promises st = [].

(** The outcome of a promise held by a caller, once settled. *)
Definition outcome_of (st : App) (p : promise) : option outcome :=
  match p with
  | PSettled o => Some o
  | PRef pid =>
      match promises st !! pid with
      | Some (mkJob _ (Ret o)) => Some o
      | _ => None
      end
  end.

Definition pending (st : App) (p : promise) : Prop := outcome_of st p = None.

(** The download function is executing for package [key] under promise [pid]. *)
Definition working (st : App) (pid : nat) (key : Key) : Prop :=
  ∃ f m c s site args k,
    promises st !! pid = Some (mkJob key (Await (OpDownloadFn f m c s site args) k)).

(** *** Schedules *)

(** An action that does not complete an operation of promise [pid]. *)
Definition foreign (pid : nat) (a : Action) : bool :=
  match a with
  | Settle pid' _ => negb (Nat.eqb pid' pid)
  | _ => true
  end.

(** The operations of promise [pid] complete with the given responses, each
    after any number of actions of the rest of the application. *)
Fixpoint schedule (pid : nat) (turns : list (list Action * outcome)) : list Action :=
  match turns with
  | [] => []
  | (bg, r) :: rest => bg ++ Settle pid r :: schedule pid rest
  end.

Definition quiet (pid : nat) (turns : list (list Action * outcome)) : bool :=
  forallb (fun t => forallb (foreign pid) t.1) turns.

(** *** Traces *)

Definition event_key (ev : Event) : Key :=
  match ev with
  | EvSetPrevious k | EvSet k _ _ | EvRestorePrevious k | EvCall k _ => k
  end.

(** The part of a trace that concerns package [key]. *)
Definition key_trace (key : Key) (tr : list Event) : list Event :=
  filter (fun ev => event_key ev = key) tr.

(** Status Store operations carried out and download functions invoked; the
    requests made to the filepool are left out. *)
Definition is_operation (ev : Event) : bool :=
  match ev with
  | EvCall _ (OpDownloadFn _ _ _ _ _ _) => true
  | EvCall _ _ => false
  | _ => true
  end.

Definition operations (key : Key) (tr : list Event) : list Event :=
  filter (fun ev => is_operation ev = true) (key_trace key tr).

Definition is_work (ev : Event) : bool :=
  match ev with
  | EvCall _ (OpDownloadFn _ _ _ _ _ _) => true
  | _ => false
  end.

(** How many times a download function was invoked for package [key]. *)
Definition work_count (key : Key) (tr : list Event) : nat :=
  length (filter (fun ev => is_work ev = true) (key_trace key tr)).

(** *** Invariant of the ongoing downloads *)

(** The package a Status Store request is about. *)
Definition op_targets (key : Key) (op : asyncOp) : Prop :=
  match op with
  | OpStorePackageStatus s _ c i _ => (s, c, i) = key
  | OpSetPackagePreviousStatus s c i => (s, c, i) = key
  | _ => True
  end.

(** A chain of reactions that only writes the status of [key]. *)
Inductive clean (key : Key) : proc -> Prop :=
| clean_Ret o : clean key (Ret o)
| clean_Await op k :
    op_targets key op -> (forall o, clean key (k o)) -> clean key (Await op k).

(** A chain that, besides, removes the entry of [key] right before it settles. *)
Inductive owned (key : Key) : proc -> Prop :=
| owned_Delete o : owned key (Delete key (Ret o))
| owned_Await op k :
    op_targets key op -> (forall o, owned key (k o)) -> owned key (Await op k).

Definition job_ok (st : App) (pid : nat) (j : Job) : Prop :=
  match job_proc j with
  | Ret _ => True
  | Await _ _ =>
      owned (job_key j) (job_proc j) /\ downloadPromises st !! job_key j = Some pid
  | Delete _ _ => False
  end.

(** Every pending promise is the one registered for its package, and every
    entry of the ongoing downloads refers to a pending promise of its
    package. *)
Record Inv (st : App) : Prop := mkInv {
  inv_jobs : forall pid j, promises st !! pid = Some j -> job_ok st pid j;
  inv_entries : forall key pid, downloadPromises st !! key = Some pid ->
    exists op k, promises st !! pid = Some (mkJob key (Await op k))
}.

(** *** One download seen from its package *)

(** What the completion of [op] does to the record of its package, and what
    it adds to the trace. *)
Definition effect (op : asyncOp) (response : outcome)
    (r : option StatusStore.PackageStatusRecord)
    : option StatusStore.PackageStatusRecord :=
  match op, response with
  | OpStorePackageStatus _ s _ _ e, Resolved _ =>
      StatusStore.written s e
        (if bool_decide (s = DOWNLOADING) then StatusStore.captured r else r)
  | OpSetPackagePreviousStatus _ _ _, Resolved _ => StatusStore.restored r
  | _, _ => r
  end.

Definition effect_events (key : Key) (op : asyncOp) (response : outcome)
    : list Event :=
  match op, response with
  | OpStorePackageStatus _ s _ _ e, Resolved _ =>
      if bool_decide (s = DOWNLOADING) then [EvSetPrevious key; EvSet key s e]
      else [EvSet key s e]
  | OpSetPackagePreviousStatus _ _ _, Resolved _ => [EvRestorePrevious key]
  | _, _ => []
  end.

(** In state [st] the promise [pid] of package [key] stands at [p], the
    record of the package is [r] and its part of the trace is [tr]. *)
Record Stage (st : App) (pid : nat) (key : Key) (p : proc)
    (r : option StatusStore.PackageStatusRecord) (tr : list Event) : Prop :=
  mkStage {
    stage_inv : Inv st;
    stage_job : promises st !! pid = Some (mkJob key p);
    stage_record : packages st !! key = r;
    stage_trace : key_trace key (trace st) = tr;
    stage_entry : downloadPromises st !! key =
      match p with Await _ _ => Some pid | _ => None end
  }.

(** The promise of package [key] followed on its own: where the reaction
    [q] to a completed operation comes to rest, and what the successive
    [responses] of the environment make of the promise, of the record of the
    package and of its part of the trace.  There is no result when a response
    is given to a promise that does not wait. *)
Definition landing (key : Key) (q : proc) : proc * list Event :=
  match q with
  | Ret _ => (q, [])
  | Await op _ => (q, [EvCall key op])
  | Delete _ q' => (q', [])
  end.

Fixpoint local_run (key : Key) (p : proc)
    (r : option StatusStore.PackageStatusRecord) (tr : list Event)
    (responses : list outcome)
    : option (proc * option StatusStore.PackageStatusRecord * list Event) :=
  match responses with
  | [] => Some (p, r, tr)
  | o :: rest =>
      match p with
      | Await op k =>
          let '(q, evs) := landing key (k (reply op o)) in
          local_run key q (effect op o r)
            (tr ++ effect_events key op o ++ evs) rest
      | _ => None
      end
  end.

(** A chain that makes no request to the Status Store. *)
Definition is_status_request (op : asyncOp) : bool :=
  match op with
  | OpStorePackageStatus _ _ _ _ _ | OpSetPackagePreviousStatus _ _ _ => true
  | _ => false
  end.

Inductive no_status_request : proc -> Prop :=
| nsr_Ret o : no_status_request (Ret o)
| nsr_Await op k :
    is_status_request op = false -> (forall o, no_status_request (k o)) ->
    no_status_request (Await op k).

(** The Status Store operations carried out on package [key]. *)
Definition is_store_event (ev : Event) : bool :=
  match ev with EvCall _ _ => false | _ => true end.

Definition store_events (key : Key) (tr : list Event) : list Event :=
  filter (fun ev => is_store_event ev = true) (key_trace key tr).

(** Promise [pid] is the download in flight for package [key]. *)
Definition in_flight (st : App) (pid : nat) (key : Key) : Prop :=
  exists op k, promises st !! pid = Some (mkJob key (Await op k)).

(** A call of one of the two handlers for package [key]. *)
Definition calls_for (st : App) (key : Key) (a : Action) : bool :=
  match a with
  | CallPrefetchPackage h m _ _ _ site _ =>
      bool_decide ((or_current site st, component h, id m) = key)
  | CallDownloadOrPrefetch h m _ _ _ =>
      bool_decide ((currentSiteId st, component h, id m) = key)
  | _ => false
  end.

End Loop.

(** ** CoreCourseModuleComponent *)

Module CourseModuleComponent.

(** Modelled from the spec: [CoreConstants] is not among the sources; the
    four status names of the data model, as the strings carried by the
    PACKAGE_STATUS_CHANGED event. *)
Definition status_name (s : Status) : string :=
  match s with
  | NOT_DOWNLOADED => "notdownloaded"
  | DOWNLOADING => "downloading"
  | DOWNLOADED => "downloaded"
  | OUTDATED => "outdated"
  end.

(** The fields of the component that the observer reads and writes.
    [prefetchHandler] is the component name of the handler found by
    [getPrefetchHandlerFor], [canCheckUpdates] the answer of the prefetch
    delegate, [hasUpdateStatus] whether [module.handlerData.updateStatus] is
    defined and [updateStatusCalls] the statuses it was called with.
    [statusObserver] is the site the observer is registered for. *)
Record Component : Type := mkComponent {
  moduleId : Z;
  showDownloadButton : bool;
  hasUpdateStatus : bool;
  updateStatusCalls : list string;
  prefetchHandler : option string;
  canCheckUpdates : bool;
  downloadEnabled : bool;
  showDownload : bool;
  showRefresh : bool;
  spinner : bool;
  statusObserver : option string
}.

(** The data of a PACKAGE_STATUS_CHANGED event; an empty [status] stands
    for a missing one. *)
Record StatusChanged : Type := mkStatusChanged {
  siteId : string;
  componentName : string;
  componentId : Z;
  statusText : string
}.

(** [this.module.handlerData.updateStatus(status)] *)
Definition updateStatus (c : Component) (status : string) : Component :=
  mkComponent (moduleId c) (showDownloadButton c) (hasUpdateStatus c)
    (updateStatusCalls c ++ [status]) (prefetchHandler c) (canCheckUpdates c)
    (downloadEnabled c) (showDownload c) (showRefresh c) (spinner c)
    (statusObserver c).

Definition showStatus (c : Component) (status : string) : Component :=
  if negb (String.eqb status "") then
    let c1 :=
      mkComponent (moduleId c) (showDownloadButton c) (hasUpdateStatus c)
        (updateStatusCalls c) (prefetchHandler c) (canCheckUpdates c)
        (downloadEnabled c)
        (String.eqb status (status_name NOT_DOWNLOADED))
        (String.eqb status (status_name OUTDATED)
         || (negb (canCheckUpdates c) && String.eqb status (status_name DOWNLOADED)))
        (String.eqb status (status_name DOWNLOADING))
        (statusObserver c) in
    if hasUpdateStatus c then updateStatus c1 status else c1
  else c.

(** The callback registered by [ngOnInit]. *)
Definition onStatusChanged (c : Component) (data : StatusChanged) : Component :=
  match prefetchHandler c with
  | Some handlerComponent =>
      if Z.eqb (componentId data) (moduleId c)
         && String.eqb (componentName data) handlerComponent then
        if downloadEnabled c then
          (* Download is enabled, show the status. *)
          showStatus c (statusText data)
        else if hasUpdateStatus c then
          (* Download isn't enabled but the handler defines a updateStatus
             function, call it anyway. *)
          updateStatus c (statusText data)
        else c
      else c
  | None => c
  end.

(** [ngOnInit]: the observer is registered on the current site when the
    module shows a download button; [handler] is what
    [getPrefetchHandlerFor(module)] returns. *)
Definition ngOnInit (c : Component) (handler : option string)
    (currentSite : string) : Component :=
  if showDownloadButton c then
    mkComponent (moduleId c) (showDownloadButton c) (hasUpdateStatus c)
      (updateStatusCalls c) handler (canCheckUpdates c)
      (downloadEnabled c) (showDownload c) (showRefresh c) (spinner c)
      (Some currentSite)
  else c.

(** Modelled from the spec: the events provider is not among the sources;
    [trigger(eventName, payload, scopeId)] calls the observers registered
    for that site. *)
Definition trigger (c : Component) (data : StatusChanged) : Component :=
  match statusObserver c with
  | Some site => if String.eqb site (siteId data) then onStatusChanged c data else c
  | None => c
  end.

(** A series of broadcasts. *)
Definition broadcast (c : Component) (evs : list StatusChanged) : Component :=
  fold_left trigger evs c.

(** What the component displays. *)
Definition display (c : Component) : bool * bool * bool :=
  (spinner c, showDownload c, showRefresh c).

End CourseModuleComponent.

(** ** Sample data *)

Module Sample.
Import Loop.

Definition forum : Handler := mkHandler "mmaModForum".
Definition page : Handler := mkHandler "mmaModPage".
Definition module7 : CourseModule := mkModule 7 [].
Definition module9 : CourseModule := mkModule 9 [VString "index.html"].
Definition K : Key := ("site1", "mmaModForum", 7%Z).

(** A fresh application, online, with an empty Status Store. *)
Definition app : App := mkApp true "site1" ∅ ∅ [] [].

(** The same without connectivity. *)
Definition app_offline : App := mkApp false "site1" ∅ ∅ [] [].

(** Package K was downloaded before, with payload "v1". *)
Definition app_v1 : App :=
  mkApp true "site1"
    {[ K := StatusStore.mkRecord DOWNLOADED None "v1" ]} ∅ [] [].

(** Another module is being prefetched. *)
Definition busy : list Action :=
  [CallPrefetchPackage page module9 3 false "prefetchPage" None []].

Definition ok : outcome := Resolved VUndefined.

(** Two callers ask for the forum; its download function resolves with "v2". *)
Definition two_callers : list Action :=
  [ CallPrefetchPackage forum module7 3 true "prefetchForum" None [];
    CallPrefetchPackage forum module7 3 true "prefetchForum" None [];
    Settle 0 ok; Settle 0 (Resolved (VString "v2")); Settle 0 ok ].

(** The download function of the forum fails. *)
Definition failing_activity : list Action :=
  [ CallPrefetchPackage forum module7 3 true "prefetchForum" None [];
    Settle 0 ok; Settle 0 (Rejected (VString "boom")); Settle 0 ok ].

(** The contents of the forum module cannot be loaded. *)
Definition failing_resource : list Action :=
  [ CallDownloadOrPrefetch forum module7 3 true None;
    Settle 0 (Rejected (VString "boom")) ].

(** A module component that shows the status of the forum: download
    enabled, [updateStatus] defined, initialised on site1. *)
Definition widget : CourseModuleComponent.Component :=
  CourseModuleComponent.ngOnInit
    (CourseModuleComponent.mkComponent 7 true true [] None true
       true false false false None)
    (Some "mmaModForum") "site1".

Definition downloaded_event : CourseModuleComponent.StatusChanged :=
  CourseModuleComponent.mkStatusChanged "site1" "mmaModForum" 7
    (CourseModuleComponent.status_name DOWNLOADED).

End Sample.

(** ** Entry points of the resource handler *)

Module ResourcePrefetchHandlerEntry.
Import ResourcePrefetchHandler.

(** [download(module, courseId, dirPath)] *)
Definition download (h : Handler) (module : CourseModule) (courseId : Z)
    (dirPath : option string) (st : App) : promise * App :=
  downloadOrPrefetch h module courseId false dirPath st.

(** [prefetch(module, courseId, single, dirPath)] *)
Definition prefetch (h : Handler) (module : CourseModule) (courseId : Z)
    (single : bool) (dirPath : option string) (st : App) : promise * App :=
  downloadOrPrefetch h module courseId true dirPath st.

(** [getFiles(module, courseId, single)]: the contents are loaded without
    [ignoreCache] (an omitted argument, which [loadModuleContents] reads as
    false), and the promise is not registered as a download. *)
Definition getFiles (module : CourseModule) (courseId : Z) (single : bool) : proc :=
  (* Load module contents if needed. *)
  then_ (loadContents module courseId false) (fun loaded =>
    then_ (getIntroFiles module courseId) (fun files =>
      Ret (Resolved (VArray (files_of files ++ files_of loaded))))).

(** What a call into the filepool asks for: the files, the package they
    belong to, the folder they go to ([None] is the root folder of the
    filepool) and whether they are queued rather than downloaded at once. *)
Definition fp_files (c : FilepoolCall) : list value :=
  match c with
  | FpDownloadOrPrefetchFiles _ files _ _ _ _ => files
  | FpPrefetchPackage _ files _ _ _ => files
  | FpDownloadPackage _ files _ _ _ => files
  end.

Definition fp_package (c : FilepoolCall) : Key :=
  match c with
  | FpDownloadOrPrefetchFiles s _ _ _ comp i => (s, comp, i)
  | FpPrefetchPackage s _ comp i _ => (s, comp, i)
  | FpDownloadPackage s _ comp i _ => (s, comp, i)
  end.

Definition fp_dirPath (c : FilepoolCall) : option string :=
  match c with
  | FpDownloadOrPrefetchFiles _ _ _ _ _ _ => None
  | FpPrefetchPackage _ _ _ _ d => d
  | FpDownloadPackage _ _ _ _ d => d
  end.

Definition fp_prefetch (c : FilepoolCall) : bool :=
  match c with
  | FpDownloadOrPrefetchFiles _ _ p _ _ _ => p
  | FpPrefetchPackage _ _ _ _ _ => true
  | FpDownloadPackage _ _ _ _ _ => false
  end.

(** A request made to the filepool, in a trace. *)
Definition is_filepool_request (ev : Event) : bool :=
  match ev with EvCall _ (OpAll _) => true | _ => false end.

(** A promise that is not registered as a download, followed on its own:
    what the successive [responses] to the operations it waits for make of
    it. *)
Fixpoint answered (p : proc) (responses : list outcome) {struct responses} : proc :=
  match responses with
  | [] => p
  | o :: rest =>
      match p with
      | Await op k => answered (k (Loop.reply op o)) rest
      | _ => p
      end
  end.

End ResourcePrefetchHandlerEntry.

(** ** Life of a module component *)

Module CourseModuleComponentView.
Import CourseModuleComponent.

Definition set_downloadEnabled (c : Component) (value : bool) : Component :=
  mkComponent (moduleId c) (showDownloadButton c) (hasUpdateStatus c)
    (updateStatusCalls c) (prefetchHandler c) (canCheckUpdates c)
    value (showDownload c) (showRefresh c) (spinner c) (statusObserver c).

Definition set_spinner (c : Component) (value : bool) : Component :=
  mkComponent (moduleId c) (showDownloadButton c) (hasUpdateStatus c)
    (updateStatusCalls c) (prefetchHandler c) (canCheckUpdates c)
    (downloadEnabled c) (showDownload c) (showRefresh c) value (statusObserver c).

Definition set_statusObserver (c : Component) (o : option string) : Component :=
  mkComponent (moduleId c) (showDownloadButton c) (hasUpdateStatus c)
    (updateStatusCalls c) (prefetchHandler c) (canCheckUpdates c)
    (downloadEnabled c) (showDownload c) (showRefresh c) (spinner c) o.

(** The component with the fields that its setter, [download] and
    [ngOnDestroy] use besides those of the observer.  [hasOnDestroy] tells
    whether [module.handlerData.onDestroy] is defined; the last four fields
    record what the component asked of its collaborators: the calls of
    [prefetchDelegate.getModuleStatus], of [prefetchHandler.getDownloadSize]
    (with the [single] argument of each call), of [handlerData.onDestroy] and
    the errors passed to [domUtils.showErrorModalDefault]. *)
Record View : Type := mkView {
  fields : Component;
  statusCalculated : bool;
  isDestroyed : bool;
  hasOnDestroy : bool;
  getModuleStatusCalls : nat;
  getDownloadSizeCalls : list bool;
  onDestroyCalls : nat;
  errorModals : list value
}.

Definition set_fields (v : View) (c : Component) : View :=
  mkView c (statusCalculated v) (isDestroyed v) (hasOnDestroy v)
    (getModuleStatusCalls v) (getDownloadSizeCalls v) (onDestroyCalls v)
    (errorModals v).

(** [@Input('downloadEnabled') set enabled(value)] *)
Definition enabled (value : bool) (v : View) : View :=
  let c := set_downloadEnabled (fields v) value in
  if showDownloadButton c && downloadEnabled c && negb (statusCalculated v) then
    (* First time that the download is enabled. Initialize the data. *)
    mkView (set_spinner c true) true (isDestroyed v) (hasOnDestroy v)
      (* Get current status to decide which icon should be shown. *)
      (S (getModuleStatusCalls v)) (getDownloadSizeCalls v) (onDestroyCalls v)
      (errorModals v)
  else set_fields v c.

(** The reaction chained on [getModuleStatus] by the setter:
    [.then(this.showStatus.bind(this))]. *)
Definition statusKnown (status : string) (v : View) : View :=
  set_fields v (showStatus (fields v) status).

(** A PACKAGE_STATUS_CHANGED event reaches the events provider. *)
Definition notified (data : StatusChanged) (v : View) : View :=
  set_fields v (trigger (fields v) data).

(** [download(event, refresh)] up to the call
    [getDownloadSize(this.module, this.courseId, true)].  [refresh] is read
    only by the reaction to the size, which hands it to
    [courseHelper.prefetchModule]; that reaction is a call into the course
    helper and is not followed here. *)
Definition download (refresh : bool) (v : View) : View :=
  match prefetchHandler (fields v) with
  | None => v
  | Some _ =>
      (* Show spinner since this operation might take a while. *)
      mkView (set_spinner (fields v) true) (statusCalculated v) (isDestroyed v)
        (hasOnDestroy v) (getModuleStatusCalls v)
        (* Get download size to ask for confirm if it's high. *)
        (getDownloadSizeCalls v ++ [true]) (onDestroyCalls v) (errorModals v)
  end.

(** The [catch] reaction of [download]: [getDownloadSize] or
    [courseHelper.prefetchModule] was rejected with [error]. *)
Definition downloadFailed (error : value) (v : View) : View :=
  (* Error, hide spinner. *)
  mkView (set_spinner (fields v) false) (statusCalculated v) (isDestroyed v)
    (hasOnDestroy v) (getModuleStatusCalls v) (getDownloadSizeCalls v)
    (onDestroyCalls v)
    (if negb (isDestroyed v) then errorModals v ++ [error] else errorModals v).

(** [ngOnDestroy]; [statusObserver.off()] takes the observer out of the
    events provider. *)
Definition ngOnDestroy (v : View) : View :=
  mkView (set_statusObserver (fields v) None) (statusCalculated v) true
    (hasOnDestroy v) (getModuleStatusCalls v) (getDownloadSizeCalls v)
    (if hasOnDestroy v then S (onDestroyCalls v) else onDestroyCalls v)
    (errorModals v).

(** What happens to a component between its initialisation and the end of
    the application, in any order. *)
Inductive Happening : Type :=
| SetEnabled (value : bool)
| StatusKnown (status : string)
| Notified (data : StatusChanged)
| DownloadClicked (refresh : bool)
| DownloadFailed (error : value)
| Destroyed.

Definition happen (v : View) (e : Happening) : View :=
  match e with
  | SetEnabled value => enabled value v
  | StatusKnown status => statusKnown status v
  | Notified data => notified data v
  | DownloadClicked refresh => download refresh v
  | DownloadFailed error => downloadFailed error v
  | Destroyed => ngOnDestroy v
  end.

Definition life (v : View) (es : list Happening) : View := fold_left happen es v.

(** The download is being enabled. *)
Definition is_enabling (e : Happening) : bool :=
  match e with SetEnabled true => true | _ => false end.

(** The notification is about the module of the component: the conditions
    of the events provider and of the observer. *)
Definition concerns (c : Component) (data : StatusChanged) : bool :=
  bool_decide (statusObserver c = Some (siteId data))
  && Z.eqb (componentId data) (moduleId c)
  && bool_decide (prefetchHandler c = Some (componentName data)).

End CourseModuleComponentView.

(** ** CoreUtilsProvider *)

Module CoreUtilsProvider.

(** JavaScript numbers are the binary64 floating point numbers, and [+] on
    them is the floating point addition (rounding to nearest, ties to
    even). *)
Abbreviation number := PrimFloat.float.

(** A file as the web services describe it; [filesize] may be missing. *)
Record FileEntry : Type := mkFile {
  fileurl : string;
  filesize : option number
}.

(** [{size: number, total: boolean}] *)
Record SizeResult : Type := mkSize {
  size : number;
  total : bool
}.

Definition sumFileSizes (files : list FileEntry) : SizeResult :=
  fold_left
    (fun result file =>
       match filesize file with
       | None =>
           (* We don't have the file size, cannot calculate its total size. *)
           mkSize (size result) false
       | Some n => mkSize (PrimFloat.add (size result) n) (total result)
       end)
    files (mkSize PrimFloat.zero true).

Section UniqueArray.
Context {A V : Type} `{EqDecision V}.

(** [key ? entry[key] : entry]: the value of an entry that must be unique.
    [indexOf] compares with [===]; the values are taken from a type with
    decidable equality (numbers, strings). *)
Variable value_of : A -> V.

(** The [for] loop of [uniqueArray], from index [i] on. *)
Fixpoint uniqueArray_loop (array : list A) (filtered : list A) (unique : list V)
    : list A :=
  match array with
  | [] => filtered
  | entry :: rest =>
      let value := value_of entry in
      if bool_decide (value ∈ unique) then uniqueArray_loop rest filtered unique
      else uniqueArray_loop rest (filtered ++ [entry]) (unique ++ [value])
  end.

Definition uniqueArray (array : list A) : list A := uniqueArray_loop array [] [].

End UniqueArray.

(** [promise.then(() => false).catch(() => true)] *)
Definition promiseFails (promise : proc) : proc :=
  catch_ (then_ promise (fun _ => Ret (Resolved (VBool false))))
         (fun _ => Ret (Resolved (VBool true))).

(** [promise.then(() => true).catch(() => false)] *)
Definition promiseWorks (promise : proc) : proc :=
  catch_ (then_ promise (fun _ => Ret (Resolved (VBool true))))
         (fun _ => Ret (Resolved (VBool false))).

(** JavaScript's conversion of a value to a boolean ([if (error)]). *)
Definition truthy (v : value) : bool :=
  match v with
  | VUndefined => false
  | VBool b => b
  | VNumber z => negb (Z.eqb z 0)
  | VString s => negb (String.eqb s "")
  | VArray _ => true
  end.

(** The promise made by [allPromises] for [total] promises: how many have
    finished ([count]), the last error seen ([error], undefined at first)
    and the outcome once it has settled. *)
Record AllPromises : Type := mkAll {
  all_total : nat;
  all_count : nat;
  all_error : value;
  all_outcome : option outcome
}.

(** [allPromises(promises)] at the time of the call. *)
Definition allPromises (promises_length : nat) : AllPromises :=
  if Nat.eqb promises_length 0 then mkAll 0 0 VUndefined (Some (Resolved VUndefined))
  else mkAll promises_length 0 VUndefined None.

(** One of the promises settles with [o]: the reactions
    [.catch((err) => { error = err; }).finally(...)]. *)
Definition allPromises_settled (o : outcome) (a : AllPromises) : AllPromises :=
  let error := match o with Rejected err => err | Resolved _ => all_error a end in
  let count := S (all_count a) in
  if Nat.eqb count (all_total a) then
    (* All promises have finished, reject/resolve. *)
    mkAll (all_total a) count error
      (match all_outcome a with
       | Some settled => Some settled
       | None => Some (if truthy error then Rejected error else Resolved VUndefined)
       end)
  else mkAll (all_total a) count error (all_outcome a).

(** The reason of a rejection. *)
Definition rejection (o : outcome) : option value :=
  match o with Rejected err => Some err | Resolved _ => None end.

(** The promises settle one after the other with [outcomes], in the order
    of their completion. *)
Definition allPromises_after (promises_length : nat) (outcomes : list outcome)
    : AllPromises :=
  fold_left (fun a o => allPromises_settled o a) outcomes (allPromises promises_length).

End CoreUtilsProvider.

(** ** Promises of the add-on handlers *)

Module Settled.

(** The outcome of a promise with a typed value.  The chains that the
    add-on handlers build to collect files and sizes share no state with the
    rest of the application; they are modelled by their outcome, and the
    providers they ask by functions that give the outcome of each request
    (the same answer to the same request during one call). *)
Inductive result (A : Type) : Type :=
| Fulfilled (a : A)
| Failed (e : value).

Arguments Fulfilled {A} a.
Arguments Failed {A} e.

(** [p.then(f)] *)
Definition then_ {A B : Type} (p : result A) (f : A -> result B) : result B :=
  match p with Fulfilled a => f a | Failed e => Failed e end.

(** [p.catch(g)] *)
Definition catch_ {A : Type} (p : result A) (g : value -> result A) : result A :=
  match p with Fulfilled a => Fulfilled a | Failed e => g e end.

(** [Promise.all(promises)].  When several promises are rejected JavaScript
    takes the error of the one rejected first in time; without timing, the
    first in the list is taken. *)
Fixpoint all {A : Type} (promises : list (result A)) : result (list A) :=
  match promises with
  | [] => Fulfilled []
  | p :: rest =>
      match p with
      | Failed e => Failed e
      | Fulfilled a =>
          match all rest with
          | Fulfilled l => Fulfilled (a :: l)
          | Failed e => Failed e
          end
      end
  end.

(** [siteId || this.sitesProvider.getCurrentSiteId()] *)
Definition site_or (siteId : option string) (current : string) : string :=
  match siteId with
  | Some s => if String.eqb s "" then current else s
  | None => current
  end.

End Settled.

(** ** AddonModWikiPrefetchHandler *)

Module AddonModWikiPrefetchHandler.
Import Settled CoreUtilsProvider.

(** A page of the list returned by [getWikiPageList]. *)
Record Page : Type := mkPage {
  page_id : Z;
  contentsize : option CoreUtilsProvider.number;
  timemodified : Z
}.

Section Handler.
(** The wiki object of the web service, the current site and the answers of
    the wiki provider; [getIntroFilesFromInstance] belongs to the base class
    of the handlers. *)
Context {Wiki : Type}.
Variable getCurrentSiteId : string.
Variable getWiki : Z -> Z -> bool -> string -> result Wiki.
Variable getWikiPageList : Wiki -> bool -> bool -> string -> result (list Page).
Variable getWikiFileList : Wiki -> bool -> bool -> string -> result (list FileEntry).
Variable getIntroFilesFromInstance : CourseModule -> Wiki -> list FileEntry.

Definition getAllPages (module : CourseModule) (courseId : Z) (offline : bool)
    (ignoreCache : bool) (siteId : option string) : result (list Page) :=
  let siteId := site_or siteId getCurrentSiteId in
  catch_
    (then_ (getWiki courseId (id module) offline siteId)
       (fun wiki => getWikiPageList wiki offline ignoreCache siteId))
    (fun _ =>
       (* Wiki not found, return empty list. *)
       Fulfilled []).

Definition getFiles (module : CourseModule) (courseId : Z) (single : bool)
    (siteId : option string) : result (list FileEntry) :=
  let siteId := site_or siteId getCurrentSiteId in
  catch_
    (then_ (getWiki courseId (id module) false siteId)
       (fun wiki =>
          let introFiles := getIntroFilesFromInstance module wiki in
          then_ (getWikiFileList wiki false false siteId)
            (fun files => Fulfilled (introFiles ++ files))))
    (fun _ =>
       (* Wiki not found, return empty list. *)
       Fulfilled []).

(** [if (page.contentsize)]: a number counts as true unless it is zero or
    NaN. *)
Definition has_contentsize (n : number) : bool :=
  negb (PrimFloat.eqb n PrimFloat.zero) && negb (PrimFloat.is_nan n).

(** [if (page.contentsize) { size = size + page.contentsize; }] over the
    pages. *)
Definition pagesSize (pages : list Page) : number :=
  fold_left
    (fun size page =>
       match contentsize page with
       | Some n => if has_contentsize n then PrimFloat.add size n else size
       | None => size
       end)
    pages PrimFloat.zero.

Definition getDownloadSize (module : CourseModule) (courseId : Z) (single : bool)
    : result SizeResult :=
  let siteId := getCurrentSiteId in
  let promises :=
    [ then_ (getFiles module courseId single (Some siteId))
        (fun files => Fulfilled (sumFileSizes files));
      then_ (getAllPages module courseId false true (Some siteId))
        (fun pages => Fulfilled (mkSize (pagesSize pages) true)) ] in
  then_ (all promises)
    (fun sizes =>
       (* Sum values in the array. *)
       Fulfilled
         (fold_left
            (fun a b => mkSize (PrimFloat.add (size a) (size b)) (total a && total b))
            sizes (mkSize PrimFloat.zero true))).

End Handler.

End AddonModWikiPrefetchHandler.

(** ** AddonModAssignPrefetchHandler *)

Module AddonModAssignPrefetchHandler.
Import Settled.

(** What the handler reads of an assignment and of the answer of
    [getSubmissions]. *)
Record Assign : Type := mkAssign {
  assign_id : Z
}.

Record Submissions : Type := mkSubmissions {
  canviewsubmissions : bool
}.

Section Handler.
Variable getAssignment : Z -> Z -> result Assign.
Variable getSubmissions : Z -> result Submissions.

Definition canUseCheckUpdates (module : CourseModule) (courseId : Z) : result bool :=
  (* Teachers cannot use the WS because it doesn't check student submissions. *)
  catch_
    (then_
       (then_ (getAssignment courseId (id module))
          (fun assign => getSubmissions (assign_id assign)))
       (fun data => Fulfilled (negb (canviewsubmissions data))))
    (fun _ => Fulfilled false).

End Handler.

End AddonModAssignPrefetchHandler.

(** ** AddonModDataPrefetchHandler *)

Module AddonModDataPrefetchHandler.
Import Settled CoreUtilsProvider.

(** What the handler reads of a database, of its access information, of a
    group and of an entry.  A time of 0 stands for no limit. *)
Record Database : Type := mkDatabase {
  database_id : Z;
  timeavailablefrom : Z;
  timeavailableto : Z
}.

Record AccessData : Type := mkAccessData {
  timeavailable : bool
}.

Record Group : Type := mkGroup {
  group_id : Z
}.

Record Content : Type := mkContent {
  content_files : list FileEntry
}.

(** The ids of the entries are the non-negative integers given by the
    database; a JavaScript number holds them exactly as long as they are
    safe integers (below 2^53). *)
Record Entry : Type := mkEntry {
  entry_id : N;
  entry_contents : list Content
}.


(** [groupInfo.groups] may be missing. *)
Record GroupInfo : Type := mkGroupInfo {
  groupInfo_groups : option (list Group)
}.

(** The object returned by [getDatabaseInfoHelper]; [database] is undefined
    until the database has been fetched. *)
Record Info : Type := mkInfo {
  info_database : option Database;
  info_groups : list Group;
  info_entries : list Entry;
  info_files : list FileEntry
}.

(** A property name that is an array index: an integer below 2^32 - 1. *)
Definition is_index (key : N) : bool := N.ltb key 4294967295.

(** A JavaScript object whose property names are entry ids: the properties
    in the order in which [Object.keys] gives them, which is the array
    indices in ascending order, followed by the other names in the order in
    which they were first assigned.  [obj_set key e obj] is [obj[key] = e]:
    an index goes to its place among the indices, another name that is new
    goes to the end, and a name that is there keeps its place. *)
Fixpoint obj_set {E : Type} (key : N) (e : E) (obj : list (N * E)) : list (N * E) :=
  match obj with
  | [] => [(key, e)]
  | (k, x) :: rest =>
      if N.eqb key k then (key, e) :: rest
      else if is_index key && (negb (is_index k) || N.ltb key k)
      then (key, e) :: (k, x) :: rest
      else (k, x) :: obj_set key e rest
  end.



(** [utils.objectToArray(obj)]: [Object.keys(obj).map((key) => obj[key])] *)
Definition objectToArray {E : Type} (obj : list (N * E)) : list E := map snd obj.

Definition getEntriesFiles (entries : list Entry) : list FileEntry :=
  fold_left
    (fun acc entry =>
       fold_left (fun acc content => acc ++ content_files content)
         (entry_contents entry) acc)
    entries [].

Section Handler.
(** The current site, the clock ([timeUtils.timestamp()]) and the answers of
    the data and groups providers; [getIntroFilesFromInstance] belongs to the
    base class of the handlers and accepts a missing instance. *)
Variable getCurrentSiteId : string.
Variable timestamp : Z.
Variable getDatabase : Z -> Z -> option string -> bool -> result Database.
Variable getDatabaseAccessInformation : Z -> result AccessData.
Variable getActivityGroupInfo : Z -> string -> result GroupInfo.
Variable fetchAllEntries : Z -> Z -> bool -> bool -> option string -> result (list Entry).
Variable getIntroFilesFromInstance : CourseModule -> option Database -> list FileEntry.

Definition getAllUniqueEntries (dataId : Z) (groups : list Group)
    (forceCache : bool) (ignoreCache : bool) (siteId : option string)
    : result (list Entry) :=
  let promises :=
    map (fun group =>
           fetchAllEntries dataId (group_id group) forceCache ignoreCache siteId)
        groups in
  then_ (all promises)
    (fun responses =>
       let uniqueEntries :=
         fold_left
           (fun obj groupEntries =>
              fold_left (fun obj entry => obj_set (entry_id entry) entry obj)
                groupEntries obj)
           responses [] in
       Fulfilled (objectToArray uniqueEntries)).

(** The variables [database], [groups], [entries] and [files] of the
    function are threaded through the reactions as an [Info]: the [catch]
    reaction returns them as they are when the failure occurs. *)
Definition getDatabaseInfoHelper (module : CourseModule) (courseId : Z)
    (omitFail : bool) (forceCache : bool) (ignoreCache : bool)
    (siteId : option string) : result Info :=
  let siteId := site_or siteId getCurrentSiteId in
  let vars0 := mkInfo None [] [] [] in
  let '(uniqueEntries, vars) :=
    match getDatabase courseId (id module) (Some siteId) forceCache with
    | Fulfilled data =>
        let vars1 :=
          mkInfo (Some data) [] [] (getIntroFilesFromInstance module (Some data)) in
        match getActivityGroupInfo (id module) siteId with
        | Fulfilled groupInfo =>
            let groups :=
              match groupInfo_groups groupInfo with
              | Some (g :: gs) => g :: gs
              | _ => [mkGroup 0]
              end in
            (getAllUniqueEntries (database_id data) groups forceCache ignoreCache
               (Some siteId),
             mkInfo (info_database vars1) groups (info_entries vars1)
               (info_files vars1))
        | Failed e => (Failed e, vars1)
        end
    | Failed e => (Failed e, vars0)
    end in
  match uniqueEntries with
  | Fulfilled entries =>
      Fulfilled
        (mkInfo (info_database vars) (info_groups vars) entries
           (info_files vars ++ getEntriesFiles entries))
  | Failed message =>
      if omitFail then
        (* Any error, return the info we have. *)
        Fulfilled vars
      else Failed message
  end.

Definition getFiles (module : CourseModule) (courseId : Z) (single : bool)
    : result (list FileEntry) :=
  then_ (getDatabaseInfoHelper module courseId true false false None)
    (fun info => Fulfilled (info_files info)).

Definition isDownloadable (module : CourseModule) (courseId : Z) : result bool :=
  then_ (getDatabase courseId (id module) None true)
    (fun database =>
       then_ (getDatabaseAccessInformation (database_id database))
         (fun accessData =>
            (* Check if database is restricted by time. *)
            if negb (timeavailable accessData) then
              let time := timestamp in
              (* It is restricted, checking times. *)
              if negb (Z.eqb (timeavailablefrom database) 0)
                 && Z.ltb time (timeavailablefrom database)
              then Fulfilled false
              else if negb (Z.eqb (timeavailableto database) 0)
                      && Z.ltb (timeavailableto database) time
              then Fulfilled false
              else Fulfilled true
            else Fulfilled true)).

End Handler.

End AddonModDataPrefetchHandler.

(** ** Further sample data *)

Module Examples.

(** The module component of the forum with the download disabled:
    [updateStatus] defined, initialised on site1. *)
Definition disabled_widget : CourseModuleComponent.Component :=
  CourseModuleComponent.ngOnInit
    (CourseModuleComponent.mkComponent 7 true true [] None true
       false false false false None)
    (Some "mmaModForum") "site1".

(** The prefetch of the forum is attempted, its download function fails and
    so does the restoration of the previous status: the record of the
    package stays at DOWNLOADING with no download in flight, as after a
    restart in the middle of a download. *)
Definition abandoned_attempt : list Loop.Action :=
  [ Loop.CallPrefetchPackage Sample.forum Sample.module7 3 true "prefetchForum" None [];
    Loop.Settle 0 Sample.ok; Loop.Settle 0 (Rejected (VString "boom"));
    Loop.Settle 0 (Rejected (VString "store unavailable")) ].

(** A second attempt, whose download function fails while the Status Store
    works. *)
Definition second_attempt : list Loop.Action :=
  [ Loop.CallPrefetchPackage Sample.forum Sample.module7 3 true "prefetchForum" None [];
    Loop.Settle 1 Sample.ok; Loop.Settle 1 (Rejected (VString "boom"));
    Loop.Settle 1 Sample.ok ].

(** The entries of a database fetched for two groups: entry 1 is visible
    in both. *)
Definition entry (n : N) (file : string) : AddonModDataPrefetchHandler.Entry :=
  AddonModDataPrefetchHandler.mkEntry n
    [AddonModDataPrefetchHandler.mkContent [CoreUtilsProvider.mkFile file None]].

Definition fetchAllEntries (dataId : Z) (groupId : Z) (forceCache : bool)
    (ignoreCache : bool) (siteId : option string)
    : Settled.result (list AddonModDataPrefetchHandler.Entry) :=
  Settled.Fulfilled
    (if Z.eqb groupId 1 then [entry 3 "c.png"; entry 1 "a.png"]
     else [entry 1 "a2.png"; entry 2 "b.png"]).

End Examples.

(** * Properties *)

Import ModulePrefetchHandlerBase Loop.

(** ** Status Store *)

Lemma lookup_set_eq (t : StatusStore.Table) k s e :
  StatusStore.set t k s e !! k = StatusStore.written s e (t !! k).
Proof. apply lookup_partial_alter_eq. Qed.

Lemma lookup_setPrevious_eq (t : StatusStore.Table) k :
  StatusStore.setPrevious t k !! k = StatusStore.captured (t !! k).
Proof. apply lookup_partial_alter_eq. Qed.

Lemma lookup_restorePrevious_eq (t : StatusStore.Table) k :
  StatusStore.restorePrevious t k !! k = StatusStore.restored (t !! k).
Proof. apply lookup_partial_alter_eq. Qed.

Lemma lookup_set_ne (t : StatusStore.Table) k k' s e :
  k ≠ k' -> StatusStore.set t k s e !! k' = t !! k'.
Proof. apply lookup_partial_alter_ne. Qed.

Lemma lookup_setPrevious_ne (t : StatusStore.Table) k k' :
  k ≠ k' -> StatusStore.setPrevious t k !! k' = t !! k'.
Proof. apply lookup_partial_alter_ne. Qed.

Lemma lookup_restorePrevious_ne (t : StatusStore.Table) k k' :
  k ≠ k' -> StatusStore.restorePrevious t k !! k' = t !! k'.
Proof. apply lookup_partial_alter_ne. Qed.

(** A failed attempt on a package that was not downloading gives back the
    status and the payload it had. *)
Lemma rollback_record (r : option StatusStore.PackageStatusRecord) :
  StatusStore.status_of r ≠ DOWNLOADING ->
  let r' := StatusStore.restored
              (StatusStore.written DOWNLOADING None (StatusStore.captured r)) in
  StatusStore.status_of r' = StatusStore.status_of r
  /\ StatusStore.extra_of r' = StatusStore.extra_of r.
Proof.
  destruct r as [[s p x]|]; simpl; [|done].
  intros Hs. rewrite bool_decide_eq_false_2 by done. simpl.
  by rewrite andb_false_r.
Qed.

(** ** Reactions *)

Lemma or_current_idem s st :
  or_current (Some (or_current s st)) st = or_current s st.
Proof.
  unfold or_current. destruct s as [s|].
  - destruct (String.eqb s "") eqn:E; [|by rewrite E].
    by destruct (String.eqb (currentSiteId st) "").
  - by destruct (String.eqb (currentSiteId st) "").
Qed.

Lemma clean_settle_with key p f :
  clean key p -> (forall o, clean key (f o)) -> clean key (settle_with p f).
Proof.
  intros Hp Hf. induction Hp as [o|op k Hop Hk IH]; simpl; [apply Hf|].
  constructor; [done|]. intros o. apply IH.
Qed.

Lemma clean_then key p f :
  clean key p -> (forall v, clean key (f v)) -> clean key (then_ p f).
Proof.
  intros Hp Hf. apply clean_settle_with; [done|].
  intros [v|e]; [apply Hf | constructor].
Qed.

Lemma clean_catch key p g :
  clean key p -> (forall e, clean key (g e)) -> clean key (catch_ p g).
Proof.
  intros Hp Hg. apply clean_settle_with; [done|].
  intros [v|e]; [constructor | apply Hg].
Qed.

Lemma clean_call key op : op_targets key op -> clean key (call op).
Proof. intros H. constructor; [done|]. intros o. constructor. Qed.

Lemma owned_finally key p : clean key p -> owned key (finally_ p (Delete key)).
Proof.
  induction 1 as [o|op k Hop Hk IH]; simpl; [constructor|].
  constructor; [done|]. intros o. apply IH.
Qed.

Lemma owned_cases key p :
  owned key p ->
  (exists o, p = Delete key (Ret o))
  \/ (exists op k, p = Await op k /\ op_targets key op /\ forall o, owned key (k o)).
Proof. destruct 1; [left|right]; eauto. Qed.

(** ** Completion of an operation *)

Lemma complete_promises op r st : promises (complete op r st) = promises st.
Proof.
  destruct op, r; simpl; try done;
    unfold FilepoolProvider.storePackageStatus_done; by case_bool_decide.
Qed.

Lemma complete_entries op r st :
  downloadPromises (complete op r st) = downloadPromises st.
Proof.
  destruct op, r; simpl; try done;
    unfold FilepoolProvider.storePackageStatus_done; by case_bool_decide.
Qed.

Lemma complete_packages_ne op r st key key' :
  op_targets key op -> key ≠ key' ->
  packages (complete op r st) !! key' = packages st !! key'.
Proof.
  intros Hop Hne. destruct op, r; simpl in *; try done; subst key.
  - unfold FilepoolProvider.storePackageStatus_done. case_bool_decide; simpl.
    + by rewrite lookup_set_ne, lookup_setPrevious_ne.
    + by rewrite lookup_set_ne.
  - by rewrite lookup_restorePrevious_ne.
Qed.

Lemma complete_trace_ne op r st key key' :
  op_targets key op -> key ≠ key' ->
  key_trace key' (trace (complete op r st)) = key_trace key' (trace st).
Proof.
  intros Hop Hne. unfold key_trace.
  destruct op, r; simpl in *; try done; subst key.
  - unfold FilepoolProvider.storePackageStatus_done. case_bool_decide; simpl;
      rewrite filter_app; simpl;
      repeat (rewrite filter_cons_False by (simpl; congruence));
      by rewrite filter_nil, app_nil_r.
  - rewrite filter_app. rewrite filter_cons_False by (simpl; congruence).
    by rewrite filter_nil, app_nil_r.
Qed.

#[local] Arguments complete : simpl never.

Lemma settle_next st pid key op k r op' k' :
  promises st !! pid = Some (mkJob key (Await op k)) ->
  k (reply op r) = Await op' k' ->
  settle pid r st =
    set_promises (log (complete op r st) [EvCall key op'])
      (<[pid := mkJob key (Await op' k')]> (promises st)).
Proof.
  intros Hj Hk. unfold settle. rewrite Hj, Hk. simpl.
  by rewrite complete_promises.
Qed.

Lemma settle_done st pid key op k r o' :
  promises st !! pid = Some (mkJob key (Await op k)) ->
  k (reply op r) = Delete key (Ret o') ->
  settle pid r st =
    set_promises
      (set_downloadPromises (complete op r st) (delete key (downloadPromises st)))
      (<[pid := mkJob key (Ret o')]> (promises st)).
Proof.
  intros Hj Hk. unfold settle. rewrite Hj, Hk. simpl.
  by rewrite complete_promises, complete_entries.
Qed.

Lemma settle_idle st pid r :
  (forall key op k, promises st !! pid ≠ Some (mkJob key (Await op k))) ->
  settle pid r st = st.
Proof.
  intros H. unfold settle. destruct (promises st !! pid) as [[key [o|op k|k' q]]|] eqn:E; try done.
  by destruct (H key op k).
Qed.

(** ** The invariant is kept by every action *)

Lemma job_ok_entries st st' pid j :
  downloadPromises st' = downloadPromises st -> job_ok st pid j -> job_ok st' pid j.
Proof. unfold job_ok. by intros ->. Qed.

Lemma Inv_settle st pid r : Inv st -> Inv (settle pid r st).
Proof.
  intros [Hjobs Hents].
  destruct (promises st !! pid) as [[key [o|op k|k' q]]|] eqn:Hj;
    try (rewrite settle_idle; [by split | intros ???; congruence]).
  destruct (Hjobs _ _ Hj) as [Hown Hreg]; simpl in *.
  assert (Hlt : pid < length (promises st)) by (by eapply lookup_lt_Some).
  inversion Hown as [|? ? Hop Hk]; subst.
  destruct (owned_cases _ _ (Hk (reply op r))) as [[o' Ho]|(op'&k'&Ho&Hop'&Hk')].
  - rewrite (settle_done _ _ _ _ _ _ _ Hj Ho). split; simpl.
    + intros pid' j Hl. destruct (decide (pid' = pid)) as [->|Hne].
      * rewrite list_lookup_insert_eq in Hl by done. by inversion Hl.
      * rewrite list_lookup_insert_ne in Hl by done.
        specialize (Hjobs _ _ Hl). destruct j as [kj [?|?|?]]; try done.
        destruct Hjobs as [? Hr]. split; [done|]. simpl in *.
        rewrite lookup_delete_ne; [done|]. intros <-. congruence.
    + intros key' pid' Hl. apply lookup_delete_Some in Hl as [Hne Hl].
      destruct (Hents _ _ Hl) as (op2&k2&H2).
      destruct (decide (pid' = pid)) as [->|Hne']; [congruence|].
      rewrite list_lookup_insert_ne by done. eauto.
  - rewrite (settle_next _ _ _ _ _ _ _ _ Hj Ho). split; simpl.
    + intros pid' j Hl. apply (job_ok_entries st); [apply complete_entries|].
      destruct (decide (pid' = pid)) as [->|Hne].
      * rewrite list_lookup_insert_eq in Hl by done. inversion Hl; subst.
        unfold job_ok; simpl. split; [|done]. rewrite <- Ho. apply Hk.
      * rewrite list_lookup_insert_ne in Hl by done. by apply Hjobs.
    + intros key' pid'. rewrite complete_entries. intros Hl.
      destruct (Hents _ _ Hl) as (op2&k2&H2).
      destruct (decide (pid' = pid)) as [->|Hne'].
      * rewrite list_lookup_insert_eq by done. assert (key' = key) by congruence.
        subst. eauto.
      * rewrite list_lookup_insert_ne by done. eauto.
Qed.

Lemma complete_packages_eq op r st key :
  op_targets key op ->
  packages (complete op r st) !! key = effect op r (packages st !! key).
Proof.
  intros Hop. destruct op, r; simpl in *; try done; subst key; unfold complete.
  - unfold FilepoolProvider.storePackageStatus_done. case_bool_decide; simpl.
    + by rewrite lookup_set_eq, lookup_setPrevious_eq.
    + by rewrite lookup_set_eq.
  - simpl. by rewrite lookup_restorePrevious_eq.
Qed.

Lemma key_trace_app key tr1 tr2 :
  key_trace key (tr1 ++ tr2) = key_trace key tr1 ++ key_trace key tr2.
Proof. apply filter_app. Qed.

Lemma key_trace_call_ne key key' op : key' ≠ key -> key_trace key [EvCall key' op] = [].
Proof. intros H. unfold key_trace. by rewrite filter_cons_False. Qed.

Lemma key_trace_call_eq key op : key_trace key [EvCall key op] = [EvCall key op].
Proof. unfold key_trace. by rewrite filter_cons_True. Qed.

Lemma complete_trace_eq op r st key :
  op_targets key op ->
  key_trace key (trace (complete op r st))
  = key_trace key (trace st) ++ effect_events key op r.
Proof.
  intros Hop. destruct op, r; simpl in *; try (by rewrite app_nil_r);
    subst key; unfold complete.
  - unfold FilepoolProvider.storePackageStatus_done. case_bool_decide; simpl;
      rewrite key_trace_app; f_equal; unfold key_trace;
      by repeat rewrite filter_cons_True by done.
  - simpl. rewrite key_trace_app. f_equal. unfold key_trace.
    by rewrite filter_cons_True.
Qed.

(** *** Registration of a download *)

Lemma add_spec h i op k siteId st :
  addOngoingDownload h i (Await op k) siteId st =
    (PRef (length (promises st)),
     set_promises
       (log (set_downloadPromises st
               (<[(or_current siteId st, component h, i) := length (promises st)]>
                  (downloadPromises st)))
            [EvCall (or_current siteId st, component h, i) op])
       (promises st ++
          [mkJob (or_current siteId st, component h, i)
                 (finally_ (Await op k) (Delete (or_current siteId st, component h, i)))])).
Proof. reflexivity. Qed.

Lemma Inv_add h i op k siteId st :
  Inv st ->
  downloadPromises st !! (or_current siteId st, component h, i) = None ->
  clean (or_current siteId st, component h, i) (Await op k) ->
  Inv (addOngoingDownload h i (Await op k) siteId st).2.
Proof.
  intros [Hjobs Hents] Hfree Hclean. rewrite add_spec.
  set (key := (or_current siteId st, component h, i)) in *.
  split; cbn [snd promises downloadPromises set_promises log set_downloadPromises].
  - intros pid j Hl. apply lookup_app_Some in Hl as [Hl|[Hge Hl]].
    + specialize (Hjobs _ _ Hl). destruct j as [kj [?|?|?]]; try done.
      destruct Hjobs as [? Hr]. split; [done|]. simpl in *.
      rewrite lookup_insert_ne; [done|]. intros Heq. by rewrite <- Heq, Hfree in Hr.
    + destruct (pid - length (promises st)) as [|n] eqn:E; [|by destruct n].
      simpl in Hl. inversion Hl; subst. assert (pid = length (promises st)) by lia.
      subst pid. split; simpl.
      * apply (owned_finally key (Await op k) Hclean).
      * apply lookup_insert_eq.
  - intros key' pid Hl. apply lookup_insert_Some in Hl as [[<- <-]|[Hne Hl]].
    + exists op. eexists. rewrite lookup_app_r by done. by rewrite Nat.sub_diag.
    + destruct (Hents _ _ Hl) as (op2&k2&H2). exists op2, k2.
      by apply lookup_app_l_Some.
Qed.

(** *** Calls *)

Lemma isDownloading_false h i siteId st :
  isDownloading h i siteId st = false ->
  downloadPromises st !! (or_current siteId st, component h, i) = None.
Proof.
  unfold isDownloading. intros H%bool_decide_eq_false.
  by apply eq_None_not_Some.
Qed.

Lemma isDownloading_true h i siteId st pid :
  downloadPromises st !! (or_current siteId st, component h, i) = Some pid ->
  isDownloading h i siteId st = true.
Proof. unfold isDownloading. intros H. apply bool_decide_eq_true. eauto. Qed.

Lemma activity_chain_clean h m c s f site args st :
  clean (or_current (Some site) st, component h, id m)
        (ActivityPrefetchHandler.prefetchPromise h m c s f site args st).
Proof.
  unfold ActivityPrefetchHandler.prefetchPromise.
  apply clean_catch; [apply clean_then; [apply clean_then|]|].
  - by apply clean_call.
  - intros _. by apply clean_call.
  - intros v. by apply clean_call.
  - intros e. apply clean_then; [by apply clean_call|]. intros _. constructor.
Qed.

Lemma resource_chain_clean key h m c p d site :
  clean key (ResourcePrefetchHandler.prefetchPromise h m c p d site).
Proof.
  unfold ResourcePrefetchHandler.prefetchPromise.
  apply clean_then; [by apply clean_call|]. intros loaded.
  apply clean_then; [by apply clean_call|]. intros intro.
  destruct d as [dir|]; [destruct (String.eqb dir "")|]; by apply clean_call.
Qed.

(** A call leaves the application as it is, or registers a download for a
    package that had none. *)
Lemma call_cases a st :
  (forall pid r, a ≠ Settle pid r) -> (forall b, a ≠ Connectivity b) ->
  (step a st).2 = st
  \/ exists h i site op k,
       downloadPromises st !! (or_current (Some site) st, component h, i) = None
       /\ clean (or_current (Some site) st, component h, i) (Await op k)
       /\ step a st = (Some (PRef (length (promises st))),
                       (addOngoingDownload h i (Await op k) (Some site) st).2).
Proof.
  intros Hs Hc. destruct a as [h m c s f site args|h m c p d|pid r|b];
    [| |by destruct (Hs pid r)|by destruct (Hc b)]; simpl.
  - unfold ActivityPrefetchHandler.prefetchPackage.
    destruct (online st); simpl; [|by left].
    destruct (isDownloading h (id m) (Some (or_current site st)) st) eqn:E; [by left|].
    right. apply isDownloading_false in E.
    pose proof (activity_chain_clean h m c s f (or_current site st) args st) as Hc'.
    exists h, (id m), (or_current site st).
    remember (ActivityPrefetchHandler.prefetchPromise h m c s f (or_current site st) args st) as q eqn:Hq.
    unfold ActivityPrefetchHandler.prefetchPromise in Hq. simpl in Hq.
    rewrite Hq in *. do 2 eexists. split; [done|]. split; [exact Hc'|done].
  - unfold ResourcePrefetchHandler.downloadOrPrefetch.
    destruct (online st); simpl; [|by left].
    destruct (isDownloading h (id m) (Some (currentSiteId st)) st) eqn:E; [by left|].
    right. apply isDownloading_false in E.
    pose proof (resource_chain_clean (or_current (Some (currentSiteId st)) st, component h, id m)
                  h m c p d (currentSiteId st)) as Hc'.
    exists h, (id m), (currentSiteId st).
    remember (ResourcePrefetchHandler.prefetchPromise h m c p d (currentSiteId st)) as q eqn:Hq.
    unfold ResourcePrefetchHandler.prefetchPromise in Hq. simpl in Hq.
    rewrite Hq in *. do 2 eexists. split; [done|]. split; [exact Hc'|done].
Qed.

Lemma Inv_step a st : Inv st -> Inv (step a st).2.
Proof.
  intros Hinv. destruct a as [h m c s f site args|h m c p d|pid r|b] eqn:Ha.
  1,2: rewrite <- Ha;
    destruct (call_cases a st) as [->|(h'&i&site'&op&k&Hfree&Hcl&->)];
      [by subst|by subst|done| by apply Inv_add].
  - simpl. by apply Inv_settle.
  - simpl. destruct Hinv. by split.
Qed.

Lemma run_cons a acts st : run (a :: acts) st = run acts (step a st).2.
Proof.
  unfold run. simpl. destruct (step a st) as [r st1]. simpl.
  by destruct (exec acts st1).
Qed.

Lemma run_app acts1 acts2 st : run (acts1 ++ acts2) st = run acts2 (run acts1 st).
Proof.
  revert st. induction acts1 as [|a acts1 IH]; intros st; [done|].
  simpl. by rewrite !run_cons, IH.
Qed.

Lemma Inv_run acts st : Inv st -> Inv (run acts st).
Proof.
  revert st. induction acts as [|a acts IH]; intros st H; [done|].
  rewrite run_cons. by apply IH, Inv_step.
Qed.

Lemma Inv_initial st : initial st -> Inv st.
Proof.
  intros [Hd Hp]. split.
  - intros pid j. by rewrite Hp.
  - intros key pid. by rewrite Hd.
Qed.

(** ** A download in the middle of other activity *)

(** Actions that do not complete an operation of a pending download leave
    its promise, the record of its package and its part of the trace as they
    are. *)
Lemma stage_frame_step st pid key op k rec tr a :
  Stage st pid key (Await op k) rec tr ->
  foreign pid a = true ->
  Stage (step a st).2 pid key (Await op k) rec tr.
Proof.
  intros [Hinv Hjob Hrec Htr Hent] Hfor.
  assert (Hinv' : Inv (step a st).2) by (by apply Inv_step).
  assert (Hlt : pid < length (promises st)) by (by eapply lookup_lt_Some).
  destruct a as [h m c s f site args|h m c p d|pid' r|b] eqn:Ha.
  1,2: rewrite <- Ha in *;
    (destruct (call_cases a st) as [Heq|(h'&i&site'&op'&k'&Hfree&Hcl&Heq)];
      [by subst|by subst|by rewrite Heq|]);
    rewrite Heq in *; rewrite add_spec in *;
    cbn [snd] in *;
    (assert (Hne : (or_current (Some site') st, component h', i) ≠ key)
      by (intros E; rewrite E in Hfree; congruence));
    (split; cbn [promises packages trace downloadPromises set_promises log
                 set_downloadPromises];
      [done|by apply lookup_app_l_Some|done
      |by rewrite key_trace_app, key_trace_call_ne, app_nil_r
      |by rewrite lookup_insert_ne]).
  - simpl in Hfor. apply negb_true_iff, Nat.eqb_neq in Hfor. cbn [step snd] in *.
    destruct (promises st !! pid') as [[key' [o|op2 k2|k' q]]|] eqn:Hj;
      try (rewrite settle_idle; [by split | intros ???; congruence]).
    destruct (inv_jobs _ Hinv _ _ Hj) as [Hown Hreg]; simpl in Hown, Hreg.
    assert (Hne : key' ≠ key) by (intros E; rewrite E in Hreg; congruence).
    inversion Hown as [|? ? Hop Hk]; subst.
    destruct (owned_cases _ _ (Hk (reply op2 r))) as [[o' Ho]|(op'&k'&Ho&_&_)].
    + rewrite (settle_done _ _ _ _ _ _ _ Hj Ho) in *.
      split; cbn [promises packages trace downloadPromises set_promises log
                  set_downloadPromises].
      * done.
      * by rewrite list_lookup_insert_ne.
      * by rewrite (complete_packages_ne _ _ _ key').
      * by rewrite (complete_trace_ne _ _ _ key').
      * by rewrite lookup_delete_ne.
    + rewrite (settle_next _ _ _ _ _ _ _ _ Hj Ho) in *.
      split; cbn [promises packages trace downloadPromises set_promises log
                  set_downloadPromises].
      * done.
      * by rewrite list_lookup_insert_ne.
      * by rewrite (complete_packages_ne _ _ _ key').
      * by rewrite key_trace_app, key_trace_call_ne, app_nil_r,
                   (complete_trace_ne _ _ _ key').
      * by rewrite complete_entries.
  - by split.
Qed.

Lemma stage_frame st pid key op k rec tr bg :
  Stage st pid key (Await op k) rec tr ->
  forallb (foreign pid) bg = true ->
  Stage (run bg st) pid key (Await op k) rec tr.
Proof.
  revert st. induction bg as [|a bg IH]; intros st Hst Hbg; [done|].
  simpl in Hbg. apply andb_true_iff in Hbg as [Ha Hbg].
  rewrite run_cons. apply IH; [|done]. by apply stage_frame_step.
Qed.

(** The completion of the operation a download waits for, when its reaction
    waits for a further operation ... *)
Lemma stage_settle_next st pid key op k rec tr r op' k' :
  Stage st pid key (Await op k) rec tr ->
  k (reply op r) = Await op' k' ->
  Stage (settle pid r st) pid key (Await op' k') (effect op r rec)
        (tr ++ effect_events key op r ++ [EvCall key op']).
Proof.
  intros [Hinv Hjob Hrec Htr Hent] Hk.
  assert (Hinv' : Inv (settle pid r st)) by (by apply Inv_settle).
  assert (Hlt : pid < length (promises st)) by (by eapply lookup_lt_Some).
  destruct (inv_jobs _ Hinv _ _ Hjob) as [Hown _]; simpl in Hown.
  inversion Hown as [|? ? Hop _]; subst.
  rewrite (settle_next _ _ _ _ _ _ _ _ Hjob Hk) in *.
  split; cbn [promises packages trace downloadPromises set_promises log
              set_downloadPromises].
  - done.
  - by rewrite list_lookup_insert_eq.
  - by rewrite complete_packages_eq.
  - by rewrite key_trace_app, key_trace_call_eq, complete_trace_eq, app_assoc.
  - by rewrite complete_entries.
Qed.

(** ... and when its reaction settles the promise. *)
Lemma stage_settle_done st pid key op k rec tr r o :
  Stage st pid key (Await op k) rec tr ->
  k (reply op r) = Delete key (Ret o) ->
  Stage (settle pid r st) pid key (Ret o) (effect op r rec)
        (tr ++ effect_events key op r).
Proof.
  intros [Hinv Hjob Hrec Htr Hent] Hk.
  assert (Hinv' : Inv (settle pid r st)) by (by apply Inv_settle).
  assert (Hlt : pid < length (promises st)) by (by eapply lookup_lt_Some).
  destruct (inv_jobs _ Hinv _ _ Hjob) as [Hown _]; simpl in Hown.
  inversion Hown as [|? ? Hop _]; subst.
  rewrite (settle_done _ _ _ _ _ _ _ Hjob Hk) in *.
  split; cbn [promises packages trace downloadPromises set_promises log
              set_downloadPromises].
  - done.
  - by rewrite list_lookup_insert_eq.
  - by rewrite complete_packages_eq.
  - by rewrite complete_trace_eq.
  - by rewrite lookup_delete_eq.
Qed.

(** One turn of a schedule. *)
Lemma stage_turn_next st pid key op k rec tr bg r op' k' :
  Stage st pid key (Await op k) rec tr ->
  forallb (foreign pid) bg = true ->
  k (reply op r) = Await op' k' ->
  Stage (run (bg ++ [Settle pid r]) st) pid key (Await op' k') (effect op r rec)
        (tr ++ effect_events key op r ++ [EvCall key op']).
Proof.
  intros Hst Hbg Hk. rewrite run_app.
  change (run [Settle pid r] (run bg st)) with (settle pid r (run bg st)).
  apply (stage_settle_next _ _ _ op k); [|done]. by apply stage_frame.
Qed.

Lemma stage_turn_done st pid key op k rec tr bg r o :
  Stage st pid key (Await op k) rec tr ->
  forallb (foreign pid) bg = true ->
  k (reply op r) = Delete key (Ret o) ->
  Stage (run (bg ++ [Settle pid r]) st) pid key (Ret o) (effect op r rec)
        (tr ++ effect_events key op r).
Proof.
  intros Hst Hbg Hk. rewrite run_app.
  change (run [Settle pid r] (run bg st)) with (settle pid r (run bg st)).
  apply (stage_settle_done _ _ _ op k); [|done]. by apply stage_frame.
Qed.

(** The start of a download. *)
Lemma stage_start h i op k site st :
  Inv st ->
  downloadPromises st !! (or_current (Some site) st, component h, i) = None ->
  clean (or_current (Some site) st, component h, i) (Await op k) ->
  Stage (addOngoingDownload h i (Await op k) (Some site) st).2
        (length (promises st)) (or_current (Some site) st, component h, i)
        (finally_ (Await op k) (Delete (or_current (Some site) st, component h, i)))
        (packages st !! (or_current (Some site) st, component h, i))
        (key_trace (or_current (Some site) st, component h, i) (trace st)
           ++ [EvCall (or_current (Some site) st, component h, i) op]).
Proof.
  intros Hinv Hfree Hcl.
  assert (Hinv' : Inv (addOngoingDownload h i (Await op k) (Some site) st).2)
    by (by apply Inv_add).
  rewrite add_spec in *.
  split; cbn [snd promises packages trace downloadPromises set_promises log
              set_downloadPromises finally_ settle_with].
  - done.
  - rewrite lookup_app_r by done. by rewrite Nat.sub_diag.
  - done.
  - by rewrite key_trace_app, key_trace_call_eq.
  - by rewrite lookup_insert_eq.
Qed.

Lemma run_schedule_cons pid bg o rest st :
  run (schedule pid ((bg, o) :: rest)) st
  = run (schedule pid rest) (run (bg ++ [Settle pid o]) st).
Proof.
  simpl. rewrite <- run_app, <- app_assoc. done.
Qed.

(** A download under a schedule goes the way it goes on its own, whatever
    the rest of the application does in between. *)
Lemma stage_schedule turns : forall st pid key p rec tr p' rec' tr',
  Stage st pid key p rec tr ->
  quiet pid turns = true ->
  local_run key p rec tr (map snd turns) = Some (p', rec', tr') ->
  Stage (run (schedule pid turns) st) pid key p' rec' tr'.
Proof.
  induction turns as [|[bg o] rest IH]; intros st pid key p rec tr p' rec' tr' Hst Hq Hrun.
  - simpl in Hrun. by inversion Hrun; subst.
  - simpl in Hq. apply andb_true_iff in Hq as [Hbg Hrest].
    destruct p as [?|op k|? ?]; try done.
    rewrite run_schedule_cons.
    pose proof (inv_jobs _ (stage_inv _ _ _ _ _ _ Hst) _ _ (stage_job _ _ _ _ _ _ Hst))
      as [Hown _]; simpl in Hown.
    inversion Hown as [|? ? _ Hk]; subst.
    cbn [map snd local_run] in Hrun.
    destruct (owned_cases _ _ (Hk (reply op o))) as [[o' Ho]|(op'&k'&Ho&_&_)];
      rewrite Ho in Hrun; cbn [landing] in Hrun.
    + rewrite app_nil_r in Hrun. eapply IH; [|done|exact Hrun].
      by apply (stage_turn_done _ _ _ op k).
    + eapply IH; [|done|exact Hrun].
      by apply (stage_turn_next _ _ _ op k).
Qed.

(** ** The calls *)

Lemma prefetchPackage_offline h m c s f site args st :
  online st = false ->
  ActivityPrefetchHandler.prefetchPackage h m c s f site args st
  = (PSettled (Rejected (translate_instant "core.networkerrormsg")), st).
Proof. unfold ActivityPrefetchHandler.prefetchPackage. by intros ->. Qed.

Lemma downloadOrPrefetch_offline h m c p d st :
  online st = false ->
  ResourcePrefetchHandler.downloadOrPrefetch h m c p d st
  = (PSettled (Rejected (translate_instant "core.networkerrormsg")), st).
Proof. unfold ResourcePrefetchHandler.downloadOrPrefetch. by intros ->. Qed.

Lemma prefetchPackage_ongoing h m c s f site args st pid :
  online st = true ->
  downloadPromises st !! (or_current site st, component h, id m) = Some pid ->
  ActivityPrefetchHandler.prefetchPackage h m c s f site args st = (PRef pid, st).
Proof.
  intros Hon Hreg. unfold ActivityPrefetchHandler.prefetchPackage. rewrite Hon. simpl.
  rewrite (isDownloading_true _ _ _ _ pid) by (by rewrite or_current_idem).
  unfold getOngoingDownload. by rewrite or_current_idem, Hreg.
Qed.

Lemma or_current_site st : or_current (Some (currentSiteId st)) st = currentSiteId st.
Proof. unfold or_current. by destruct (String.eqb (currentSiteId st) ""). Qed.

Lemma downloadOrPrefetch_ongoing h m c p d st pid :
  online st = true ->
  downloadPromises st !! (currentSiteId st, component h, id m) = Some pid ->
  ResourcePrefetchHandler.downloadOrPrefetch h m c p d st = (PRef pid, st).
Proof.
  intros Hon Hreg. unfold ResourcePrefetchHandler.downloadOrPrefetch. rewrite Hon. simpl.
  rewrite (isDownloading_true _ _ _ _ pid) by (by rewrite or_current_site).
  unfold getOngoingDownload. by rewrite or_current_site, Hreg.
Qed.

Lemma isDownloading_None h i siteId st :
  downloadPromises st !! (or_current siteId st, component h, i) = None ->
  isDownloading h i siteId st = false.
Proof.
  unfold isDownloading. intros H. apply bool_decide_eq_false. rewrite H.
  by intros [? ?].
Qed.

Lemma stage_start_chain h i p op k site st :
  p = Await op k ->
  Inv st ->
  downloadPromises st !! (or_current (Some site) st, component h, i) = None ->
  clean (or_current (Some site) st, component h, i) p ->
  Stage (addOngoingDownload h i p (Some site) st).2
        (length (promises st)) (or_current (Some site) st, component h, i)
        (finally_ p (Delete (or_current (Some site) st, component h, i)))
        (packages st !! (or_current (Some site) st, component h, i))
        (key_trace (or_current (Some site) st, component h, i) (trace st)
           ++ [EvCall (or_current (Some site) st, component h, i) op]).
Proof. intros ->. apply stage_start. Qed.

(** A call for a package without ongoing download starts one. *)
Lemma prefetchPackage_fresh h m c s f site args st :
  Inv st ->
  online st = true ->
  downloadPromises st !! (or_current site st, component h, id m) = None ->
  (ActivityPrefetchHandler.prefetchPackage h m c s f site args st).1
    = PRef (length (promises st))
  /\ Stage (ActivityPrefetchHandler.prefetchPackage h m c s f site args st).2
       (length (promises st)) (or_current site st, component h, id m)
       (finally_
          (ActivityPrefetchHandler.prefetchPromise h m c s f (or_current site st) args st)
          (Delete (or_current site st, component h, id m)))
       (packages st !! (or_current site st, component h, id m))
       (key_trace (or_current site st, component h, id m) (trace st)
          ++ [EvCall (or_current site st, component h, id m)
                (OpStorePackageStatus (or_current site st) DOWNLOADING
                   (component h) (id m) None)]).
Proof.
  intros Hinv Hon Hfree. unfold ActivityPrefetchHandler.prefetchPackage.
  rewrite Hon. simpl negb. cbv iota.
  rewrite isDownloading_None by (by rewrite or_current_idem).
  pose proof (activity_chain_clean h m c s f (or_current site st) args st) as Hcl.
  epose proof (stage_start_chain h (id m)
    (ActivityPrefetchHandler.prefetchPromise h m c s f (or_current site st) args st)
    _ _ (or_current site st) st eq_refl Hinv) as Hs.
  rewrite or_current_idem in Hs, Hcl. split; [done|]. by apply Hs.
Qed.

(** ** The download of an activity followed on its own *)

#[local] Arguments or_current : simpl never.

Section ActivityPaths.
Context (h : Handler) (m : CourseModule) (c : Z) (s : bool) (f : string)
        (site : string) (args : list value) (st : App).
Context (Hsite : or_current (Some site) st = site).

Local Abbreviation key := (site, component h, id m).
Local Abbreviation chain :=
  (finally_ (ActivityPrefetchHandler.prefetchPromise h m c s f site args st)
            (Delete key)).

(** The status is written, the download function resolves with [R] and the
    status is written again. *)
Lemma activity_success rec tr w1 R w3 :
  local_run key chain rec tr [Resolved w1; Resolved R; Resolved w3]
  = Some (Ret (Resolved VUndefined),
          StatusStore.written DOWNLOADED (Some (ActivityPrefetchHandler.only_string R))
            (StatusStore.written DOWNLOADING None (StatusStore.captured rec)),
          tr ++ [EvSetPrevious key; EvSet key DOWNLOADING None;
                 EvCall key (OpDownloadFn f m c s site args);
                 EvCall key (OpStorePackageStatus site DOWNLOADED (component h)
                               (id m) (Some (ActivityPrefetchHandler.only_string R)));
                 EvSet key DOWNLOADED (Some (ActivityPrefetchHandler.only_string R))]).
Proof.
  unfold ActivityPrefetchHandler.prefetchPromise. cbn.
  rewrite Hsite. by rewrite <- !app_assoc.
Qed.

(** The download function rejects with [E] and the status is rolled back. *)
Lemma activity_failure rec tr w1 E w3 :
  local_run key chain rec tr [Resolved w1; Rejected E; Resolved w3]
  = Some (Ret (Rejected E),
          StatusStore.restored
            (StatusStore.written DOWNLOADING None (StatusStore.captured rec)),
          tr ++ [EvSetPrevious key; EvSet key DOWNLOADING None;
                 EvCall key (OpDownloadFn f m c s site args);
                 EvCall key (OpSetPackagePreviousStatus site (component h) (id m));
                 EvRestorePrevious key]).
Proof.
  unfold ActivityPrefetchHandler.prefetchPromise. cbn.
  rewrite Hsite. by rewrite <- !app_assoc.
Qed.

(** The download function resolves, but the write of DOWNLOADED fails with
    [W]; the status is rolled back. *)
Lemma activity_write_failure rec tr w1 R W w4 :
  local_run key chain rec tr [Resolved w1; Resolved R; Rejected W; Resolved w4]
  = Some (Ret (Rejected W),
          StatusStore.restored
            (StatusStore.written DOWNLOADING None (StatusStore.captured rec)),
          tr ++ [EvSetPrevious key; EvSet key DOWNLOADING None;
                 EvCall key (OpDownloadFn f m c s site args);
                 EvCall key (OpStorePackageStatus site DOWNLOADED (component h)
                               (id m) (Some (ActivityPrefetchHandler.only_string R)));
                 EvCall key (OpSetPackagePreviousStatus site (component h) (id m));
                 EvRestorePrevious key]).
Proof.
  unfold ActivityPrefetchHandler.prefetchPromise. cbn.
  rewrite Hsite. by rewrite <- !app_assoc.
Qed.

(** While the download function runs the package is marked DOWNLOADING. *)
Lemma activity_marked rec tr w1 :
  exists k,
    local_run key chain rec tr [Resolved w1]
    = Some (Await (OpDownloadFn f m c s site args) k,
            StatusStore.written DOWNLOADING None (StatusStore.captured rec),
            tr ++ [EvSetPrevious key; EvSet key DOWNLOADING None;
                   EvCall key (OpDownloadFn f m c s site args)]).
Proof.
  unfold ActivityPrefetchHandler.prefetchPromise. cbn.
  rewrite Hsite. eexists. by rewrite <- ?app_assoc.
Qed.

End ActivityPaths.

(** A download started in a reachable state and followed under a schedule. *)
Lemma activity_run h m c s f site args st turns p' rec' tr' :
  Inv st ->
  online st = true ->
  downloadPromises st !! (or_current site st, component h, id m) = None ->
  quiet (length (promises st)) turns = true ->
  local_run (or_current site st, component h, id m)
    (finally_
       (ActivityPrefetchHandler.prefetchPromise h m c s f (or_current site st) args st)
       (Delete (or_current site st, component h, id m)))
    (packages st !! (or_current site st, component h, id m))
    (key_trace (or_current site st, component h, id m) (trace st)
       ++ [EvCall (or_current site st, component h, id m)
             (OpStorePackageStatus (or_current site st) DOWNLOADING
                (component h) (id m) None)])
    (map snd turns) = Some (p', rec', tr') ->
  Stage (run (schedule (length (promises st)) turns)
           (ActivityPrefetchHandler.prefetchPackage h m c s f site args st).2)
        (length (promises st)) (or_current site st, component h, id m) p' rec' tr'.
Proof.
  intros Hinv Hon Hfree Hq Hrun.
  destruct (prefetchPackage_fresh h m c s f site args st Hinv Hon Hfree) as [_ Hst].
  by eapply stage_schedule.
Qed.

(** * Properties of the download coordination *)

(** ** Offline *)

(** C4. When the connectivity oracle reports offline, a call of
    [prefetchPackage], and likewise of [downloadOrPrefetch], returns at once
    a promise rejected with the network error message and leaves the
    application as it was: no download function is invoked, no operation is
    issued and the Status Store holds what it held. *)
Theorem offline_call_rejects_and_changes_nothing
    h m c s f site args prefetch dirPath st :
  online st = false ->
  ActivityPrefetchHandler.prefetchPackage h m c s f site args st
    = (PSettled (Rejected (translate_instant "core.networkerrormsg")), st)
  /\ ResourcePrefetchHandler.downloadOrPrefetch h m c prefetch dirPath st
    = (PSettled (Rejected (translate_instant "core.networkerrormsg")), st).
Proof.
  intros Hoff. split.
  - by apply prefetchPackage_offline.
  - by apply downloadOrPrefetch_offline.
Qed.

Lemma offline_call_witness :
  online Sample.app_offline = false
  /\ ActivityPrefetchHandler.prefetchPackage Sample.forum Sample.module7 3 true
       "prefetchForum" None [] Sample.app_offline
     = (PSettled (Rejected (VString "core.networkerrormsg")), Sample.app_offline)
  /\ ResourcePrefetchHandler.downloadOrPrefetch Sample.forum Sample.module7 3
       true None Sample.app_offline
     = (PSettled (Rejected (VString "core.networkerrormsg")), Sample.app_offline).
Proof.
  split; [reflexivity|].
  apply (offline_call_rejects_and_changes_nothing Sample.forum Sample.module7 3
           true "prefetchForum" None [] true None Sample.app_offline).
  reflexivity.
Defined.

(** ** One download per package *)

Lemma in_flight_entry st pid key :
  Inv st -> in_flight st pid key -> downloadPromises st !! key = Some pid.
Proof.
  intros Hinv (op&k&Hj). by destruct (inv_jobs _ Hinv _ _ Hj) as [_ Hreg].
Qed.

Lemma in_flight_unique st key pid1 pid2 :
  Inv st -> in_flight st pid1 key -> in_flight st pid2 key -> pid1 = pid2.
Proof.
  intros Hinv H1 H2. apply (in_flight_entry _ _ _ Hinv) in H1, H2. congruence.
Qed.

Lemma working_in_flight st pid key : working st pid key -> in_flight st pid key.
Proof. intros (f&m&c&s&site&args&k&H). by do 2 eexists. Qed.

Lemma call_ongoing st key pid a :
  online st = true ->
  downloadPromises st !! key = Some pid ->
  calls_for st key a = true ->
  step a st = (Some (PRef pid), st).
Proof.
  intros Hon Hreg Hcall. destruct a as [h m c s f site args|h m c p d|?|?]; try done;
    simpl in Hcall; apply bool_decide_eq_true in Hcall; subst key; simpl.
  - by rewrite (prefetchPackage_ongoing _ _ _ _ _ _ _ _ pid).
  - by rewrite (downloadOrPrefetch_ongoing _ _ _ _ _ _ pid).
Qed.

Lemma calls_ongoing st key pid calls :
  online st = true ->
  downloadPromises st !! key = Some pid ->
  forallb (calls_for st key) calls = true ->
  exec calls st = (map (fun _ => PRef pid) calls, st).
Proof.
  intros Hon Hreg. induction calls as [|a calls IH]; [done|].
  simpl. intros [Ha Hcalls]%andb_true_iff.
  rewrite (call_ongoing _ _ _ _ Hon Hreg Ha), (IH Hcalls). done.
Qed.

(** The offline precondition comes before the look-up of the ongoing
    downloads: a call made offline is rejected with the network error whether
    or not a download is in flight for its package. *)
Lemma offline_precedes_deduplication st key a :
  online st = false ->
  calls_for st key a = true ->
  step a st
  = (Some (PSettled (Rejected (translate_instant "core.networkerrormsg"))), st).
Proof.
  intros Hoff Hcall.
  destruct a as [h m c s f site args|h m c p d|?|?]; try done; simpl.
  - by rewrite prefetchPackage_offline.
  - by rewrite downloadOrPrefetch_offline.
Qed.

(** C1. In every state the application can reach, a package has at most one
    download in flight, hence at most one executing download function; a
    first call for a package registers its promise as the download in
    flight; and while that download is in flight and the application is
    online, any number of calls of [prefetchPackage] or [downloadOrPrefetch]
    for the package return that same pending promise and change nothing, so
    that no download function is invoked for them and all callers see the
    one outcome. *)
Theorem one_download_in_flight_per_package st0 pre :
  initial st0 ->
  let st := run pre st0 in
  (forall key pid1 pid2,
      in_flight st pid1 key -> in_flight st pid2 key -> pid1 = pid2)
  /\ (forall key pid1 pid2,
      working st pid1 key -> working st pid2 key -> pid1 = pid2)
  /\ (forall h m c s f site args,
      online st = true ->
      downloadPromises st !! (or_current site st, component h, id m) = None ->
      exists pid,
        (ActivityPrefetchHandler.prefetchPackage h m c s f site args st).1 = PRef pid
        /\ in_flight (ActivityPrefetchHandler.prefetchPackage h m c s f site args st).2
             pid (or_current site st, component h, id m))
  /\ (forall key pid calls,
      in_flight st pid key ->
      online st = true ->
      forallb (calls_for st key) calls = true ->
      pending st (PRef pid)
      /\ exec calls st = (map (fun _ => PRef pid) calls, st)
      /\ forall later p,
           In p (exec calls st).1 ->
           outcome_of (run later st) p = outcome_of (run later st) (PRef pid)).
Proof.
  intros Hinit st. assert (Hinv : Inv st) by (by apply Inv_run, Inv_initial).
  split; [|split; [|split]].
  - intros key pid1 pid2. by apply (in_flight_unique st key).
  - intros key pid1 pid2 H1 H2.
    apply (in_flight_unique st key); auto using working_in_flight.
  - intros h m c s f site args Hon Hfree.
    destruct (prefetchPackage_fresh h m c s f site args st Hinv Hon Hfree) as [Hp Hst].
    exists (length (promises st)). split; [done|].
    destruct Hst as [_ Hjob _ _ _]. unfold in_flight.
    unfold ActivityPrefetchHandler.prefetchPromise in Hjob.
    cbn [finally_ settle_with then_ catch_ ActivityPrefetchHandler.setDownloading
         FilepoolProvider.storePackageStatus call] in Hjob. eauto.
  - intros key pid calls Hfl Hon Hcalls. split.
    + destruct Hfl as (op&k&Hj). unfold pending. simpl. by rewrite Hj.
    + assert (Hex : exec calls st = (map (fun _ => PRef pid) calls, st)).
      { apply (calls_ongoing st key); [done| |done]. by apply in_flight_entry. }
      split; [done|]. intros later p. rewrite Hex. simpl.
      intros Hin. apply in_map_iff in Hin as (a&<-&_). done.
Qed.

Lemma one_download_witness :
  Loop.initial Sample.app
  /\ (forall key pid1 pid2,
        working (run (firstn 3 Sample.two_callers) Sample.app) pid1 key ->
        working (run (firstn 3 Sample.two_callers) Sample.app) pid2 key ->
        pid1 = pid2).
Proof.
  split; [split; reflexivity|].
  apply (one_download_in_flight_per_package Sample.app (firstn 3 Sample.two_callers)).
  split; reflexivity.
Defined.

(** ** What a settled download leaves behind *)

Lemma stage_outcome st pid key o rec tr :
  Stage st pid key (Ret o) rec tr -> outcome_of st (PRef pid) = Some o.
Proof. intros [_ Hjob _ _ _]. simpl. by rewrite Hjob. Qed.

Lemma stage_status st pid key p rec tr :
  Stage st pid key p rec tr ->
  StatusStore.getStatus (packages st) key = StatusStore.status_of rec
  /\ StatusStore.getExtra (packages st) key = StatusStore.extra_of rec.
Proof.
  intros [_ _ Hrec _ _]. unfold StatusStore.getStatus, StatusStore.getExtra,
    StatusStore.get. by rewrite Hrec.
Qed.

Lemma work_count_stage st pid key p rec tr0 evs :
  Stage st pid key p rec (tr0 ++ evs) ->
  work_count key (trace st)
  = length (filter (fun ev => is_work ev = true) tr0)
    + length (filter (fun ev => is_work ev = true) evs).
Proof.
  intros [_ _ _ Htr _]. unfold work_count. by rewrite Htr, filter_app, length_app.
Qed.

Lemma operations_stage st pid key p rec tr0 evs :
  Stage st pid key p rec (tr0 ++ evs) ->
  operations key (trace st)
  = filter (fun ev => is_operation ev = true) tr0
    ++ filter (fun ev => is_operation ev = true) evs.
Proof. intros [_ _ _ Htr _]. unfold operations. by rewrite Htr, filter_app. Qed.

(** A call changes neither the connectivity nor the current site. *)
Lemma advance_env key p : forall st,
  online (advance key p st).2 = online st
  /\ currentSiteId (advance key p st).2 = currentSiteId st.
Proof.
  induction p as [o|op k IH|k q IH]; intros st; simpl; [done|done|].
  by destruct (IH (set_downloadPromises st (delete k (downloadPromises st)))).
Qed.

Lemma add_env h i p site st :
  online (addOngoingDownload h i p site st).2 = online st
  /\ currentSiteId (addOngoingDownload h i p site st).2 = currentSiteId st.
Proof.
  unfold addOngoingDownload.
  match goal with |- context [advance ?k ?q ?s] =>
    pose proof (advance_env k q s) as [H1 H2]; destruct (advance k q s) as [q' s'] end.
  simpl in *. by rewrite H1, H2.
Qed.

Lemma prefetchPackage_env h m c s f site args st :
  online (ActivityPrefetchHandler.prefetchPackage h m c s f site args st).2 = online st
  /\ currentSiteId (ActivityPrefetchHandler.prefetchPackage h m c s f site args st).2
     = currentSiteId st.
Proof.
  unfold ActivityPrefetchHandler.prefetchPackage.
  destruct (negb (online st)); [done|].
  destruct (isDownloading _ _ _ _); [done|]. apply add_env.
Qed.

Lemma or_current_ext site st st' :
  currentSiteId st' = currentSiteId st -> or_current site st' = or_current site st.
Proof. unfold or_current. by intros ->. Qed.

(** ** The result of a prefetch *)

(** C2, as stated, does not hold: two callers ask for the forum, the
    download function resolves with "v2", and the promise both callers hold
    resolves with the result of the status write, not with "v2". *)
Lemma prefetch_promise_does_not_carry_the_work_result :
  (exec Sample.two_callers Sample.app).1 = [PRef 0; PRef 0]
  /\ outcome_of (run Sample.two_callers Sample.app) (PRef 0)
     = Some (Resolved VUndefined)
  /\ outcome_of (run Sample.two_callers Sample.app) (PRef 0)
     <> Some (Resolved (VString "v2")).
Proof.
  split; [|split]; [vm_compute; reflexivity|vm_compute; reflexivity|].
  vm_compute. discriminate.
Qed.

(** C2, amended.  A call of [prefetchPackage] for a package without download
    in flight, made online in a reachable state, returns a promise; a second
    call made right away returns the same promise and changes nothing.
    When the status write succeeds, the download function resolves with [R]
    and the second status write succeeds, both callers see the promise
    resolved, with the result of the status write (no value) and not with
    [R]; the download function was invoked once; the stored status is
    DOWNLOADED and the stored payload is [R] if it is a string, and empty
    otherwise.  This holds whatever else the application does meanwhile. *)
Theorem prefetch_settles_both_callers_once
    st0 pre h m c s f site args c2 s2 f2 args2 bg1 bg2 bg3 w1 R w3 :
  initial st0 ->
  let st := run pre st0 in
  let key := (or_current site st, component h, id m) in
  let pid := length (promises st) in
  online st = true ->
  downloadPromises st !! key = None ->
  quiet pid [(bg1, Resolved w1); (bg2, Resolved R); (bg3, Resolved w3)] = true ->
  let first := ActivityPrefetchHandler.prefetchPackage h m c s f site args st in
  let second :=
    ActivityPrefetchHandler.prefetchPackage h m c2 s2 f2 site args2 first.2 in
  let st' :=
    run (schedule pid [(bg1, Resolved w1); (bg2, Resolved R); (bg3, Resolved w3)])
        second.2 in
  second = (first.1, first.2)
  /\ outcome_of st' first.1 = Some (Resolved VUndefined)
  /\ outcome_of st' second.1 = Some (Resolved VUndefined)
  /\ work_count key (trace st') = S (work_count key (trace st))
  /\ StatusStore.getStatus (packages st') key = DOWNLOADED
  /\ StatusStore.getExtra (packages st') key = ActivityPrefetchHandler.only_string R.
Proof.
  intros Hinit st key pid Hon Hfree Hq first second st'.
  assert (Hinv : Inv st) by (by apply Inv_run, Inv_initial).
  destruct (prefetchPackage_fresh h m c s f site args st Hinv Hon Hfree) as [Hp Hst1].
  fold first pid key in Hp, Hst1.
  assert (Hsecond : second = (first.1, first.2)).
  { subst second. rewrite Hp.
    destruct (prefetchPackage_env h m c s f site args st) as [Hon1 Hcur].
    fold first in Hon1, Hcur. rewrite Hon in Hon1.
    pose proof (or_current_ext site _ _ Hcur) as Hsite.
    apply prefetchPackage_ongoing; [done|]. rewrite Hsite.
    destruct Hst1 as [_ _ _ _ Hent].
    unfold ActivityPrefetchHandler.prefetchPromise in Hent. exact Hent. }
  subst st'. rewrite Hsecond. cbn [fst snd].
  pose proof (activity_run h m c s f site args st _ _ _ _ Hinv Hon Hfree Hq
                (activity_success h m c s f (or_current site st) args st
                   (or_current_idem _ _) _ _ w1 R w3)) as Hfin.
  fold first pid key in Hfin.
  split; [done|]. rewrite Hp.
  pose proof (stage_outcome _ _ _ _ _ _ Hfin) as Hout.
  destruct (stage_status _ _ _ _ _ _ Hfin) as [Hs He].
  split; [done|]. split; [done|]. split; [|split].
  - rewrite (work_count_stage _ _ _ _ _ _ _ Hfin).
    rewrite filter_app, length_app. unfold work_count. simpl. lia.
  - by rewrite Hs.
  - by rewrite He.
Qed.

Lemma prefetch_settles_both_callers_witness :
  Loop.initial Sample.app
  /\ StatusStore.getStatus
       (packages
          (run (schedule 1 [(Sample.busy, Sample.ok);
                            ([], Resolved (VString "v2")); ([], Sample.ok)])
               (ActivityPrefetchHandler.prefetchPackage Sample.forum Sample.module7
                  3 true "prefetchForum" None []
                  (run Sample.busy Sample.app)).2))
       Sample.K = DOWNLOADED.
Proof.
  split; [split; reflexivity|].
  pose proof (prefetch_settles_both_callers_once Sample.app Sample.busy
    Sample.forum Sample.module7 3 true "prefetchForum" None [] 3 true
    "prefetchForum" [] Sample.busy [] [] VUndefined (VString "v2") VUndefined
    (conj eq_refl eq_refl) eq_refl eq_refl eq_refl) as H.
  exact (proj1 (proj2 (proj2 (proj2 (proj2 H))))).
Defined.

(** ** Rollback *)

(** What a failed attempt leaves of a record, whatever its status was: the
    payload it had, and the status it had unless that was DOWNLOADING, in
    which case the status captured in the record, NOT_DOWNLOADED when there
    is none. *)
Lemma rollback_record_any (r : option StatusStore.PackageStatusRecord) :
  let r' := StatusStore.restored
              (StatusStore.written DOWNLOADING None (StatusStore.captured r)) in
  (StatusStore.status_of r = DOWNLOADING ->
   StatusStore.status_of r'
   = default NOT_DOWNLOADED (r ≫= StatusStore.previousStatus))
  /\ StatusStore.extra_of r' = StatusStore.extra_of r.
Proof.
  destruct r as [[s p x]|]; simpl; [|by split].
  destruct (decide (s = DOWNLOADING)) as [->|Hs]; simpl; [by split|].
  rewrite bool_decide_eq_false_2 by done. simpl. by split.
Qed.

(** C3, as stated, does not hold for every call.  An earlier attempt has
    left the record of the forum at DOWNLOADING with no download in flight
    (its rollback failed; a restart during a download leaves the same
    record).  A new call of [prefetchPackage] starts a download, the
    download function rejects with "boom" and the Status Store works: the
    caller is rejected with "boom", and the stored status is NOT_DOWNLOADED,
    not the DOWNLOADING it was before the attempt. *)
Lemma stale_downloading_is_not_restored :
  Loop.initial Sample.app
  /\ downloadPromises (run Examples.abandoned_attempt Sample.app) !! Sample.K = None
  /\ StatusStore.getStatus (packages (run Examples.abandoned_attempt Sample.app))
       Sample.K
     = DOWNLOADING
  /\ outcome_of
       (run Examples.second_attempt (run Examples.abandoned_attempt Sample.app))
       (PRef 1)
     = Some (Rejected (VString "boom"))
  /\ StatusStore.getStatus
       (packages
          (run Examples.second_attempt (run Examples.abandoned_attempt Sample.app)))
       Sample.K
     = NOT_DOWNLOADED
  /\ StatusStore.getStatus
       (packages
          (run Examples.second_attempt (run Examples.abandoned_attempt Sample.app)))
       Sample.K
     <> StatusStore.getStatus (packages (run Examples.abandoned_attempt Sample.app))
          Sample.K.
Proof.
  split; [split; reflexivity|].
  split; [|split; [|split; [|split]]]; try (vm_compute; reflexivity).
  vm_compute. discriminate.
Qed.

(** C3, amended.  A call of [prefetchPackage] that starts a download (made
    online in a reachable state, for a package without download in flight):
    when the download function rejects with [E], the Status Store writes
    succeeding, the promise of the caller is rejected with [E] itself, the
    stored payload is the one from before the attempt and the download
    function was invoked once, it is not retried.  The stored status is
    again the status [S] from before the attempt whenever [S] is not
    DOWNLOADING; for a record left at DOWNLOADING by an earlier attempt it
    becomes the status captured in that record, NOT_DOWNLOADED when none
    was captured.  This holds whatever else the application does
    meanwhile. *)
Theorem failed_prefetch_restores_status_and_rejects
    st0 pre h m c s f site args bg1 bg2 bg3 w1 E w3 :
  initial st0 ->
  let st := run pre st0 in
  let key := (or_current site st, component h, id m) in
  let pid := length (promises st) in
  online st = true ->
  downloadPromises st !! key = None ->
  quiet pid [(bg1, Resolved w1); (bg2, Rejected E); (bg3, Resolved w3)] = true ->
  let first := ActivityPrefetchHandler.prefetchPackage h m c s f site args st in
  let st' :=
    run (schedule pid [(bg1, Resolved w1); (bg2, Rejected E); (bg3, Resolved w3)])
        first.2 in
  outcome_of st' first.1 = Some (Rejected E)
  /\ (StatusStore.getStatus (packages st) key <> DOWNLOADING ->
      StatusStore.getStatus (packages st') key = StatusStore.getStatus (packages st) key)
  /\ (StatusStore.getStatus (packages st) key = DOWNLOADING ->
      StatusStore.getStatus (packages st') key
      = default NOT_DOWNLOADED (packages st !! key ≫= StatusStore.previousStatus))
  /\ StatusStore.getExtra (packages st') key = StatusStore.getExtra (packages st) key
  /\ work_count key (trace st') = S (work_count key (trace st)).
Proof.
  intros Hinit st key pid Hon Hfree Hq first st'.
  assert (Hinv : Inv st) by (by apply Inv_run, Inv_initial).
  destruct (prefetchPackage_fresh h m c s f site args st Hinv Hon Hfree) as [Hp _].
  pose proof (activity_run h m c s f site args st _ _ _ _ Hinv Hon Hfree Hq
                (activity_failure h m c s f (or_current site st) args st
                   (or_current_idem _ _) _ _ w1 E w3)) as Hfin.
  fold first pid key in Hp, Hfin. fold st' in Hfin. rewrite Hp.
  destruct (stage_status _ _ _ _ _ _ Hfin) as [Hs He].
  destruct (rollback_record_any (packages st !! key)) as [Hstale He'].
  split; [by apply (stage_outcome _ _ _ _ _ _ Hfin)|].
  split; [intros HS; rewrite Hs; by apply rollback_record|].
  split; [intros HS; rewrite Hs; by apply Hstale|].
  split; [by rewrite He|].
  rewrite (work_count_stage _ _ _ _ _ _ _ Hfin).
  rewrite filter_app, length_app. unfold work_count. simpl. lia.
Qed.


Lemma failed_prefetch_witness :
  Loop.initial Sample.app_v1
  /\ StatusStore.getStatus (packages Sample.app_v1) Sample.K <> DOWNLOADING
  /\ outcome_of
       (run (schedule 0 [([], Sample.ok); ([], Rejected (VString "boom"));
                         ([], Sample.ok)])
            (ActivityPrefetchHandler.prefetchPackage Sample.forum Sample.module7
               3 true "prefetchForum" None [] Sample.app_v1).2)
       (ActivityPrefetchHandler.prefetchPackage Sample.forum Sample.module7
          3 true "prefetchForum" None [] Sample.app_v1).1
     = Some (Rejected (VString "boom"))
  /\ StatusStore.getStatus
       (packages
          (run (schedule 0 [([], Sample.ok); ([], Rejected (VString "boom"));
                            ([], Sample.ok)])
               (ActivityPrefetchHandler.prefetchPackage Sample.forum Sample.module7
                  3 true "prefetchForum" None [] Sample.app_v1).2))
       Sample.K
     = StatusStore.getStatus (packages Sample.app_v1) Sample.K.
Proof.
  assert (Hs : StatusStore.getStatus (packages Sample.app_v1) Sample.K <> DOWNLOADING)
    by (vm_compute; discriminate).
  split; [split; reflexivity|]. split; [exact Hs|].
  pose proof (failed_prefetch_restores_status_and_rejects Sample.app_v1 []
    Sample.forum Sample.module7 3 true "prefetchForum" None [] [] [] []
    VUndefined (VString "boom") VUndefined
    (conj eq_refl eq_refl) eq_refl eq_refl eq_refl) as H.
  split; [exact (proj1 H)|exact (proj1 (proj2 H) Hs)].
Defined.

(** ** Extra payload *)

(** C5. After a call of [prefetchPackage] that succeeds (the download
    function resolves with [R] and the status writes succeed) the stored
    payload is [R] when [R] is a string and is empty when [R] is anything
    else, [undefined] included. *)
Theorem stored_extra_is_the_string_result
    st0 pre h m c s f site args bg1 bg2 bg3 w1 R w3 :
  initial st0 ->
  let st := run pre st0 in
  let key := (or_current site st, component h, id m) in
  let pid := length (promises st) in
  online st = true ->
  downloadPromises st !! key = None ->
  quiet pid [(bg1, Resolved w1); (bg2, Resolved R); (bg3, Resolved w3)] = true ->
  let st' :=
    run (schedule pid [(bg1, Resolved w1); (bg2, Resolved R); (bg3, Resolved w3)])
        (ActivityPrefetchHandler.prefetchPackage h m c s f site args st).2 in
  StatusStore.getStatus (packages st') key = DOWNLOADED
  /\ (forall x, R = VString x -> StatusStore.getExtra (packages st') key = x)
  /\ (is_string R = false -> StatusStore.getExtra (packages st') key = "").
Proof.
  intros Hinit st key pid Hon Hfree Hq st'.
  assert (Hinv : Inv st) by (by apply Inv_run, Inv_initial).
  pose proof (activity_run h m c s f site args st _ _ _ _ Hinv Hon Hfree Hq
                (activity_success h m c s f (or_current site st) args st
                   (or_current_idem _ _) _ _ w1 R w3)) as Hfin.
  fold pid key in Hfin. fold st' in Hfin.
  destruct (stage_status _ _ _ _ _ _ Hfin) as [Hs He].
  split; [by rewrite Hs|]. rewrite He. simpl. split.
  - by intros x ->.
  - by destruct R.
Qed.


Lemma stored_extra_witness :
  Loop.initial Sample.app
  /\ (is_string VUndefined = false ->
      StatusStore.getExtra
        (packages
           (run (schedule 0 [([], Sample.ok); ([], Resolved VUndefined);
                             ([], Sample.ok)])
                (ActivityPrefetchHandler.prefetchPackage Sample.forum
                   Sample.module7 3 true "prefetchForum" None [] Sample.app).2))
        Sample.K = "").
Proof.
  split; [split; reflexivity|].
  pose proof (stored_extra_is_the_string_result Sample.app []
    Sample.forum Sample.module7 3 true "prefetchForum" None [] [] [] []
    VUndefined VUndefined VUndefined
    (conj eq_refl eq_refl) eq_refl eq_refl eq_refl) as H.
  exact (proj2 (proj2 H)).
Defined.

(** ** Order of the operations *)

(** C6. A call of [prefetchPackage] that starts a download (made online, for
    a package without download in flight) performs on its package, the
    Status Store writes succeeding, exactly these operations in this order:
    [setPrevious], [set] to DOWNLOADING, the download function, and then
    [set] to DOWNLOADED when the download function resolved, or
    [restorePrevious] when it rejected.  This holds whatever else the
    application does meanwhile. *)
Theorem prefetch_operations_in_order
    st0 pre h m c s f site args bg1 bg2 bg3 w1 r w3 :
  initial st0 ->
  let st := run pre st0 in
  let site' := or_current site st in
  let key := (site', component h, id m) in
  let pid := length (promises st) in
  online st = true ->
  downloadPromises st !! key = None ->
  quiet pid [(bg1, Resolved w1); (bg2, r); (bg3, Resolved w3)] = true ->
  let st' :=
    run (schedule pid [(bg1, Resolved w1); (bg2, r); (bg3, Resolved w3)])
        (ActivityPrefetchHandler.prefetchPackage h m c s f site args st).2 in
  operations key (trace st') =
    operations key (trace st)
    ++ [EvSetPrevious key; EvSet key DOWNLOADING None;
        EvCall key (OpDownloadFn f m c s site' args);
        match r with
        | Resolved R =>
            EvSet key DOWNLOADED (Some (ActivityPrefetchHandler.only_string R))
        | Rejected _ => EvRestorePrevious key
        end].
Proof.
  intros Hinit st site' key pid Hon Hfree Hq st'.
  assert (Hinv : Inv st) by (by apply Inv_run, Inv_initial).
  destruct r as [R|E].
  - pose proof (activity_run h m c s f site args st _ _ _ _ Hinv Hon Hfree Hq
                  (activity_success h m c s f (or_current site st) args st
                     (or_current_idem _ _) _ _ w1 R w3)) as Hfin.
    fold site' pid key in Hfin. fold st' in Hfin.
    rewrite (operations_stage _ _ _ _ _ _ _ Hfin), filter_app. unfold operations.
    simpl. by rewrite app_nil_r.
  - pose proof (activity_run h m c s f site args st _ _ _ _ Hinv Hon Hfree Hq
                  (activity_failure h m c s f (or_current site st) args st
                     (or_current_idem _ _) _ _ w1 E w3)) as Hfin.
    fold site' pid key in Hfin. fold st' in Hfin.
    rewrite (operations_stage _ _ _ _ _ _ _ Hfin), filter_app. unfold operations.
    simpl. by rewrite app_nil_r.
Qed.

Lemma prefetch_operations_witness :
  Loop.initial Sample.app
  /\ operations Sample.K
       (trace
          (run (schedule 0 [([], Sample.ok); ([], Rejected (VString "boom"));
                            ([], Sample.ok)])
               (ActivityPrefetchHandler.prefetchPackage Sample.forum Sample.module7
                  3 true "prefetchForum" None [] Sample.app).2))
     = operations Sample.K (trace Sample.app)
       ++ [EvSetPrevious Sample.K; EvSet Sample.K DOWNLOADING None;
           EvCall Sample.K
             (OpDownloadFn "prefetchForum" Sample.module7 3 true "site1" []);
           EvRestorePrevious Sample.K].
Proof.
  split; [split; reflexivity|].
  exact (prefetch_operations_in_order Sample.app []
    Sample.forum Sample.module7 3 true "prefetchForum" None [] [] [] []
    VUndefined (Rejected (VString "boom")) VUndefined
    (conj eq_refl eq_refl) eq_refl eq_refl eq_refl).
Defined.

(** ** After a download has settled *)

Lemma settle_site pid r st : currentSiteId (settle pid r st) = currentSiteId st.
Proof.
  unfold settle. destruct (promises st !! pid) as [[key [o|op k|k' q]]|]; try done.
  match goal with |- context [advance ?k ?q ?s] =>
    pose proof (advance_env k q s) as [_ H2]; destruct (advance k q s) as [q' s'] end.
  simpl in *. rewrite H2. destruct op, r; try done; unfold complete;
    unfold FilepoolProvider.storePackageStatus_done; by case_bool_decide.
Qed.

Lemma downloadOrPrefetch_env h m c p d st :
  online (ResourcePrefetchHandler.downloadOrPrefetch h m c p d st).2 = online st
  /\ currentSiteId (ResourcePrefetchHandler.downloadOrPrefetch h m c p d st).2
     = currentSiteId st.
Proof.
  unfold ResourcePrefetchHandler.downloadOrPrefetch.
  destruct (negb (online st)); [done|].
  destruct (isDownloading _ _ _ _); [done|]. apply add_env.
Qed.

Lemma step_site a st : currentSiteId (step a st).2 = currentSiteId st.
Proof.
  destruct a as [h m c s f site args|h m c p d|pid r|b]; simpl.
  - pose proof (prefetchPackage_env h m c s f site args st) as [_ H].
    by destruct (ActivityPrefetchHandler.prefetchPackage h m c s f site args st).
  - pose proof (downloadOrPrefetch_env h m c p d st) as [_ H].
    by destruct (ResourcePrefetchHandler.downloadOrPrefetch h m c p d st).
  - apply settle_site.
  - done.
Qed.

Lemma run_site acts : forall st, currentSiteId (run acts st) = currentSiteId st.
Proof.
  induction acts as [|a acts IH]; intros st; [done|].
  by rewrite run_cons, IH, step_site.
Qed.

Lemma entry_pending st key pid :
  Inv st -> downloadPromises st !! key = Some pid -> pending st (PRef pid).
Proof.
  intros Hinv Hreg. destruct (inv_entries _ Hinv _ _ Hreg) as (op&k&Hj).
  unfold pending. simpl. by rewrite Hj.
Qed.

(** C7. In every reachable state an entry of the ongoing downloads refers
    to a promise that has not settled.  When the promise of a download
    settles, on success as on failure of the download function, the entry of
    its package is gone.  A call of [prefetchPackage] made afterwards
    (online) for the same package starts a new download under a new
    promise: the status becomes DOWNLOADING while the download function
    runs again, and DOWNLOADED when it has resolved. *)
Theorem settled_download_leaves_no_entry
    st0 pre h m c s f site args bg1 bg2 bg3 w1 r w3
    c2 s2 f2 args2 bg4 bg5 bg6 w4 R2 w6 :
  initial st0 ->
  let st := run pre st0 in
  let key := (or_current site st, component h, id m) in
  let pid := length (promises st) in
  online st = true ->
  downloadPromises st !! key = None ->
  quiet pid [(bg1, Resolved w1); (bg2, r); (bg3, Resolved w3)] = true ->
  let st1 :=
    run (schedule pid [(bg1, Resolved w1); (bg2, r); (bg3, Resolved w3)])
        (ActivityPrefetchHandler.prefetchPackage h m c s f site args st).2 in
  let pid2 := length (promises st1) in
  online st1 = true ->
  quiet pid2 [(bg4, Resolved w4); (bg5, Resolved R2); (bg6, Resolved w6)] = true ->
  let again := ActivityPrefetchHandler.prefetchPackage h m c2 s2 f2 site args2 st1 in
  let st2 := run (schedule pid2 [(bg4, Resolved w4)]) again.2 in
  let st3 := run (schedule pid2 [(bg5, Resolved R2); (bg6, Resolved w6)]) st2 in
  (forall key' pid', downloadPromises st !! key' = Some pid' -> pending st (PRef pid'))
  /\ is_Some (outcome_of st1 (PRef pid))
  /\ downloadPromises st1 !! key = None
  /\ again.1 = PRef pid2
  /\ pid2 <> pid
  /\ StatusStore.getStatus (packages st2) key = DOWNLOADING
  /\ working st2 pid2 key
  /\ StatusStore.getStatus (packages st3) key = DOWNLOADED
  /\ is_Some (outcome_of st3 (PRef pid2))
  /\ work_count key (trace st3) = 2 + work_count key (trace st).
Proof.
  intros Hinit st key pid Hon Hfree Hq st1 pid2 Hon1 Hq2 again st2 st3.
  assert (Hinv : Inv st) by (by apply Inv_run, Inv_initial).
  split; [intros key' pid'; by apply entry_pending|].
  (* the first download *)
  assert (exists o rec1 evs,
            Stage st1 pid key (Ret o) rec1
              ((key_trace key (trace st) ++
                [EvCall key (OpStorePackageStatus (or_current site st) DOWNLOADING
                               (component h) (id m) None)]) ++ evs)
            /\ length (filter (fun ev => is_work ev = true) evs) = 1)
    as (o&rec1&evs&Hfin&Hevs).
  { destruct r as [R|E].
    - do 3 eexists. split.
      + apply (activity_run h m c s f site args st _ _ _ _ Hinv Hon Hfree Hq
                 (activity_success h m c s f (or_current site st) args st
                    (or_current_idem _ _) _ _ w1 R w3)).
      + done.
    - do 3 eexists. split.
      + apply (activity_run h m c s f site args st _ _ _ _ Hinv Hon Hfree Hq
                 (activity_failure h m c s f (or_current site st) args st
                    (or_current_idem _ _) _ _ w1 E w3)).
      + done. }
  assert (Hinv1 : Inv st1) by (by destruct Hfin).
  assert (Hsite1 : or_current site st1 = or_current site st).
  { apply or_current_ext. unfold st1. rewrite run_site.
    by destruct (prefetchPackage_env h m c s f site args st). }
  assert (Hfree1 : downloadPromises st1 !! (or_current site st1, component h, id m) = None).
  { rewrite Hsite1. by destruct Hfin. }
  split; [rewrite (stage_outcome _ _ _ _ _ _ Hfin); eauto|].
  split; [by destruct Hfin|].
  destruct (prefetchPackage_fresh h m c2 s2 f2 site args2 st1 Hinv1 Hon1 Hfree1)
    as [Hp2 _].
  split; [done|].
  split.
  { destruct Hfin as [_ Hjob _ _ _]. apply lookup_lt_Some in Hjob. unfold pid2. lia. }
  (* the second download, while the download function runs *)
  simpl in Hq2. rewrite !andb_true_r in Hq2.
  apply andb_true_iff in Hq2 as [Hq4 Hq56].
  destruct (activity_marked h m c2 s2 f2 (or_current site st1) args2 st1
              (or_current_idem _ _) (packages st1 !! (or_current site st1, component h, id m))
              (key_trace (or_current site st1, component h, id m) (trace st1)
                 ++ [EvCall (or_current site st1, component h, id m)
                       (OpStorePackageStatus (or_current site st1) DOWNLOADING
                          (component h) (id m) None)]) w4) as [k Hmark].
  assert (Hq4' : quiet pid2 [(bg4, Resolved w4)] = true)
    by (simpl; by rewrite Hq4).
  pose proof (activity_run h m c2 s2 f2 site args2 st1 _ _ _ _ Hinv1 Hon1 Hfree1
                Hq4' Hmark) as Hst2.
  fold again pid2 in Hst2. fold st2 in Hst2. rewrite Hsite1 in Hst2. fold key in Hst2.
  destruct (stage_status _ _ _ _ _ _ Hst2) as [Hs2 _].
  split; [by rewrite Hs2|].
  split. { destruct Hst2 as [_ Hjob _ _ _]. unfold working. by do 7 eexists. }
  (* the second download, settled *)
  assert (Hq456 : quiet pid2 [(bg4, Resolved w4); (bg5, Resolved R2); (bg6, Resolved w6)]
                  = true).
  { simpl. rewrite Hq4. simpl. apply andb_true_iff in Hq56 as [-> ->]. done. }
  pose proof (activity_run h m c2 s2 f2 site args2 st1 _ _ _ _ Hinv1 Hon1 Hfree1
                Hq456
                (activity_success h m c2 s2 f2 (or_current site st1) args2 st1
                   (or_current_idem _ _) _ _ w4 R2 w6)) as Hst3.
  rewrite run_schedule_cons in Hst3.
  change (run (bg4 ++ [Settle (length (promises st1)) (Resolved w4)])
              (ActivityPrefetchHandler.prefetchPackage h m c2 s2 f2 site args2 st1).2)
    with st2 in Hst3.
  fold pid2 in Hst3. fold st3 in Hst3. rewrite Hsite1 in Hst3. fold key in Hst3.
  destruct (stage_status _ _ _ _ _ _ Hst3) as [Hs3 _].
  split; [by rewrite Hs3|].
  split; [rewrite (stage_outcome _ _ _ _ _ _ Hst3); eauto|].
  rewrite (work_count_stage _ _ _ _ _ _ _ Hst3).
  rewrite filter_app, length_app.
  destruct Hfin as [_ _ _ Htr1 _]. rewrite Htr1.
  rewrite !filter_app, !length_app, Hevs. unfold work_count. simpl. lia.
Qed.

Lemma settled_download_witness :
  Loop.initial Sample.app
  /\ downloadPromises
       (run (schedule 0 [([], Sample.ok); ([], Resolved (VString "v2"));
                         ([], Sample.ok)])
            (ActivityPrefetchHandler.prefetchPackage Sample.forum Sample.module7
               3 true "prefetchForum" None [] Sample.app).2)
       !! Sample.K = None.
Proof.
  split; [split; reflexivity|].
  pose proof (settled_download_leaves_no_entry Sample.app []
    Sample.forum Sample.module7 3 true "prefetchForum" None [] [] [] []
    VUndefined (Resolved (VString "v2")) VUndefined
    3 true "prefetchForum" [] [] [] [] VUndefined (VString "v3") VUndefined
    (conj eq_refl eq_refl) eq_refl eq_refl eq_refl eq_refl eq_refl) as H.
  exact (proj1 (proj2 (proj2 H))).
Defined.

(** ** The status is not left at DOWNLOADING *)

Lemma rollback_not_downloading (r : option StatusStore.PackageStatusRecord) :
  r ≫= StatusStore.previousStatus <> Some DOWNLOADING ->
  StatusStore.status_of
    (StatusStore.restored
       (StatusStore.written DOWNLOADING None (StatusStore.captured r)))
  <> DOWNLOADING.
Proof.
  destruct r as [[s p x]|]; simpl; [|done]. intros Hp.
  destruct s; simpl; try done. destruct p as [[]|]; simpl; congruence.
Qed.

(** C10. A call of [prefetchPackage] that starts a download in a reachable
    state, for a package whose record has not DOWNLOADING as captured
    previous status.  When all Status Store writes succeed, the promise
    settles, whether the download function resolved or rejected, with a
    stored status other than DOWNLOADING.  When the download function
    resolves but the write of DOWNLOADED fails with [W], the failure handler
    runs all the same: the status is rolled back (to the status before the
    attempt, if that was not DOWNLOADING), the promise is rejected with [W]
    and the stored status is not DOWNLOADING. *)
Theorem settled_prefetch_is_not_left_downloading
    st0 pre h m c s f site args bg1 bg2 bg3 bg4 w1 r w3 R W w4 :
  initial st0 ->
  let st := run pre st0 in
  let key := (or_current site st, component h, id m) in
  let pid := length (promises st) in
  online st = true ->
  downloadPromises st !! key = None ->
  packages st !! key ≫= StatusStore.previousStatus <> Some DOWNLOADING ->
  quiet pid [(bg1, Resolved w1); (bg2, r); (bg3, Resolved w3)] = true ->
  quiet pid [(bg1, Resolved w1); (bg2, Resolved R); (bg3, Rejected W);
             (bg4, Resolved w4)] = true ->
  let first := ActivityPrefetchHandler.prefetchPackage h m c s f site args st in
  let st' :=
    run (schedule pid [(bg1, Resolved w1); (bg2, r); (bg3, Resolved w3)]) first.2 in
  let st'' :=
    run (schedule pid [(bg1, Resolved w1); (bg2, Resolved R); (bg3, Rejected W);
                       (bg4, Resolved w4)]) first.2 in
  (is_Some (outcome_of st' first.1)
   /\ StatusStore.getStatus (packages st') key <> DOWNLOADING)
  /\ outcome_of st'' first.1 = Some (Rejected W)
  /\ StatusStore.getStatus (packages st'') key <> DOWNLOADING
  /\ (StatusStore.getStatus (packages st) key <> DOWNLOADING ->
      StatusStore.getStatus (packages st'') key
      = StatusStore.getStatus (packages st) key)
  /\ store_events key (trace st'') =
       store_events key (trace st)
       ++ [EvSetPrevious key; EvSet key DOWNLOADING None; EvRestorePrevious key].
Proof.
  intros Hinit st key pid Hon Hfree Hprev Hq Hq' first st' st''.
  assert (Hinv : Inv st) by (by apply Inv_run, Inv_initial).
  destruct (prefetchPackage_fresh h m c s f site args st Hinv Hon Hfree) as [Hp _].
  fold first pid in Hp. rewrite Hp. split.
  - destruct r as [R'|E].
    + pose proof (activity_run h m c s f site args st _ _ _ _ Hinv Hon Hfree Hq
                    (activity_success h m c s f (or_current site st) args st
                       (or_current_idem _ _) _ _ w1 R' w3)) as Hfin.
      fold first pid key in Hfin. fold st' in Hfin.
      destruct (stage_status _ _ _ _ _ _ Hfin) as [Hs _].
      rewrite (stage_outcome _ _ _ _ _ _ Hfin), Hs. split; [eauto|done].
    + pose proof (activity_run h m c s f site args st _ _ _ _ Hinv Hon Hfree Hq
                    (activity_failure h m c s f (or_current site st) args st
                       (or_current_idem _ _) _ _ w1 E w3)) as Hfin.
      fold first pid key in Hfin. fold st' in Hfin.
      destruct (stage_status _ _ _ _ _ _ Hfin) as [Hs _].
      rewrite (stage_outcome _ _ _ _ _ _ Hfin), Hs.
      split; [eauto|by apply rollback_not_downloading].
  - pose proof (activity_run h m c s f site args st _ _ _ _ Hinv Hon Hfree Hq'
                  (activity_write_failure h m c s f (or_current site st) args st
                     (or_current_idem _ _) _ _ w1 R W w4)) as Hfin.
    fold first pid key in Hfin. fold st'' in Hfin.
    destruct (stage_status _ _ _ _ _ _ Hfin) as [Hs _].
    split; [by apply (stage_outcome _ _ _ _ _ _ Hfin)|].
    split; [rewrite Hs; by apply rollback_not_downloading|].
    split.
    + intros HS. rewrite Hs. by apply rollback_record.
    + destruct Hfin as [_ _ _ Htr _]. unfold store_events. rewrite Htr.
      rewrite !filter_app. simpl. by rewrite app_nil_r.
Qed.

Lemma settled_prefetch_witness :
  Loop.initial Sample.app
  /\ outcome_of
       (run (schedule 0 [([], Sample.ok); ([], Resolved (VString "v2"));
                         ([], Rejected (VString "store unavailable"));
                         ([], Sample.ok)])
            (ActivityPrefetchHandler.prefetchPackage Sample.forum Sample.module7 3
               true "prefetchForum" None [] Sample.app).2)
       (ActivityPrefetchHandler.prefetchPackage Sample.forum Sample.module7 3
          true "prefetchForum" None [] Sample.app).1
     = Some (Rejected (VString "store unavailable")).
Proof.
  split; [split; reflexivity|].
  pose proof (settled_prefetch_is_not_left_downloading Sample.app []
    Sample.forum Sample.module7 3 true "prefetchForum" None [] [] [] [] []
    VUndefined (Rejected (VString "boom")) VUndefined (VString "v2")
    (VString "store unavailable") VUndefined (conj eq_refl eq_refl)
    eq_refl eq_refl ltac:(discriminate) eq_refl eq_refl) as H.
  exact (proj1 (proj2 H)).
Defined.

(** ** The two handlers compared *)

(** C8, as stated, does not hold: the download of the forum fails in both
    variants; the activity handler marks the package DOWNLOADING while the
    work runs and rolls the status back, the resource handler performs no
    Status Store operation at all. *)
Lemma variants_differ_in_status_handling :
  outcome_of (run Sample.failing_activity Sample.app) (PRef 0)
    = Some (Rejected (VString "boom"))
  /\ outcome_of (run Sample.failing_resource Sample.app) (PRef 0)
    = Some (Rejected (VString "boom"))
  /\ StatusStore.getStatus
       (packages (run (firstn 2 Sample.failing_activity) Sample.app)) Sample.K
     = DOWNLOADING
  /\ StatusStore.getStatus
       (packages (run (firstn 1 Sample.failing_resource) Sample.app)) Sample.K
     = NOT_DOWNLOADED
  /\ filter (fun ev => is_store_event ev = true)
       (trace (run Sample.failing_activity Sample.app))
     = [EvSetPrevious Sample.K; EvSet Sample.K DOWNLOADING None;
        EvRestorePrevious Sample.K]
  /\ filter (fun ev => is_store_event ev = true)
       (trace (run Sample.failing_resource Sample.app))
     = []
  /\ filter (fun ev => is_store_event ev = true)
       (trace (run Sample.failing_activity Sample.app))
     <> filter (fun ev => is_store_event ev = true)
          (trace (run Sample.failing_resource Sample.app)).
Proof.
  split; [|split; [|split; [|split; [|split; [|split]]]]];
    try (vm_compute; reflexivity).
  vm_compute. discriminate.
Qed.

Lemma no_status_request_then p f :
  no_status_request p -> (forall v, no_status_request (f v)) ->
  no_status_request (then_ p f).
Proof.
  intros Hp Hf. unfold then_.
  induction Hp as [o|op k Hop Hk IH]; simpl.
  - destruct o; [apply Hf|constructor].
  - constructor; [done|]. intros o. apply IH.
Qed.

Lemma no_status_request_call op :
  is_status_request op = false -> no_status_request (call op).
Proof. intros H. constructor; [done|]. intros o. constructor. Qed.

Lemma resource_chain_no_status_request h m c p d site :
  no_status_request (ResourcePrefetchHandler.prefetchPromise h m c p d site).
Proof.
  unfold ResourcePrefetchHandler.prefetchPromise.
  apply no_status_request_then; [by apply no_status_request_call|]. intros loaded.
  apply no_status_request_then; [by apply no_status_request_call|]. intros intro.
  destruct d as [dir|]; [destruct (String.eqb dir "")|];
    by apply no_status_request_call.
Qed.

(** C8, amended.  The two variants have the same offline precondition and
    the same de-duplication through the ongoing downloads: offline, both
    return the promise rejected with the network error and change nothing;
    with a download in flight for the package, both return its promise and
    change nothing; otherwise both register a new promise for the package,
    whose chain removes the entry right before it settles, and leave the
    Status Store as it is at the call.  They differ in the status handling:
    the chain of the activity variant starts by requesting the DOWNLOADING
    write, the chain of the resource variant makes no request to the Status
    Store. *)
Theorem variants_share_precondition_and_deduplication
    h m c s f args prefetch dirPath st :
  let A := ActivityPrefetchHandler.prefetchPackage h m c s f None args st in
  let R := ResourcePrefetchHandler.downloadOrPrefetch h m c prefetch dirPath st in
  let site := currentSiteId st in
  let key := (site, component h, id m) in
  match online st, downloadPromises st !! key with
  | false, _ =>
      A = (PSettled (Rejected (translate_instant "core.networkerrormsg")), st)
      /\ R = A
  | true, Some pid => A = (PRef pid, st) /\ R = A
  | true, None =>
      A.1 = PRef (length (promises st)) /\ R.1 = A.1
      /\ downloadPromises A.2 = <[key := length (promises st)]> (downloadPromises st)
      /\ downloadPromises R.2 = downloadPromises A.2
      /\ packages A.2 = packages st /\ packages R.2 = packages st
  end
  /\ owned key
       (finally_ (ActivityPrefetchHandler.prefetchPromise h m c s f site args st)
          (Delete key))
  /\ owned key
       (finally_ (ResourcePrefetchHandler.prefetchPromise h m c prefetch dirPath site)
          (Delete key))
  /\ (exists k,
        ActivityPrefetchHandler.prefetchPromise h m c s f site args st
        = Await (OpStorePackageStatus site DOWNLOADING (component h) (id m) None) k)
  /\ no_status_request
       (ResourcePrefetchHandler.prefetchPromise h m c prefetch dirPath site).
Proof.
  intros A R site key.
  assert (Hs : or_current None st = site) by done.
  pose proof (or_current_site st) as Hs'. fold site in Hs'.
  split; [|split; [|split; [|split]]].
  - destruct (online st) eqn:Hon; [destruct (downloadPromises st !! key) as [pid|] eqn:Hreg|].
    + subst A R. rewrite (prefetchPackage_ongoing _ _ _ _ _ _ _ _ pid) by done.
      by rewrite (downloadOrPrefetch_ongoing _ _ _ _ _ _ pid).
    + subst A R. unfold ActivityPrefetchHandler.prefetchPackage,
        ResourcePrefetchHandler.downloadOrPrefetch. rewrite Hon. simpl negb. cbv iota.
      rewrite Hs. fold site.
      rewrite !isDownloading_None by (by rewrite Hs').
      unfold ActivityPrefetchHandler.prefetchPromise,
        ResourcePrefetchHandler.prefetchPromise.
      cbn [then_ catch_ settle_with call ActivityPrefetchHandler.setDownloading
           FilepoolProvider.storePackageStatus ResourcePrefetchHandler.loadContents].
      rewrite !add_spec. cbn [fst snd downloadPromises packages set_promises log
                              set_downloadPromises].
      rewrite Hs'. done.
    + subst A R. rewrite prefetchPackage_offline by done.
      by rewrite downloadOrPrefetch_offline.
  - apply owned_finally. pose proof (activity_chain_clean h m c s f site args st) as H.
    by rewrite Hs' in H.
  - apply owned_finally, resource_chain_clean.
  - unfold ActivityPrefetchHandler.prefetchPromise.
    cbn [then_ catch_ settle_with call ActivityPrefetchHandler.setDownloading
         FilepoolProvider.storePackageStatus].
    rewrite Hs'. eauto.
  - apply resource_chain_no_status_request.
Qed.

(** ** Notifications *)

Import CourseModuleComponent.

(** C9, as stated, does not hold: the same status broadcast twice makes
    the observer call [updateStatus] twice. *)
Lemma repeated_status_retriggers_observer :
  updateStatusCalls (trigger Sample.widget Sample.downloaded_event) = ["downloaded"]
  /\ updateStatusCalls
       (trigger (trigger Sample.widget Sample.downloaded_event) Sample.downloaded_event)
     = ["downloaded"; "downloaded"]
  /\ trigger (trigger Sample.widget Sample.downloaded_event) Sample.downloaded_event
     <> trigger Sample.widget Sample.downloaded_event.
Proof.
  split; [|split]; try (vm_compute; reflexivity). vm_compute. discriminate.
Qed.

Lemma trigger_shown c data :
  statusObserver c = Some (siteId data) ->
  prefetchHandler c = Some (componentName data) ->
  componentId data = moduleId c ->
  downloadEnabled c = true ->
  statusText data <> "" ->
  trigger c data = showStatus c (statusText data)
  /\ statusObserver (trigger c data) = statusObserver c
  /\ prefetchHandler (trigger c data) = prefetchHandler c
  /\ moduleId (trigger c data) = moduleId c
  /\ downloadEnabled (trigger c data) = downloadEnabled c
  /\ hasUpdateStatus (trigger c data) = hasUpdateStatus c
  /\ canCheckUpdates (trigger c data) = canCheckUpdates c
  /\ updateStatusCalls (trigger c data)
     = updateStatusCalls c ++ (if hasUpdateStatus c then [statusText data] else [])
  /\ display (trigger c data)
     = (String.eqb (statusText data) (status_name DOWNLOADING),
        String.eqb (statusText data) (status_name NOT_DOWNLOADED),
        String.eqb (statusText data) (status_name OUTDATED)
        || (negb (canCheckUpdates c)
            && String.eqb (statusText data) (status_name DOWNLOADED))).
Proof.
  intros Hobs Hh Hid Hen Htxt.
  assert (Ht : trigger c data = showStatus c (statusText data)).
  { unfold trigger, onStatusChanged. rewrite Hobs, String.eqb_refl, Hh, Hid,
      Z.eqb_refl, String.eqb_refl, Hen. done. }
  rewrite Ht. unfold showStatus.
  apply String.eqb_neq in Htxt. rewrite Htxt. simpl negb. cbv iota.
  destruct (hasUpdateStatus c) eqn:Hu; simpl; rewrite ?Hu, ?app_nil_r; done.
Qed.

(** C9, amended.  The observer of a module component keeps no last seen
    status and compares nothing: with the download enabled, every
    notification for its module that carries a status shows that status
    again and, when the handler defines [updateStatus], calls it again, once
    per notification.  Showing the same status again leaves what the
    component displays as it was after the first notification. *)
Theorem observer_reacts_to_every_notification c data n :
  statusObserver c = Some (siteId data) ->
  prefetchHandler c = Some (componentName data) ->
  componentId data = moduleId c ->
  downloadEnabled c = true ->
  statusText data <> "" ->
  updateStatusCalls (broadcast c (repeat data n))
    = updateStatusCalls c
      ++ (if hasUpdateStatus c then repeat (statusText data) n else [])
  /\ display (broadcast c (repeat data (S n))) = display (trigger c data).
Proof.
  revert c. induction n as [|n IH]; intros c Hobs Hh Hid Hen Htxt.
  - simpl. split; [|done]. destruct (hasUpdateStatus c); by rewrite app_nil_r.
  - destruct (trigger_shown c data Hobs Hh Hid Hen Htxt)
      as (_&H1&H2&H3&H4&H5&H6&H7&H8).
    destruct (IH (trigger c data)) as [IHa IHb]; [congruence..|].
    split.
    + change (broadcast c (repeat data (S n)))
        with (broadcast (trigger c data) (repeat data n)).
      rewrite IHa, H7, H5.
      destruct (hasUpdateStatus c); simpl; rewrite <- ?app_assoc, ?app_nil_r; done.
    + change (broadcast c (repeat data (S (S n))))
        with (broadcast (trigger c data) (repeat data (S n))).
      rewrite IHb.
      destruct (trigger_shown (trigger c data) data) as (_&_&_&_&_&_&_&_&H8');
        [congruence..|].
      by rewrite H8', H8, H6.
Qed.

Lemma observer_reacts_witness :
  statusObserver Sample.widget = Some (siteId Sample.downloaded_event)
  /\ updateStatusCalls (broadcast Sample.widget (repeat Sample.downloaded_event 3))
     = updateStatusCalls Sample.widget
       ++ repeat (statusText Sample.downloaded_event) 3.
Proof.
  split; [reflexivity|].
  exact (proj1 (observer_reacts_to_every_notification Sample.widget
    Sample.downloaded_event 3 eq_refl eq_refl eq_refl eq_refl
    ltac:(discriminate))).
Defined.

(** * Further properties of the download coordination *)

(** ** Packages are independent *)

Lemma calls_for_ext st st' key a :
  currentSiteId st' = currentSiteId st -> calls_for st' key a = calls_for st key a.
Proof.
  intros H. destruct a as [h m c s f site args|h m c p d|?|?]; simpl; [|by rewrite H|done..].
  by rewrite (or_current_ext _ _ _ H).
Qed.

(** An action that is no call for package [key], in a state where the
    package has no download in flight, leaves its record, its part of the
    trace and the absence of an entry as they are. *)
Lemma idle_package_step st key a :
  Inv st ->
  downloadPromises st !! key = None ->
  calls_for st key a = false ->
  packages (step a st).2 !! key = packages st !! key
  /\ key_trace key (trace (step a st).2) = key_trace key (trace st)
  /\ downloadPromises (step a st).2 !! key = None.
Proof.
  intros Hinv Hfree Hcall.
  destruct a as [h m c s f site args|h m c p d|pid r|b].
  - simpl in Hcall. apply bool_decide_eq_false in Hcall.
    cbn [step]. unfold ActivityPrefetchHandler.prefetchPackage.
    destruct (online st); [|done]. simpl negb. cbv iota.
    destruct (isDownloading h (id m) (Some (or_current site st)) st); [done|].
    unfold ActivityPrefetchHandler.prefetchPromise.
    cbn [then_ catch_ settle_with call ActivityPrefetchHandler.setDownloading
         FilepoolProvider.storePackageStatus].
    rewrite add_spec, or_current_idem.
    cbn [snd packages trace downloadPromises set_promises log set_downloadPromises].
    split; [done|]. split.
    + by rewrite key_trace_app, key_trace_call_ne, app_nil_r.
    + by rewrite lookup_insert_ne.
  - simpl in Hcall. apply bool_decide_eq_false in Hcall.
    cbn [step]. unfold ResourcePrefetchHandler.downloadOrPrefetch.
    destruct (online st); [|done]. simpl negb. cbv iota.
    destruct (isDownloading h (id m) (Some (currentSiteId st)) st); [done|].
    unfold ResourcePrefetchHandler.prefetchPromise.
    cbn [then_ settle_with call ResourcePrefetchHandler.loadContents].
    rewrite add_spec, or_current_site.
    cbn [snd packages trace downloadPromises set_promises log set_downloadPromises].
    split; [done|]. split.
    + by rewrite key_trace_app, key_trace_call_ne, app_nil_r.
    + by rewrite lookup_insert_ne.
  - cbn [step snd].
    destruct (promises st !! pid) as [[key' [o|op2 k2|k' q]]|] eqn:Hj;
      try (rewrite settle_idle; [done | intros ???; congruence]).
    destruct (inv_jobs _ Hinv _ _ Hj) as [Hown Hreg]; simpl in Hown, Hreg.
    assert (Hne : key' ≠ key) by (intros E; rewrite E in Hreg; congruence).
    inversion Hown as [|? ? Hop Hk]; subst.
    destruct (owned_cases _ _ (Hk (reply op2 r))) as [[o' Ho]|(op'&k'&Ho&_&_)].
    + rewrite (settle_done _ _ _ _ _ _ _ Hj Ho).
      cbn [promises packages trace downloadPromises set_promises log set_downloadPromises].
      split; [by rewrite (complete_packages_ne _ _ _ key')|].
      split; [by rewrite (complete_trace_ne _ _ _ key')|].
      by rewrite lookup_delete_ne.
    + rewrite (settle_next _ _ _ _ _ _ _ _ Hj Ho).
      cbn [promises packages trace downloadPromises set_promises log set_downloadPromises].
      split; [by rewrite (complete_packages_ne _ _ _ key')|].
      split; [by rewrite key_trace_app, key_trace_call_ne, app_nil_r,
                         (complete_trace_ne _ _ _ key')|].
      by rewrite complete_entries.
  - done.
Qed.

Lemma idle_package_run key acts : forall st st',
  Inv st' ->
  currentSiteId st' = currentSiteId st ->
  downloadPromises st' !! key = None ->
  forallb (fun a => negb (calls_for st key a)) acts = true ->
  packages (run acts st') !! key = packages st' !! key
  /\ key_trace key (trace (run acts st')) = key_trace key (trace st')
  /\ downloadPromises (run acts st') !! key = None.
Proof.
  induction acts as [|a acts IH]; intros st st' Hinv Hsite Hfree Hacts; [done|].
  simpl in Hacts. apply andb_true_iff in Hacts as [Ha Hacts].
  apply negb_true_iff in Ha. rewrite <- (calls_for_ext st st') in Ha by done.
  destruct (idle_package_step st' key a Hinv Hfree Ha) as (Hp&Ht&Hd).
  rewrite run_cons.
  destruct (IH st (step a st').2) as (Hp'&Ht'&Hd');
    [by apply Inv_step|by rewrite step_site|done|done|].
  by rewrite Hp', Ht', Hp, Ht.
Qed.

(** X1. Downloads of other packages leave a package alone: in a reachable
    state where package [key] has no download in flight, whatever happens
    in the application short of a call for [key] (calls for other packages,
    completions of their operations with any outcome, changes of
    connectivity) leaves the stored record of [key] as it is, performs no
    operation on it and registers no download for it. *)
Theorem other_downloads_leave_a_package_alone st0 pre key acts :
  initial st0 ->
  let st := run pre st0 in
  downloadPromises st !! key = None ->
  forallb (fun a => negb (calls_for st key a)) acts = true ->
  packages (run acts st) !! key = packages st !! key
  /\ key_trace key (trace (run acts st)) = key_trace key (trace st)
  /\ downloadPromises (run acts st) !! key = None.
Proof.
  intros Hinit st Hfree Hacts.
  apply (idle_package_run key acts st st); try done.
  by apply Inv_run, Inv_initial.
Qed.

Lemma other_downloads_witness :
  Loop.initial Sample.app
  /\ packages
       (run [CallPrefetchPackage Sample.page Sample.module9 3 false "prefetchPage" None [];
             Settle 0 Sample.ok; Settle 0 (Rejected (VString "boom")); Settle 0 Sample.ok]
            (run [] Sample.app)) !! Sample.K
     = packages (run [] Sample.app) !! Sample.K.
Proof.
  split; [split; reflexivity|].
  exact (proj1 (other_downloads_leave_a_package_alone Sample.app [] Sample.K
    [CallPrefetchPackage Sample.page Sample.module9 3 false "prefetchPage" None [];
     Settle 0 Sample.ok; Settle 0 (Rejected (VString "boom")); Settle 0 Sample.ok]
    (conj eq_refl eq_refl) eq_refl eq_refl)).
Defined.

(** ** Failures of the Status Store during a prefetch *)

Section ActivityStorePaths.
Context (h : Handler) (m : CourseModule) (c : Z) (s : bool) (f : string)
        (site : string) (args : list value) (st : App).
Context (Hsite : or_current (Some site) st = site).

Local Abbreviation key := (site, component h, id m).
Local Abbreviation chain :=
  (finally_ (ActivityPrefetchHandler.prefetchPromise h m c s f site args st)
            (Delete key)).

(** The write of DOWNLOADING fails with [W]; the failure handler asks for
    the previous status, which succeeds. *)
Lemma activity_mark_failure rec tr W w2 :
  local_run key chain rec tr [Rejected W; Resolved w2]
  = Some (Ret (Rejected W), StatusStore.restored rec,
          tr ++ [EvCall key (OpSetPackagePreviousStatus site (component h) (id m));
                 EvRestorePrevious key]).
Proof.
  unfold ActivityPrefetchHandler.prefetchPromise. cbn.
  rewrite Hsite. by rewrite <- !app_assoc.
Qed.

(** The download function rejects with [E] and the request for the previous
    status fails with [W]. *)
Lemma activity_rollback_failure rec tr w1 E W :
  local_run key chain rec tr [Resolved w1; Rejected E; Rejected W]
  = Some (Ret (Rejected W),
          StatusStore.written DOWNLOADING None (StatusStore.captured rec),
          tr ++ [EvSetPrevious key; EvSet key DOWNLOADING None;
                 EvCall key (OpDownloadFn f m c s site args);
                 EvCall key (OpSetPackagePreviousStatus site (component h) (id m))]).
Proof.
  unfold ActivityPrefetchHandler.prefetchPromise. cbn.
  rewrite Hsite. by rewrite <- !app_assoc.
Qed.

End ActivityStorePaths.

(** X2. A call of [prefetchPackage] that starts a download whose first
    step, the write of DOWNLOADING, fails with [W]: the download function is
    not invoked, the failure handler still has the Status Store restore the
    previous status (the one operation carried out on the package), the
    promise of the caller is rejected with [W] and the entry of the ongoing
    downloads is removed.  This holds whatever else the application does
    meanwhile. *)
Theorem failed_downloading_write_skips_the_download
    st0 pre h m c s f site args bg1 bg2 W w2 :
  initial st0 ->
  let st := run pre st0 in
  let key := (or_current site st, component h, id m) in
  let pid := length (promises st) in
  online st = true ->
  downloadPromises st !! key = None ->
  quiet pid [(bg1, Rejected W); (bg2, Resolved w2)] = true ->
  let first := ActivityPrefetchHandler.prefetchPackage h m c s f site args st in
  let st' := run (schedule pid [(bg1, Rejected W); (bg2, Resolved w2)]) first.2 in
  outcome_of st' first.1 = Some (Rejected W)
  /\ work_count key (trace st') = work_count key (trace st)
  /\ store_events key (trace st') = store_events key (trace st) ++ [EvRestorePrevious key]
  /\ downloadPromises st' !! key = None.
Proof.
  intros Hinit st key pid Hon Hfree Hq first st'.
  assert (Hinv : Inv st) by (by apply Inv_run, Inv_initial).
  destruct (prefetchPackage_fresh h m c s f site args st Hinv Hon Hfree) as [Hp _].
  pose proof (activity_run h m c s f site args st _ _ _ _ Hinv Hon Hfree Hq
                (activity_mark_failure h m c s f (or_current site st) args st
                   (or_current_idem _ _) _ _ W w2)) as Hfin.
  fold first pid key in Hp, Hfin. fold st' in Hfin. rewrite Hp.
  split; [by apply (stage_outcome _ _ _ _ _ _ Hfin)|].
  split.
  - rewrite (work_count_stage _ _ _ _ _ _ _ Hfin).
    rewrite filter_app, length_app. unfold work_count. simpl. lia.
  - split; [|by destruct Hfin].
    destruct Hfin as [_ _ _ Htr _]. unfold store_events. rewrite Htr.
    rewrite !filter_app. simpl. by rewrite app_nil_r.
Qed.

Lemma failed_downloading_write_witness :
  Loop.initial Sample.app
  /\ outcome_of
       (run (schedule 0 [([], Rejected (VString "store unavailable")); ([], Sample.ok)])
            (ActivityPrefetchHandler.prefetchPackage Sample.forum Sample.module7
               3 true "prefetchForum" None [] Sample.app).2)
       (ActivityPrefetchHandler.prefetchPackage Sample.forum Sample.module7
          3 true "prefetchForum" None [] Sample.app).1
     = Some (Rejected (VString "store unavailable")).
Proof.
  split; [split; reflexivity|].
  exact (proj1 (failed_downloading_write_skips_the_download Sample.app []
    Sample.forum Sample.module7 3 true "prefetchForum" None [] [] []
    (VString "store unavailable") VUndefined
    (conj eq_refl eq_refl) eq_refl eq_refl eq_refl)).
Defined.

(** X3. [setPreviousStatusAndReject] rejects with the error it was given
    only when the Status Store restores the previous status.  When the
    download function rejects with [E] and the restoration fails with [W],
    the promise of the caller is rejected with [W], not with [E]; the
    package stays marked DOWNLOADING although its download has settled and
    its entry of the ongoing downloads is removed. *)
Theorem failed_rollback_hides_the_download_error
    st0 pre h m c s f site args bg1 bg2 bg3 w1 E W :
  initial st0 ->
  let st := run pre st0 in
  let key := (or_current site st, component h, id m) in
  let pid := length (promises st) in
  online st = true ->
  downloadPromises st !! key = None ->
  quiet pid [(bg1, Resolved w1); (bg2, Rejected E); (bg3, Rejected W)] = true ->
  let first := ActivityPrefetchHandler.prefetchPackage h m c s f site args st in
  let st' :=
    run (schedule pid [(bg1, Resolved w1); (bg2, Rejected E); (bg3, Rejected W)])
        first.2 in
  outcome_of st' first.1 = Some (Rejected W)
  /\ StatusStore.getStatus (packages st') key = DOWNLOADING
  /\ downloadPromises st' !! key = None
  /\ work_count key (trace st') = S (work_count key (trace st)).
Proof.
  intros Hinit st key pid Hon Hfree Hq first st'.
  assert (Hinv : Inv st) by (by apply Inv_run, Inv_initial).
  destruct (prefetchPackage_fresh h m c s f site args st Hinv Hon Hfree) as [Hp _].
  pose proof (activity_run h m c s f site args st _ _ _ _ Hinv Hon Hfree Hq
                (activity_rollback_failure h m c s f (or_current site st) args st
                   (or_current_idem _ _) _ _ w1 E W)) as Hfin.
  fold first pid key in Hp, Hfin. fold st' in Hfin. rewrite Hp.
  destruct (stage_status _ _ _ _ _ _ Hfin) as [Hs _].
  split; [by apply (stage_outcome _ _ _ _ _ _ Hfin)|].
  split; [by rewrite Hs|]. split; [by destruct Hfin|].
  rewrite (work_count_stage _ _ _ _ _ _ _ Hfin).
  rewrite filter_app, length_app. unfold work_count. simpl. lia.
Qed.

Lemma failed_rollback_witness :
  Loop.initial Sample.app
  /\ outcome_of
       (run (schedule 0 [([], Sample.ok); ([], Rejected (VString "boom"));
                         ([], Rejected (VString "store unavailable"))])
            (ActivityPrefetchHandler.prefetchPackage Sample.forum Sample.module7
               3 true "prefetchForum" None [] Sample.app).2)
       (ActivityPrefetchHandler.prefetchPackage Sample.forum Sample.module7
          3 true "prefetchForum" None [] Sample.app).1
     = Some (Rejected (VString "store unavailable")).
Proof.
  split; [split; reflexivity|].
  exact (proj1 (failed_rollback_hides_the_download_error Sample.app []
    Sample.forum Sample.module7 3 true "prefetchForum" None [] [] [] []
    VUndefined (VString "boom") (VString "store unavailable")
    (conj eq_refl eq_refl) eq_refl eq_refl eq_refl)).
Defined.

(** ** The download of a resource followed on its own *)

Import ResourcePrefetchHandlerEntry.

(** A call for a resource without ongoing download starts one. *)
Lemma downloadOrPrefetch_fresh h m c p d st :
  Inv st ->
  online st = true ->
  downloadPromises st !! (currentSiteId st, component h, id m) = None ->
  (ResourcePrefetchHandler.downloadOrPrefetch h m c p d st).1
    = PRef (length (promises st))
  /\ Stage (ResourcePrefetchHandler.downloadOrPrefetch h m c p d st).2
       (length (promises st)) (currentSiteId st, component h, id m)
       (finally_
          (ResourcePrefetchHandler.prefetchPromise h m c p d (currentSiteId st))
          (Delete (currentSiteId st, component h, id m)))
       (packages st !! (currentSiteId st, component h, id m))
       (key_trace (currentSiteId st, component h, id m) (trace st)
          ++ [EvCall (currentSiteId st, component h, id m)
                (OpLoadModuleContents m c true)]).
Proof.
  intros Hinv Hon Hfree. unfold ResourcePrefetchHandler.downloadOrPrefetch.
  rewrite Hon. simpl negb. cbv iota.
  rewrite isDownloading_None by (by rewrite or_current_site).
  pose proof (resource_chain_clean
                (or_current (Some (currentSiteId st)) st, component h, id m)
                h m c p d (currentSiteId st)) as Hcl.
  epose proof (stage_start_chain h (id m)
    (ResourcePrefetchHandler.prefetchPromise h m c p d (currentSiteId st))
    _ _ (currentSiteId st) st eq_refl Hinv) as Hs.
  rewrite or_current_site in Hs, Hcl. split; [done|]. by apply Hs.
Qed.

(** A download of a resource started in a reachable state and followed
    under a schedule. *)
Lemma resource_run h m c p d st turns p' rec' tr' :
  Inv st ->
  online st = true ->
  downloadPromises st !! (currentSiteId st, component h, id m) = None ->
  quiet (length (promises st)) turns = true ->
  local_run (currentSiteId st, component h, id m)
    (finally_
       (ResourcePrefetchHandler.prefetchPromise h m c p d (currentSiteId st))
       (Delete (currentSiteId st, component h, id m)))
    (packages st !! (currentSiteId st, component h, id m))
    (key_trace (currentSiteId st, component h, id m) (trace st)
       ++ [EvCall (currentSiteId st, component h, id m) (OpLoadModuleContents m c true)])
    (map snd turns) = Some (p', rec', tr') ->
  Stage (run (schedule (length (promises st)) turns)
           (ResourcePrefetchHandler.downloadOrPrefetch h m c p d st).2)
        (length (promises st)) (currentSiteId st, component h, id m) p' rec' tr'.
Proof.
  intros Hinv Hon Hfree Hq Hrun.
  destruct (downloadOrPrefetch_fresh h m c p d st Hinv Hon Hfree) as [_ Hst].
  by eapply stage_schedule.
Qed.

Section ResourcePaths.
Context (h : Handler) (m : CourseModule) (c : Z) (p : bool) (d : option string)
        (site : string).

Local Abbreviation key := (site, component h, id m).
Local Abbreviation chain :=
  (finally_ (ResourcePrefetchHandler.prefetchPromise h m c p d site) (Delete key)).

(** The contents of the module cannot be loaded. *)
Lemma resource_load_failure rec tr E :
  local_run key chain rec tr [Rejected E] = Some (Ret (Rejected E), rec, tr).
Proof. cbn. by rewrite app_nil_r. Qed.

(** The contents are loaded, the intro files cannot be had. *)
Lemma resource_intro_failure rec tr loaded E :
  local_run key chain rec tr [Resolved loaded; Rejected E]
  = Some (Ret (Rejected E), rec, tr ++ [EvCall key (OpGetIntroFiles m c)]).
Proof. cbn. by rewrite app_nil_r. Qed.

(** Contents and intro files are there: the requests to the filepool. *)
Lemma resource_requests rec tr loaded intro :
  exists calls k,
    local_run key chain rec tr [Resolved loaded; Resolved intro]
    = Some (Await (OpAll calls) k, rec,
            tr ++ [EvCall key (OpGetIntroFiles m c); EvCall key (OpAll calls)])
    /\ (forall o, k o = Delete key (Ret o))
    /\ concat (map fp_files calls)
       = ResourcePrefetchHandler.files_of intro ++ ResourcePrefetchHandler.files_of loaded
    /\ Forall (fun call => fp_package call = key /\ fp_prefetch call = p) calls
    /\ match d with
       | Some dir =>
           if String.eqb dir "" then map fp_dirPath calls = [None]
           else
             map (fun call => (fp_files call, fp_dirPath call)) calls
             = [(ResourcePrefetchHandler.files_of intro, None);
                (ResourcePrefetchHandler.files_of loaded, Some dir)]
       | None => map fp_dirPath calls = [None]
       end.
Proof.
  unfold ResourcePrefetchHandler.prefetchPromise.
  destruct d as [dir|]; [destruct (String.eqb dir "") eqn:Edir|]; cbn;
    rewrite ?Edir; do 2 eexists;
    (split; [by rewrite <- ?app_assoc|]); (split; [done|]);
    destruct p; cbn; rewrite ?app_nil_r; (split; [done|]);
    (split; [|done]); repeat constructor.
Qed.


End ResourcePaths.

(** ** What a resource download asks of the filepool *)

(** X4. A call of [downloadOrPrefetch] that starts a download, once the
    contents of the module and its intro files have arrived: whatever
    [dirPath] and [prefetch] are, the requests made to the filepool name
    every intro file and every content file exactly once, intro files
    first; all of them are for the package of the module and are queued
    exactly when [prefetch] is set.  With a [dirPath] the intro files go to
    the root folder of the filepool and the content files to [dirPath], in
    two requests; without one (or with an empty one) there is a single
    request for the root folder.  The handler has made no other request to
    the filepool and the stored record of the package is as it was. *)
Theorem resource_download_requests_each_file_once
    st0 pre h m c prefetch dirPath bg1 bg2 loaded intro :
  initial st0 ->
  let st := run pre st0 in
  let key := (currentSiteId st, component h, id m) in
  let pid := length (promises st) in
  online st = true ->
  downloadPromises st !! key = None ->
  quiet pid [(bg1, Resolved loaded); (bg2, Resolved intro)] = true ->
  let st' :=
    run (schedule pid [(bg1, Resolved loaded); (bg2, Resolved intro)])
        (ResourcePrefetchHandler.downloadOrPrefetch h m c prefetch dirPath st).2 in
  exists calls k,
    promises st' !! pid = Some (mkJob key (Await (OpAll calls) k))
    /\ concat (map fp_files calls)
       = ResourcePrefetchHandler.files_of intro ++ ResourcePrefetchHandler.files_of loaded
    /\ Forall (fun call => fp_package call = key /\ fp_prefetch call = prefetch) calls
    /\ match dirPath with
       | Some dir =>
           if String.eqb dir "" then map fp_dirPath calls = [None]
           else
             map (fun call => (fp_files call, fp_dirPath call)) calls
             = [(ResourcePrefetchHandler.files_of intro, None);
                (ResourcePrefetchHandler.files_of loaded, Some dir)]
       | None => map fp_dirPath calls = [None]
       end
    /\ filter (fun ev => is_filepool_request ev = true) (key_trace key (trace st'))
       = filter (fun ev => is_filepool_request ev = true) (key_trace key (trace st))
         ++ [EvCall key (OpAll calls)]
    /\ packages st' !! key = packages st !! key.
Proof.
  intros Hinit st key pid Hon Hfree Hq st'.
  assert (Hinv : Inv st) by (by apply Inv_run, Inv_initial).
  destruct (resource_requests h m c prefetch dirPath (currentSiteId st)
              (packages st !! key)
              (key_trace key (trace st) ++ [EvCall key (OpLoadModuleContents m c true)])
              loaded intro) as (calls&k&Hrun&_&Hfiles&Hall&Hdir).
  pose proof (resource_run h m c prefetch dirPath st _ _ _ _ Hinv Hon Hfree Hq Hrun)
    as Hfin.
  fold pid key in Hfin. fold st' in Hfin.
  exists calls, k. destruct Hfin as [_ Hjob Hrec Htr _].
  split; [done|]. split; [done|]. split; [done|]. split; [done|]. split; [|done].
  rewrite Htr, !filter_app. simpl. by rewrite app_nil_r.
Qed.

Lemma resource_download_requests_witness :
  Loop.initial Sample.app
  /\ exists calls k,
       promises
         (run (schedule 0 [([], Resolved (VArray [VString "index.html"]));
                           ([], Resolved (VArray [VString "intro.png"]))])
              (ResourcePrefetchHandler.downloadOrPrefetch Sample.page Sample.module9 3
                 true (Some "pages/9") Sample.app).2) !! 0
       = Some (mkJob ("site1", "mmaModPage", 9%Z) (Await (OpAll calls) k))
       /\ concat (map fp_files calls) = [VString "intro.png"; VString "index.html"].
Proof.
  split; [split; reflexivity|].
  destruct (resource_download_requests_each_file_once Sample.app []
    Sample.page Sample.module9 3 true (Some "pages/9") [] []
    (VArray [VString "index.html"]) (VArray [VString "intro.png"])
    (conj eq_refl eq_refl) eq_refl eq_refl eq_refl) as (calls&k&H1&H2&_).
  exists calls, k. split; [exact H1|exact H2].
Defined.

(** X5. A call of [downloadOrPrefetch] that starts a download and cannot
    load the contents of the module, or has them and cannot get the intro
    files: the promise of the caller is rejected with that very error, no
    request is made to the filepool, the stored record of the package is as
    it was and the entry of the ongoing downloads is removed.  This holds
    whatever else the application does meanwhile. *)
Theorem resource_failure_makes_no_filepool_request
    st0 pre h m c prefetch dirPath bg1 bg2 loaded E :
  initial st0 ->
  let st := run pre st0 in
  let key := (currentSiteId st, component h, id m) in
  let pid := length (promises st) in
  online st = true ->
  downloadPromises st !! key = None ->
  quiet pid [(bg1, Resolved loaded); (bg2, Rejected E)] = true ->
  let first := ResourcePrefetchHandler.downloadOrPrefetch h m c prefetch dirPath st in
  forall st',
    st' = run (schedule pid [(bg1, Rejected E)]) first.2
    \/ st' = run (schedule pid [(bg1, Resolved loaded); (bg2, Rejected E)]) first.2 ->
    outcome_of st' first.1 = Some (Rejected E)
    /\ filter (fun ev => is_filepool_request ev = true) (key_trace key (trace st'))
       = filter (fun ev => is_filepool_request ev = true) (key_trace key (trace st))
    /\ packages st' !! key = packages st !! key
    /\ downloadPromises st' !! key = None.
Proof.
  intros Hinit st key pid Hon Hfree Hq first st' Hst'.
  assert (Hinv : Inv st) by (by apply Inv_run, Inv_initial).
  destruct (downloadOrPrefetch_fresh h m c prefetch dirPath st Hinv Hon Hfree) as [Hp _].
  fold first pid in Hp. rewrite Hp.
  assert (Hq1 : quiet pid [(bg1, Rejected E)] = true).
  { simpl in *. apply andb_true_iff in Hq as [-> _]. done. }
  destruct Hst' as [->| ->].
  - pose proof (resource_run h m c prefetch dirPath st _ _ _ _ Hinv Hon Hfree Hq1
                  (resource_load_failure h m c prefetch dirPath (currentSiteId st)
                     _ _ E)) as Hfin.
    fold first pid key in Hfin.
    split; [by apply (stage_outcome _ _ _ _ _ _ Hfin)|].
    destruct Hfin as [_ _ Hrec Htr Hent].
    split; [|done]. rewrite Htr, !filter_app. simpl. by rewrite app_nil_r.
  - pose proof (resource_run h m c prefetch dirPath st _ _ _ _ Hinv Hon Hfree Hq
                  (resource_intro_failure h m c prefetch dirPath (currentSiteId st)
                     _ _ loaded E)) as Hfin.
    fold first pid key in Hfin.
    split; [by apply (stage_outcome _ _ _ _ _ _ Hfin)|].
    destruct Hfin as [_ _ Hrec Htr Hent].
    split; [|done]. rewrite Htr, !filter_app. simpl. by rewrite !app_nil_r.
Qed.

Lemma resource_failure_witness :
  Loop.initial Sample.app
  /\ outcome_of
       (run (schedule 0 [([], Resolved (VArray [])); ([], Rejected (VString "boom"))])
            (ResourcePrefetchHandler.downloadOrPrefetch Sample.page Sample.module9 3
               false None Sample.app).2)
       (ResourcePrefetchHandler.downloadOrPrefetch Sample.page Sample.module9 3
          false None Sample.app).1
     = Some (Rejected (VString "boom")).
Proof.
  split; [split; reflexivity|].
  exact (proj1 (resource_failure_makes_no_filepool_request Sample.app []
    Sample.page Sample.module9 3 false None [] [] (VArray []) (VString "boom")
    (conj eq_refl eq_refl) eq_refl eq_refl eq_refl _ (or_intror eq_refl))).
Defined.



(** ** [download], [prefetch] and [getFiles] of a resource *)

Lemma stage_registered st pid key op k rec tr :
  Stage st pid key (Await op k) rec tr -> downloadPromises st !! key = Some pid.
Proof. by intros [_ _ _ _ Hent]. Qed.

(** A download of a resource that was started stays registered, under the
    promise handed out, while no operation of that promise completes. *)
Lemma resource_in_flight h m c p d st bg :
  Inv st ->
  online st = true ->
  downloadPromises st !! (currentSiteId st, component h, id m) = None ->
  forallb (foreign (length (promises st))) bg = true ->
  (ResourcePrefetchHandler.downloadOrPrefetch h m c p d st).1
    = PRef (length (promises st))
  /\ downloadPromises
       (run bg (ResourcePrefetchHandler.downloadOrPrefetch h m c p d st).2)
       !! (currentSiteId st, component h, id m) = Some (length (promises st))
  /\ Inv (run bg (ResourcePrefetchHandler.downloadOrPrefetch h m c p d st).2)
  /\ currentSiteId (run bg (ResourcePrefetchHandler.downloadOrPrefetch h m c p d st).2)
     = currentSiteId st.
Proof.
  intros Hinv Hon Hfree Hbg.
  destruct (downloadOrPrefetch_fresh h m c p d st Hinv Hon Hfree) as [Hp Hst].
  unfold ResourcePrefetchHandler.prefetchPromise in Hst.
  cbn [then_ settle_with call finally_ ResourcePrefetchHandler.loadContents] in Hst.
  pose proof (stage_frame _ _ _ _ _ _ _ bg Hst Hbg) as Hst'.
  split; [done|]. split; [by apply (stage_registered _ _ _ _ _ _ _ Hst')|].
  split; [by destruct Hst'|].
  rewrite run_site. by destruct (downloadOrPrefetch_env h m c p d st).
Qed.

(** X7. [download] and [prefetch] of a resource are one download as far as
    the ongoing downloads go.  After a call of [prefetch] that starts a
    download, and for as long as no operation of its promise has completed,
    a call of [download] for the same module made online returns the
    promise of the prefetch, pending, and changes nothing: the files are
    not asked for a second time.  The same holds for a [prefetch] called
    while a [download] is in flight. *)
Theorem download_and_prefetch_share_the_download_in_flight
    st0 pre h m c single dirPath c' single' dirPath' bg :
  initial st0 ->
  let st := run pre st0 in
  let key := (currentSiteId st, component h, id m) in
  let pid := length (promises st) in
  online st = true ->
  downloadPromises st !! key = None ->
  forallb (foreign pid) bg = true ->
  let prefetched := prefetch h m c single dirPath st in
  let downloaded := download h m c dirPath st in
  (online (run bg prefetched.2) = true ->
   download h m c' dirPath' (run bg prefetched.2) = (prefetched.1, run bg prefetched.2)
   /\ pending (run bg prefetched.2) prefetched.1)
  /\ (online (run bg downloaded.2) = true ->
      prefetch h m c' single' dirPath' (run bg downloaded.2)
      = (downloaded.1, run bg downloaded.2)
      /\ pending (run bg downloaded.2) downloaded.1).
Proof.
  intros Hinit st key pid Hon Hfree Hbg prefetched downloaded.
  assert (Hinv : Inv st) by (by apply Inv_run, Inv_initial).
  split.
  - destruct (resource_in_flight h m c true dirPath st bg Hinv Hon Hfree Hbg)
      as (Hp&Hreg&Hinv'&Hsite).
    fold (prefetch h m c single dirPath st) in Hp, Hreg, Hinv', Hsite.
    fold prefetched pid key in Hp, Hreg, Hinv', Hsite.
    intros Hon'. rewrite Hp. split.
    + unfold download. apply downloadOrPrefetch_ongoing; [done|]. by rewrite Hsite.
    + by apply (entry_pending _ key).
  - destruct (resource_in_flight h m c false dirPath st bg Hinv Hon Hfree Hbg)
      as (Hp&Hreg&Hinv'&Hsite).
    fold (download h m c dirPath st) in Hp, Hreg, Hinv', Hsite.
    fold downloaded pid key in Hp, Hreg, Hinv', Hsite.
    intros Hon'. rewrite Hp. split.
    + unfold prefetch. apply downloadOrPrefetch_ongoing; [done|]. by rewrite Hsite.
    + by apply (entry_pending _ key).
Qed.

Lemma download_and_prefetch_witness :
  Loop.initial Sample.app
  /\ (online (run [] (prefetch Sample.page Sample.module9 3 true None Sample.app).2) = true ->
      download Sample.page Sample.module9 3 (Some "pages/9")
        (run [] (prefetch Sample.page Sample.module9 3 true None Sample.app).2)
      = ((prefetch Sample.page Sample.module9 3 true None Sample.app).1,
         run [] (prefetch Sample.page Sample.module9 3 true None Sample.app).2)
      /\ pending (run [] (prefetch Sample.page Sample.module9 3 true None Sample.app).2)
           (prefetch Sample.page Sample.module9 3 true None Sample.app).1).
Proof.
  split; [split; reflexivity|].
  exact (proj1 (download_and_prefetch_share_the_download_in_flight Sample.app []
    Sample.page Sample.module9 3 true None 3 false (Some "pages/9") []
    (conj eq_refl eq_refl) eq_refl eq_refl eq_refl)).
Defined.

(** X8. [getFiles] of a resource resolves with the intro files followed by
    the content files, which is the list of files a download without
    [dirPath] asks the filepool for when the course provider gives the same
    answers; a failure to load the contents or to get the intro files
    rejects it with that error.  [getFiles] makes no request to the Status
    Store, and it lets the contents come from the cache whereas the download
    asks for fresh ones. *)
Theorem getFiles_lists_the_files_of_a_download
    h m c single prefetch site loaded intro E :
  answered (getFiles m c single) [Resolved loaded; Resolved intro]
    = Ret (Resolved (VArray (ResourcePrefetchHandler.files_of intro
                               ++ ResourcePrefetchHandler.files_of loaded)))
  /\ (exists call k,
        answered (ResourcePrefetchHandler.prefetchPromise h m c prefetch None site)
          [Resolved loaded; Resolved intro] = Await (OpAll [call]) k
        /\ answered (getFiles m c single) [Resolved loaded; Resolved intro]
           = Ret (Resolved (VArray (fp_files call))))
  /\ answered (getFiles m c single) [Rejected E] = Ret (Rejected E)
  /\ answered (getFiles m c single) [Resolved loaded; Rejected E] = Ret (Rejected E)
  /\ no_status_request (getFiles m c single)
  /\ (exists k, getFiles m c single = Await (OpLoadModuleContents m c false) k)
  /\ (exists k, ResourcePrefetchHandler.prefetchPromise h m c prefetch None site
                = Await (OpLoadModuleContents m c true) k).
Proof.
  split; [done|]. split.
  { destruct prefetch; do 2 eexists; split; reflexivity. }
  split; [done|]. split; [done|]. split.
  { unfold getFiles.
    apply no_status_request_then; [by apply no_status_request_call|]. intros l.
    apply no_status_request_then; [by apply no_status_request_call|]. intros i.
    constructor. }
  split; eexists; reflexivity.
Qed.

(** * Properties of the module component *)

Import CourseModuleComponentView.

(** ** What the observer leaves alone *)

Lemma trigger_foreign c data : concerns c data = false -> trigger c data = c.
Proof.
  unfold concerns, trigger, onStatusChanged. intros H.
  destruct (statusObserver c) as [site|]; [|done].
  destruct (String.eqb site (siteId data)) eqn:Es; [|done].
  apply String.eqb_eq in Es. subst site.
  rewrite bool_decide_eq_true_2 in H by done. simpl in H.
  destruct (prefetchHandler c) as [hc|]; [|done].
  destruct (Z.eqb (componentId data) (moduleId c)); [|done]. simpl in H.
  apply bool_decide_eq_false in H.
  destruct (String.eqb (componentName data) hc) eqn:Eh; [|done].
  apply String.eqb_eq in Eh. by subst hc.
Qed.

Lemma trigger_concerned c data :
  concerns c data = true ->
  trigger c data
  = if downloadEnabled c then showStatus c (statusText data)
    else if hasUpdateStatus c then updateStatus c (statusText data) else c.
Proof.
  unfold concerns, trigger, onStatusChanged.
  intros [[Hs Hi]%andb_true_iff Hh]%andb_true_iff.
  apply bool_decide_eq_true in Hs, Hh. rewrite Hs, Hh, Hi, !String.eqb_refl. done.
Qed.

(** What a notification never changes. *)
Lemma trigger_constants c data :
  moduleId (trigger c data) = moduleId c
  /\ showDownloadButton (trigger c data) = showDownloadButton c
  /\ hasUpdateStatus (trigger c data) = hasUpdateStatus c
  /\ prefetchHandler (trigger c data) = prefetchHandler c
  /\ canCheckUpdates (trigger c data) = canCheckUpdates c
  /\ downloadEnabled (trigger c data) = downloadEnabled c
  /\ statusObserver (trigger c data) = statusObserver c.
Proof.
  destruct (concerns c data) eqn:E.
  - rewrite trigger_concerned by done. unfold showStatus.
    destruct (downloadEnabled c) eqn:Ed;
      [|destruct (hasUpdateStatus c) eqn:Eu; simpl; by rewrite ?Eu, ?Ed].
    destruct (negb (String.eqb (statusText data) "")); [|by rewrite Ed].
    destruct (hasUpdateStatus c) eqn:Eu; simpl; by rewrite ?Eu, ?Ed.
  - by rewrite trigger_foreign.
Qed.

Lemma concerns_ext c c' data :
  moduleId c' = moduleId c -> prefetchHandler c' = prefetchHandler c ->
  statusObserver c' = statusObserver c -> concerns c' data = concerns c data.
Proof. unfold concerns. by intros -> -> ->. Qed.

Lemma concerns_trigger c data data' :
  concerns (trigger c data') data = concerns c data.
Proof.
  destruct (trigger_constants c data') as (H1&_&_&H4&_&_&H7). by apply concerns_ext.
Qed.

(** X9. A module component reacts only to the notifications about its own
    module: a broadcast in which every event is for another site than the
    one the observer was registered on, for another module id or for another
    component than the one of its prefetch handler (or reaches a component
    that has no observer or no prefetch handler) leaves the component exactly
    as it was, flags and calls of [updateStatus] included. *)
Theorem notifications_about_other_modules_are_ignored c evs :
  forallb (fun data => negb (concerns c data)) evs = true ->
  broadcast c evs = c.
Proof.
  induction evs as [|data evs IH]; [done|]. simpl.
  intros [Hd Hevs]%andb_true_iff. apply negb_true_iff in Hd.
  rewrite trigger_foreign by done. by apply IH.
Qed.

Lemma notifications_about_other_modules_witness :
  broadcast Sample.widget
    [mkStatusChanged "site1" "mmaModForum" 8 "downloaded";
     mkStatusChanged "site1" "mmaModPage" 7 "downloading";
     mkStatusChanged "site2" "mmaModForum" 7 "outdated"]
  = Sample.widget.
Proof.
  exact (notifications_about_other_modules_are_ignored Sample.widget
    [mkStatusChanged "site1" "mmaModForum" 8 "downloaded";
     mkStatusChanged "site1" "mmaModPage" 7 "downloading";
     mkStatusChanged "site2" "mmaModForum" 7 "outdated"] eq_refl).
Defined.

(** ** Notifications while the download is disabled *)

(** X10. While the download is disabled the observer never touches what
    the component displays: after any broadcast the spinner and the two
    buttons are as before.  What it does is pass the status of every
    notification about its module on to [updateStatus], when the handler
    defines it, an empty or missing status included (with the download
    enabled an empty status is dropped); a handler without [updateStatus]
    leaves the component unchanged. *)
Theorem disabled_download_only_forwards_the_status c evs :
  downloadEnabled c = false ->
  display (broadcast c evs) = display c
  /\ updateStatusCalls (broadcast c evs)
     = updateStatusCalls c
       ++ (if hasUpdateStatus c
           then map statusText (filter (fun data => concerns c data = true) evs)
           else [])
  /\ (hasUpdateStatus c = false -> broadcast c evs = c).
Proof.
  revert c. induction evs as [|data evs IH]; intros c Hd.
  - simpl. split; [done|]. split; [|done]. destruct (hasUpdateStatus c); by rewrite app_nil_r.
  - destruct (trigger_constants c data) as (H1&_&H3&H4&_&H6&H7).
    destruct (IH (trigger c data)) as (IHa&IHb&IHc); [congruence|].
    change (broadcast c (data :: evs)) with (broadcast (trigger c data) evs).
    rewrite (list_filter_iff (fun d => concerns (trigger c data) d = true)
               (fun d => concerns c d = true)) in IHb
      by (intros d; by rewrite concerns_trigger).
    rewrite H3 in IHb, IHc.
    assert (Ht : trigger c data
                 = if concerns c data && hasUpdateStatus c
                   then updateStatus c (statusText data) else c).
    { destruct (concerns c data) eqn:E.
      - rewrite trigger_concerned, Hd by done. by destruct (hasUpdateStatus c).
      - by rewrite trigger_foreign. }
    split; [|split].
    + rewrite IHa, Ht. by destruct (concerns c data && hasUpdateStatus c).
    + rewrite IHb, Ht.
      destruct (concerns c data) eqn:E;
        [rewrite filter_cons_True by done|rewrite filter_cons_False by (by rewrite E)];
        destruct (hasUpdateStatus c); simpl; rewrite <- ?app_assoc; done.
    + intros Hu. by rewrite (IHc Hu), Ht, Hu, andb_false_r.
Qed.

(** ** The life of a component *)

Lemma showStatus_constants c status :
  moduleId (showStatus c status) = moduleId c
  /\ showDownloadButton (showStatus c status) = showDownloadButton c
  /\ prefetchHandler (showStatus c status) = prefetchHandler c
  /\ statusObserver (showStatus c status) = statusObserver c.
Proof.
  unfold showStatus. destruct (negb (String.eqb status "")); [|done].
  by destruct (hasUpdateStatus c).
Qed.

(** What a happening does to the fields that the setter and [ngOnDestroy]
    depend on. *)
Lemma happen_constants v e :
  showDownloadButton (fields (happen v e)) = showDownloadButton (fields v)
  /\ prefetchHandler (fields (happen v e)) = prefetchHandler (fields v)
  /\ statusCalculated (happen v e)
     = statusCalculated v || (is_enabling e && showDownloadButton (fields v))
  /\ getModuleStatusCalls (happen v e)
     = getModuleStatusCalls v
       + (if is_enabling e && showDownloadButton (fields v) && negb (statusCalculated v)
          then 1 else 0)
  /\ isDestroyed (happen v e)
     = isDestroyed v || (match e with Destroyed => true | _ => false end)
  /\ (statusObserver (fields v) = None -> statusObserver (fields (happen v e)) = None)
  /\ (isDestroyed v = true -> errorModals (happen v e) = errorModals v).
Proof.
  destruct e as [value|status|data|refresh|error|]; simpl.
  - unfold enabled. simpl.
    destruct value, (showDownloadButton (fields v)) eqn:Eb,
      (statusCalculated v) eqn:Ec; simpl; rewrite ?Eb, ?Ec, ?orb_false_r;
      repeat split; try done; lia.
  - destruct (showStatus_constants (fields v) status) as (_&H2&H3&H4).
    rewrite H2, H3, H4, !orb_false_r. repeat split; try done; lia.
  - destruct (trigger_constants (fields v) data) as (_&H2&_&H4&_&_&H7).
    rewrite H2, H4, H7, !orb_false_r. repeat split; try done; lia.
  - unfold CourseModuleComponentView.download.
    destruct (prefetchHandler (fields v)) eqn:Eh; simpl; rewrite ?Eh, !orb_false_r;
      repeat split; try done; lia.
  - rewrite !orb_false_r. repeat split; try done; try lia. by intros ->.
  - rewrite !orb_false_r, orb_true_r. repeat split; try done; lia.
Qed.

(** X11. The status of the module is asked for once.  Over the whole life
    of a component, whatever happens to it and in whatever order, the setter
    of [downloadEnabled] calls [getModuleStatus] at the first time the
    download is enabled on a module that shows a download button, and never
    again: however often the download is then disabled and enabled, the
    number of calls grows by one at most, and by none for a module without
    download button or for a component whose status was calculated
    before. *)
Theorem module_status_is_requested_once v es :
  getModuleStatusCalls (life v es)
  = getModuleStatusCalls v
    + (if negb (statusCalculated v) && showDownloadButton (fields v)
          && existsb is_enabling es
       then 1 else 0)
  /\ statusCalculated (life v es)
     = statusCalculated v || (showDownloadButton (fields v) && existsb is_enabling es).
Proof.
  revert v. induction es as [|e es IH]; intros v.
  - simpl. rewrite !andb_false_r, orb_false_r. split; [lia|done].
  - change (life v (e :: es)) with (life (happen v e) es).
    destruct (IH (happen v e)) as [IHa IHb].
    destruct (happen_constants v e) as (H1&_&H3&H4&_).
    rewrite IHa, IHb, H1, H3, H4. simpl existsb.
    destruct (statusCalculated v), (showDownloadButton (fields v)), (is_enabling e),
      (existsb is_enabling es); simpl; split; try done; lia.
Qed.

Lemma life_destroyed es : forall v,
  isDestroyed v = true -> statusObserver (fields v) = None ->
  errorModals (life v es) = errorModals v
  /\ isDestroyed (life v es) = true
  /\ statusObserver (fields (life v es)) = None.
Proof.
  induction es as [|e es IH]; intros v Hd Ho; [done|].
  change (life v (e :: es)) with (life (happen v e) es).
  destruct (happen_constants v e) as (_&_&_&_&H5&H6&H7).
  destruct (IH (happen v e)) as (IHa&IHb&IHc);
    [by rewrite H5, Hd|by apply H6|].
  by rewrite IHa, H7.
Qed.

(** X12. A destroyed component is silent.  After [ngOnDestroy], whatever
    happens to the component (late answers of [getModuleStatus], failing
    downloads, further broadcasts, changes of the [downloadEnabled] input),
    no error modal is shown any more, the observer stays removed and a
    PACKAGE_STATUS_CHANGED notification, also one about its own module,
    changes nothing in the component. *)
Theorem destroyed_component_is_silent v es data :
  errorModals (life (ngOnDestroy v) es) = errorModals v
  /\ isDestroyed (life (ngOnDestroy v) es) = true
  /\ statusObserver (fields (life (ngOnDestroy v) es)) = None
  /\ notified data (life (ngOnDestroy v) es) = life (ngOnDestroy v) es.
Proof.
  destruct (life_destroyed es (ngOnDestroy v)) as (H1&H2&H3); [done..|].
  split; [done|]. split; [done|]. split; [done|].
  unfold notified, trigger. rewrite H3. by destruct (life (ngOnDestroy v) es).
Qed.

(** X13. The component does not guard the download button itself.  With a
    prefetch handler every click switches the spinner on and asks the
    handler for the download size, once per click and always for a single
    module (the third argument is true whatever the [refresh] flag of the
    click), also while an earlier download is running (it is the handler
    that joins the calls); without a prefetch handler clicks change
    nothing. *)
Theorem every_download_click_reaches_the_handler v rs :
  match prefetchHandler (fields v) with
  | Some _ =>
      getDownloadSizeCalls (life v (map DownloadClicked rs))
      = getDownloadSizeCalls v ++ repeat true (length rs)
      /\ (rs <> [] -> spinner (fields (life v (map DownloadClicked rs))) = true)
  | None => life v (map DownloadClicked rs) = v
  end.
Proof.
  destruct (prefetchHandler (fields v)) as [hc|] eqn:Eh.
  - revert v Eh. induction rs as [|r rs IH]; intros v Eh.
    + simpl. by rewrite app_nil_r.
    + change (life v (map DownloadClicked (r :: rs)))
        with (life (CourseModuleComponentView.download r v) (map DownloadClicked rs)).
      assert (Hd : CourseModuleComponentView.download r v
                   = mkView (set_spinner (fields v) true) (statusCalculated v)
                       (isDestroyed v) (hasOnDestroy v) (getModuleStatusCalls v)
                       (getDownloadSizeCalls v ++ [true]) (onDestroyCalls v)
                       (errorModals v))
        by (unfold CourseModuleComponentView.download; by rewrite Eh).
      destruct (IH (CourseModuleComponentView.download r v)) as [IHa IHb];
        [by rewrite Hd|].
      split.
      * rewrite IHa, Hd. simpl. by rewrite <- app_assoc.
      * intros _. destruct rs as [|r' rs]; [by rewrite Hd|]. by apply IHb.
  - induction rs as [|r rs IH]; [done|].
    change (life v (map DownloadClicked (r :: rs)))
      with (life (CourseModuleComponentView.download r v) (map DownloadClicked rs)).
    unfold CourseModuleComponentView.download at 1. by rewrite Eh.
Qed.

Lemma disabled_download_witness :
  downloadEnabled Examples.disabled_widget = false
  /\ display (broadcast Examples.disabled_widget
                [Sample.downloaded_event;
                 mkStatusChanged "site1" "mmaModForum" 7 ""])
     = display Examples.disabled_widget.
Proof.
  split; [reflexivity|].
  exact (proj1 (disabled_download_only_forwards_the_status Examples.disabled_widget
    [Sample.downloaded_event; mkStatusChanged "site1" "mmaModForum" 7 ""] eq_refl)).
Defined.

(** * Properties of the utilities *)

Import CoreUtilsProvider.

(** ** [sumFileSizes] *)

Lemma sumFileSizes_loop files : forall acc,
  fold_left
    (fun result file =>
       match filesize file with
       | None => mkSize (size result) false
       | Some n => mkSize (PrimFloat.add (size result) n) (total result)
       end) files acc
  = mkSize (fold_left PrimFloat.add (omap filesize files) (size acc))
           (total acc && forallb (fun file => bool_decide (is_Some (filesize file))) files).
Proof.
  induction files as [|file files IH]; intros [sz tot]; simpl.
  - by rewrite andb_true_r.
  - rewrite IH. destruct (filesize file) as [n|]; simpl; [done|].
    by rewrite andb_false_r.
Qed.

(** X14. [sumFileSizes] adds up, from zero and in the order of the list,
    the sizes of the files that have one, with the addition of JavaScript
    numbers; a file without size contributes nothing to [size] and makes
    the result partial, so that [total] tells whether every file has a
    size.  An empty list gives size 0, total.  Over a concatenation the sum
    goes on from the sum of the first list, and [total] is the conjunction
    of the two [total] flags. *)
Theorem sumFileSizes_adds_the_known_sizes files files' :
  size (sumFileSizes files)
  = fold_left PrimFloat.add (omap filesize files) PrimFloat.zero
  /\ (total (sumFileSizes files) = true
      <-> Forall (fun file => is_Some (filesize file)) files)
  /\ sumFileSizes (files ++ files')
     = mkSize (fold_left PrimFloat.add (omap filesize files')
                 (size (sumFileSizes files)))
              (total (sumFileSizes files) && total (sumFileSizes files'))
  /\ sumFileSizes [] = mkSize PrimFloat.zero true.
Proof.
  unfold sumFileSizes. rewrite !sumFileSizes_loop. simpl. split; [done|]. split.
  - induction files as [|file files IH]; simpl; [by split|].
    rewrite andb_true_iff, bool_decide_eq_true, Forall_cons. by rewrite IH.
  - split; [|done]. by rewrite omap_app, fold_left_app, forallb_app.
Qed.

(** ** [uniqueArray] *)

Section UniqueArrayProperties.
Context {A V : Type} `{EqDecision V} (value_of : A -> V).

Lemma uniqueArray_loop_spec array : forall filtered unique,
  unique = (value_of <$> filtered) -> NoDup unique ->
  exists kept,
    uniqueArray_loop value_of array filtered unique = filtered ++ kept
    /\ sublist kept array
    /\ NoDup ((value_of <$> (filtered ++ kept)))
    /\ (forall x, x ∈ array -> value_of x ∈ (value_of <$> (filtered ++ kept))).
Proof.
  induction array as [|entry rest IH]; intros filtered unique Hu Hnd; simpl.
  - exists []. rewrite app_nil_r. split; [done|]. split; [done|].
    split; [by rewrite <- Hu|]. intros x Hx. by apply elem_of_nil in Hx.
  - case_bool_decide as Hin.
    + destruct (IH filtered unique Hu Hnd) as (kept&Hl&Hs&Hn&Hc).
      exists kept. split; [done|]. split; [by apply sublist_cons|]. split; [done|].
      intros x [->|Hx]%elem_of_cons; [|by apply Hc].
      rewrite fmap_app, elem_of_app. left. by rewrite <- Hu.
    + destruct (IH (filtered ++ [entry]) (unique ++ [value_of entry]))
        as (kept&Hl&Hs&Hn&Hc).
      { by rewrite fmap_app, Hu. }
      { apply NoDup_app. split; [done|]. split; [|apply NoDup_singleton].
        intros x Hx Hx'. apply list_elem_of_singleton in Hx'. by subst x. }
      rewrite <- app_assoc in Hl, Hn, Hc. simpl in Hl, Hn, Hc.
      exists (entry :: kept). split; [done|]. split; [by apply sublist_skip|].
      split; [done|]. intros x [->|Hx]%elem_of_cons; [|by apply Hc].
      rewrite fmap_app, elem_of_app. right. simpl. apply elem_of_cons. by left.
Qed.

Lemma uniqueArray_loop_snoc array entry : forall filtered unique,
  unique = (value_of <$> filtered) ->
  uniqueArray_loop value_of (array ++ [entry]) filtered unique
  = if bool_decide
         (value_of entry ∈ (value_of <$> uniqueArray_loop value_of array filtered unique))
    then uniqueArray_loop value_of array filtered unique
    else uniqueArray_loop value_of array filtered unique ++ [entry].
Proof.
  induction array as [|a array IH]; intros filtered unique Hu; simpl.
  - rewrite <- Hu. by case_bool_decide.
  - case_bool_decide; apply IH; [done|]. by rewrite fmap_app, Hu.
Qed.

Lemma uniqueArray_loop_NoDup array : forall filtered unique,
  unique = (value_of <$> filtered) ->
  NoDup (unique ++ (value_of <$> array)) ->
  uniqueArray_loop value_of array filtered unique = filtered ++ array.
Proof.
  induction array as [|a array IH]; intros filtered unique Hu Hnd; simpl.
  - by rewrite app_nil_r.
  - apply NoDup_app in Hnd as (Hn1&Hn2&Hn3). simpl in Hn2, Hn3.
    apply NoDup_cons in Hn3 as [Ha Hn3].
    rewrite bool_decide_eq_false_2.
    + rewrite IH; [by rewrite <- app_assoc|by rewrite fmap_app, Hu|].
      apply NoDup_app. split; [|split; [|done]].
      * apply NoDup_app. split; [done|]. split; [|apply NoDup_singleton].
        intros x Hx Hx'. apply list_elem_of_singleton in Hx'. subst x.
        apply (Hn2 _ Hx). apply elem_of_cons. by left.
      * intros x [Hx|Hx]%elem_of_app Hx'.
        -- apply (Hn2 _ Hx). apply elem_of_cons. by right.
        -- apply list_elem_of_singleton in Hx. by subst x.
    + intros Hin. apply (Hn2 _ Hin). apply elem_of_cons. by left.
Qed.

(** X15. [uniqueArray] keeps, in their order, the entries whose value (the
    property named by [key], or the entry itself) has not occurred earlier
    in the array: the result has no two entries with the same value, it is
    the array with some entries left out, every value of the array is still
    there, and an entry added at the end is kept exactly when no entry
    before it has its value.  Applying [uniqueArray] to its result changes
    nothing. *)
Theorem uniqueArray_keeps_first_occurrences array entry :
  NoDup ((value_of <$> uniqueArray value_of array))
  /\ sublist (uniqueArray value_of array) array
  /\ (forall x, x ∈ array -> value_of x ∈ (value_of <$> uniqueArray value_of array))
  /\ uniqueArray value_of (array ++ [entry])
     = (if bool_decide (value_of entry ∈ (value_of <$> array))
        then uniqueArray value_of array
        else uniqueArray value_of array ++ [entry])
  /\ uniqueArray value_of (uniqueArray value_of array) = uniqueArray value_of array.
Proof.
  unfold uniqueArray.
  destruct (uniqueArray_loop_spec array [] []) as (kept&Hl&Hs&Hn&Hc);
    [done|apply NoDup_nil_2|].
  simpl in Hl, Hn, Hc. rewrite Hl.
  split; [done|]. split; [done|]. split; [done|]. split.
  - rewrite uniqueArray_loop_snoc by done. rewrite Hl.
    assert (Hiff : value_of entry ∈ (value_of <$> kept)
                   <-> value_of entry ∈ (value_of <$> array)).
    { split.
      - intros Hin. eapply elem_of_sublist; [exact Hin|]. by apply fmap_sublist.
      - intros (x&->&Hx)%list_elem_of_fmap. by apply Hc. }
    by repeat case_bool_decide; try tauto.
  - by rewrite uniqueArray_loop_NoDup.
Qed.

End UniqueArrayProperties.

(** ** [promiseFails] and [promiseWorks] *)

Lemma answered_settle_with responses : forall p f o,
  answered p responses = Ret o ->
  (forall o', exists o'', f o' = Ret o'') ->
  answered (settle_with p f) responses = f o.
Proof.
  induction responses as [|r rest IH]; intros p f o Hp Hf.
  - simpl in Hp. subst p. simpl. by destruct (Hf o) as [o'' ->].
  - destruct p as [o1|op k|key q]; simpl in Hp; [|by apply IH|done].
    inversion Hp; subst. simpl. by destruct (Hf o) as [o'' ->].
Qed.

Lemma answered_never_rejected responses : forall p f,
  (forall o, exists v, f o = Ret (Resolved v)) ->
  forall e, answered (settle_with p f) responses <> Ret (Rejected e).
Proof.
  induction responses as [|r rest IH]; intros p f Hf e.
  - simpl. destruct p as [o1|op k|key q]; simpl; [|done..].
    by destruct (Hf o1) as [v ->].
  - destruct p as [o1|op k|key q]; simpl; [| |done].
    + destruct (Hf o1) as [v ->]. done.
    + apply IH, Hf.
Qed.

(** X16. [promiseFails] and [promiseWorks] turn the outcome of a promise
    into a boolean and never reject: when the promise settles,
    [promiseFails] resolves with true if it was rejected and with false if
    it resolved, whatever the value or the error, and [promiseWorks]
    resolves with the negation; at no point of the life of the promise is
    either of them rejected. *)
Theorem promiseFails_and_promiseWorks_never_reject promise responses o :
  answered promise responses = Ret o ->
  answered (promiseFails promise) responses
    = Ret (Resolved (VBool (bool_decide (is_Some (rejection o)))))
  /\ answered (promiseWorks promise) responses
    = Ret (Resolved (VBool (negb (bool_decide (is_Some (rejection o))))))
  /\ (forall rs e, answered (promiseFails promise) rs <> Ret (Rejected e)
                   /\ answered (promiseWorks promise) rs <> Ret (Rejected e)).
Proof.
  intros Hp. unfold promiseFails, promiseWorks, catch_, then_.
  split; [|split].
  - rewrite (answered_settle_with responses _ _
               (match o with
                | Resolved _ => Resolved (VBool false)
                | Rejected e => Rejected e
                end)).
    + by destruct o.
    + rewrite (answered_settle_with responses _ _ o Hp); [by destruct o|].
      intros [v|e]; eauto.
    + intros [v|e]; eauto.
  - rewrite (answered_settle_with responses _ _
               (match o with
                | Resolved _ => Resolved (VBool true)
                | Rejected e => Rejected e
                end)).
    + by destruct o.
    + rewrite (answered_settle_with responses _ _ o Hp); [by destruct o|].
      intros [v|e]; eauto.
    + intros [v|e]; eauto.
  - intros rs e. split; apply answered_never_rejected; intros [v|e']; eauto.
Qed.

Lemma promiseFails_witness :
  answered (promiseFails (ResourcePrefetchHandler.getIntroFiles Sample.module9 3))
    [Rejected (VString "boom")]
  = Ret (Resolved (VBool (bool_decide (is_Some (rejection (Rejected (VString "boom"))))))).
Proof.
  exact (proj1 (promiseFails_and_promiseWorks_never_reject
    (ResourcePrefetchHandler.getIntroFiles Sample.module9 3)
    [Rejected (VString "boom")] (Rejected (VString "boom")) eq_refl)).
Defined.

(** ** [allPromises] *)

Lemma allPromises_after_snoc n outcomes o :
  allPromises_after n (outcomes ++ [o])
  = allPromises_settled o (allPromises_after n outcomes).
Proof. unfold allPromises_after. by rewrite fold_left_app. Qed.

Lemma allPromises_state n outcomes :
  n <> 0 ->
  length outcomes <= n ->
  all_total (allPromises_after n outcomes) = n
  /\ all_count (allPromises_after n outcomes) = length outcomes
  /\ all_error (allPromises_after n outcomes)
     = default VUndefined (last (omap rejection outcomes))
  /\ all_outcome (allPromises_after n outcomes)
     = if Nat.eqb (length outcomes) n
       then Some (if truthy (default VUndefined (last (omap rejection outcomes)))
                  then Rejected (default VUndefined (last (omap rejection outcomes)))
                  else Resolved VUndefined)
       else None.
Proof.
  intros Hn. induction outcomes as [|o outcomes IH] using rev_ind; intros Hlen.
  - unfold allPromises_after, allPromises. simpl.
    destruct n as [|n]; [done|]. done.
  - rewrite length_app in Hlen. simpl in Hlen.
    destruct IH as (Ht&Hc&He&Ho); [lia|].
    rewrite allPromises_after_snoc. unfold allPromises_settled.
    rewrite Ht, Hc, He, Ho, length_app, omap_app. simpl length.
    replace (length outcomes + 1) with (S (length outcomes)) by lia.
    assert (Hlt : Nat.eqb (length outcomes) n = false) by (apply Nat.eqb_neq; lia).
    rewrite Hlt.
    assert (Herr : match o with
                   | Resolved _ => default VUndefined (last (omap rejection outcomes))
                   | Rejected err => err
                   end
                   = default VUndefined (last (omap rejection outcomes ++ omap rejection [o]))).
    { destruct o as [v|err]; simpl; [by rewrite app_nil_r|by rewrite last_snoc]. }
    rewrite Herr.
    destruct (Nat.eqb (S (length outcomes)) n); simpl; done.
Qed.

(** X17. The promise returned by [allPromises] stays pending until every
    one of the promises has settled, a rejection among them
    notwithstanding.  It then resolves if none was rejected; if some were,
    it is rejected with the error of the one that failed last (not first),
    provided that error is truthy: when the last rejection carries no
    error, or a falsy one (undefined, false, 0, the empty string), the
    promise resolves as if nothing had failed.  For an empty list it
    resolves at once. *)
Theorem allPromises_waits_for_every_promise n outcomes :
  length outcomes <= n ->
  all_outcome (allPromises_after n outcomes)
  = if Nat.eqb (length outcomes) n
    then Some (if truthy (default VUndefined (last (omap rejection outcomes)))
               then Rejected (default VUndefined (last (omap rejection outcomes)))
               else Resolved VUndefined)
    else None.
Proof.
  intros Hlen. destruct (decide (n = 0)) as [->|Hn].
  - destruct outcomes; [done|simpl in Hlen; lia].
  - by destruct (allPromises_state n outcomes Hn Hlen) as (_&_&_&H).
Qed.

Lemma allPromises_witness :
  all_outcome
    (allPromises_after 3
       [Rejected (VString "first"); Resolved (VNumber 1); Rejected VUndefined])
  = if Nat.eqb (length [Rejected (VString "first"); Resolved (VNumber 1);
                        Rejected VUndefined]) 3
    then Some (if truthy (default VUndefined
                            (last (omap rejection
                                     [Rejected (VString "first"); Resolved (VNumber 1);
                                      Rejected VUndefined])))
               then Rejected (default VUndefined
                                (last (omap rejection
                                         [Rejected (VString "first"); Resolved (VNumber 1);
                                          Rejected VUndefined])))
               else Resolved VUndefined)
    else None.
Proof.
  exact (allPromises_waits_for_every_promise 3
    [Rejected (VString "first"); Resolved (VNumber 1); Rejected VUndefined]
    ltac:(simpl; lia)).
Defined.

(** * Properties of the add-on handlers *)

(** ** Wiki: download size *)

Section WikiDownloadSize.
Context {Wiki : Type} (site : string)
        (getWiki : Z -> Z -> bool -> string -> Settled.result Wiki)
        (getWikiPageList : Wiki -> bool -> bool -> string
                           -> Settled.result (list AddonModWikiPrefetchHandler.Page))
        (getWikiFileList : Wiki -> bool -> bool -> string
                           -> Settled.result (list FileEntry))
        (getIntroFilesFromInstance : CourseModule -> Wiki -> list FileEntry).

Local Abbreviation getAllPages :=
  (AddonModWikiPrefetchHandler.getAllPages site getWiki getWikiPageList).
Local Abbreviation wiki_getFiles :=
  (AddonModWikiPrefetchHandler.getFiles site getWiki getWikiFileList
     getIntroFilesFromInstance).
Local Abbreviation getDownloadSize :=
  (AddonModWikiPrefetchHandler.getDownloadSize site getWiki getWikiPageList
     getWikiFileList getIntroFilesFromInstance).

Lemma wiki_getAllPages_settles m c offline ignoreCache siteId :
  exists pages, getAllPages m c offline ignoreCache siteId = Settled.Fulfilled pages.
Proof.
  unfold AddonModWikiPrefetchHandler.getAllPages.
  destruct (getWiki c (id m) offline (Settled.site_or siteId site)) as [wiki|e]; simpl;
    [|eauto].
  destruct (getWikiPageList wiki offline ignoreCache (Settled.site_or siteId site));
    simpl; eauto.
Qed.

Lemma wiki_getFiles_settles m c single siteId :
  exists files, wiki_getFiles m c single siteId = Settled.Fulfilled files.
Proof.
  unfold AddonModWikiPrefetchHandler.getFiles.
  destruct (getWiki c (id m) false (Settled.site_or siteId site)) as [wiki|e]; simpl;
    [|eauto].
  destruct (getWikiFileList wiki false false (Settled.site_or siteId site));
    simpl; eauto.
Qed.

Lemma pagesSize_loop pages : forall acc,
  fold_left
    (fun size page =>
       match AddonModWikiPrefetchHandler.contentsize page with
       | Some n =>
           if AddonModWikiPrefetchHandler.has_contentsize n
           then PrimFloat.add size n else size
       | None => size
       end) pages acc
  = fold_left PrimFloat.add
      (filter (fun n => AddonModWikiPrefetchHandler.has_contentsize n = true)
         (omap AddonModWikiPrefetchHandler.contentsize pages))
      acc.
Proof.
  induction pages as [|page pages IH]; intros acc; simpl; [done|].
  rewrite IH.
  destruct (AddonModWikiPrefetchHandler.contentsize page) as [n|]; simpl; [|done].
  destruct (AddonModWikiPrefetchHandler.has_contentsize n) eqn:En.
  - by rewrite filter_cons_True.
  - by rewrite filter_cons_False by (by rewrite En).
Qed.

(** X18. [getDownloadSize] of the wiki handler never fails.  It resolves
    with the size of the files that [getFiles] lists, as [sumFileSizes]
    gives it, to which the content sizes of the pages that [getAllPages]
    lists are added (from zero, in their order, with the addition of
    JavaScript numbers); its [total] flag is that of the files alone: pages
    without content size, or with one that is zero or not a number, are
    passed over without making the result partial.  [getFiles] and
    [getAllPages] themselves never fail, a wiki that cannot be fetched
    counting as one without files and pages; the download size is then
    reported as 0, total. *)
Theorem wiki_download_size_never_fails m c single :
  (exists files pages,
      wiki_getFiles m c single (Some site) = Settled.Fulfilled files
      /\ getAllPages m c false true (Some site) = Settled.Fulfilled pages
      /\ getDownloadSize m c single
         = Settled.Fulfilled
             (mkSize
                (PrimFloat.add
                   (PrimFloat.add PrimFloat.zero (size (sumFileSizes files)))
                   (AddonModWikiPrefetchHandler.pagesSize pages))
                (total (sumFileSizes files)))
      /\ AddonModWikiPrefetchHandler.pagesSize pages
         = fold_left PrimFloat.add
             (filter (fun n => AddonModWikiPrefetchHandler.has_contentsize n = true)
                (omap AddonModWikiPrefetchHandler.contentsize pages))
             PrimFloat.zero)
  /\ (forall e,
        getWiki c (id m) false (Settled.site_or (Some site) site) = Settled.Failed e ->
        wiki_getFiles m c single (Some site) = Settled.Fulfilled []
        /\ getAllPages m c false true (Some site) = Settled.Fulfilled []
        /\ getDownloadSize m c single = Settled.Fulfilled (mkSize PrimFloat.zero true)).
Proof.
  assert (Hsize : forall files pages,
            wiki_getFiles m c single (Some site) = Settled.Fulfilled files ->
            getAllPages m c false true (Some site) = Settled.Fulfilled pages ->
            getDownloadSize m c single
            = Settled.Fulfilled
                (mkSize
                   (PrimFloat.add
                      (PrimFloat.add PrimFloat.zero (size (sumFileSizes files)))
                      (AddonModWikiPrefetchHandler.pagesSize pages))
                   (total (sumFileSizes files)))).
  { intros files pages Hf Hp. unfold AddonModWikiPrefetchHandler.getDownloadSize.
    rewrite Hf, Hp. simpl. by rewrite andb_true_r. }
  split.
  - destruct (wiki_getFiles_settles m c single (Some site)) as [files Hf].
    destruct (wiki_getAllPages_settles m c false true (Some site)) as [pages Hp].
    exists files, pages. split; [done|]. split; [done|]. split; [by apply Hsize|].
    unfold AddonModWikiPrefetchHandler.pagesSize. apply pagesSize_loop.
  - intros e He.
    assert (Hf : wiki_getFiles m c single (Some site) = Settled.Fulfilled []).
    { unfold AddonModWikiPrefetchHandler.getFiles. by rewrite He. }
    assert (Hp : getAllPages m c false true (Some site) = Settled.Fulfilled []).
    { unfold AddonModWikiPrefetchHandler.getAllPages. by rewrite He. }
    split; [done|]. split; [done|]. rewrite (Hsize [] [] Hf Hp). reflexivity.
Qed.

End WikiDownloadSize.

(** ** Assignment: check for updates *)

(** X19. [canUseCheckUpdates] of the assignment handler never fails, as its
    contract demands: it resolves with true exactly when the assignment and
    its submissions could be fetched and the user cannot view the
    submissions of others (a student); for a teacher, and whenever one of
    the two requests fails, it resolves with false. *)
Theorem canUseCheckUpdates_never_fails
    (getAssignment : Z -> Z -> Settled.result AddonModAssignPrefetchHandler.Assign)
    (getSubmissions : Z -> Settled.result AddonModAssignPrefetchHandler.Submissions)
    m c :
  exists b,
    AddonModAssignPrefetchHandler.canUseCheckUpdates getAssignment getSubmissions m c
    = Settled.Fulfilled b
    /\ (b = true <->
        exists assign data,
          getAssignment c (id m) = Settled.Fulfilled assign
          /\ getSubmissions (AddonModAssignPrefetchHandler.assign_id assign)
             = Settled.Fulfilled data
          /\ AddonModAssignPrefetchHandler.canviewsubmissions data = false).
Proof.
  unfold AddonModAssignPrefetchHandler.canUseCheckUpdates.
  destruct (getAssignment c (id m)) as [assign|e] eqn:Ea; simpl.
  - destruct (getSubmissions (AddonModAssignPrefetchHandler.assign_id assign))
      as [data|e] eqn:Es; simpl.
    + eexists. split; [done|]. split.
      * intros Hb. exists assign, data. split; [done|]. split; [done|].
        by apply negb_true_iff.
      * intros (a&d&Ha&Hd&Hv). inversion Ha; subst a. rewrite Es in Hd.
        inversion Hd; subst d. by rewrite Hv.
    + exists false. split; [done|]. split; [done|].
      intros (a&d&Ha&Hd&_). inversion Ha; subst a. by rewrite Es in Hd.
  - exists false. split; [done|]. split; [done|]. by intros (a&d&Ha&_).
Qed.

(** ** Database: files and availability *)

Lemma getEntriesFiles_contents contents : forall acc,
  fold_left
    (fun acc content => acc ++ AddonModDataPrefetchHandler.content_files content)
    contents acc
  = acc ++ flat_map AddonModDataPrefetchHandler.content_files contents.
Proof.
  induction contents as [|content contents IH]; intros acc; simpl.
  - by rewrite app_nil_r.
  - by rewrite IH, <- app_assoc.
Qed.

Lemma getEntriesFiles_loop entries : forall acc,
  fold_left
    (fun acc entry =>
       fold_left
         (fun acc content => acc ++ AddonModDataPrefetchHandler.content_files content)
         (AddonModDataPrefetchHandler.entry_contents entry) acc)
    entries acc
  = acc ++ flat_map
             (fun entry =>
                flat_map AddonModDataPrefetchHandler.content_files
                  (AddonModDataPrefetchHandler.entry_contents entry))
             entries.
Proof.
  induction entries as [|entry entries IH]; intros acc; simpl.
  - by rewrite app_nil_r.
  - by rewrite IH, getEntriesFiles_contents, <- app_assoc.
Qed.

(** X20. [getEntriesFiles] lists the files of all the contents of all the
    entries, each once and in the order of the entries and of their
    contents; the files of two lists of entries put together are the files
    of the first followed by those of the second, and there are none for no
    entries or for entries without contents. *)
Theorem getEntriesFiles_lists_every_file_in_order entries entries' :
  AddonModDataPrefetchHandler.getEntriesFiles entries
  = flat_map
      (fun entry =>
         flat_map AddonModDataPrefetchHandler.content_files
           (AddonModDataPrefetchHandler.entry_contents entry))
      entries
  /\ AddonModDataPrefetchHandler.getEntriesFiles (entries ++ entries')
     = AddonModDataPrefetchHandler.getEntriesFiles entries
       ++ AddonModDataPrefetchHandler.getEntriesFiles entries'
  /\ length (AddonModDataPrefetchHandler.getEntriesFiles entries)
     = list_sum
         (map (fun entry =>
                 list_sum
                   (map (fun content =>
                           length (AddonModDataPrefetchHandler.content_files content))
                      (AddonModDataPrefetchHandler.entry_contents entry)))
            entries).
Proof.
  unfold AddonModDataPrefetchHandler.getEntriesFiles.
  rewrite !getEntriesFiles_loop. simpl. split; [done|]. split.
  - by rewrite flat_map_app.
  - induction entries as [|entry entries IH]; simpl; [done|].
    rewrite length_app, IH. f_equal.
    induction (AddonModDataPrefetchHandler.entry_contents entry) as [|content cs IHc];
      simpl; [done|]. by rewrite length_app, IHc.
Qed.

Section DatabaseHandler.
Context (site : string) (timestamp : Z)
        (getDatabase : Z -> Z -> option string -> bool
                       -> Settled.result AddonModDataPrefetchHandler.Database)
        (getDatabaseAccessInformation
           : Z -> Settled.result AddonModDataPrefetchHandler.AccessData)
        (getActivityGroupInfo
           : Z -> string -> Settled.result AddonModDataPrefetchHandler.GroupInfo)
        (fetchAllEntries
           : Z -> Z -> bool -> bool -> option string
             -> Settled.result (list AddonModDataPrefetchHandler.Entry))
        (getIntroFilesFromInstance
           : CourseModule -> option AddonModDataPrefetchHandler.Database
             -> list FileEntry).

Local Abbreviation getDatabaseInfoHelper :=
  (AddonModDataPrefetchHandler.getDatabaseInfoHelper site getDatabase
     getActivityGroupInfo fetchAllEntries getIntroFilesFromInstance).
Local Abbreviation data_getFiles :=
  (AddonModDataPrefetchHandler.getFiles site getDatabase
     getActivityGroupInfo fetchAllEntries getIntroFilesFromInstance).
Local Abbreviation isDownloadable :=
  (AddonModDataPrefetchHandler.isDownloadable timestamp getDatabase
     getDatabaseAccessInformation).

(** X21. [getDatabaseInfoHelper] called with [omitFail] never fails and
    returns the information gathered up to the failure, if any.  When the
    call without [omitFail] succeeds both return the same information, with
    the database known; when it fails, the other returns no entries.  In
    every case the files returned are the intro files of the database, if
    it could be fetched, followed by the files of the entries returned.
    Hence [getFiles] of the database handler never fails. *)
Theorem getDatabaseInfoHelper_returns_what_it_has
    m c single forceCache ignoreCache siteId :
  (exists info,
      getDatabaseInfoHelper m c true forceCache ignoreCache siteId
      = Settled.Fulfilled info
      /\ AddonModDataPrefetchHandler.info_files info
         = match AddonModDataPrefetchHandler.info_database info with
           | Some data => getIntroFilesFromInstance m (Some data)
           | None => []
           end
           ++ AddonModDataPrefetchHandler.getEntriesFiles
                (AddonModDataPrefetchHandler.info_entries info)
      /\ match getDatabaseInfoHelper m c false forceCache ignoreCache siteId with
         | Settled.Fulfilled info' =>
             info' = info
             /\ is_Some (AddonModDataPrefetchHandler.info_database info)
             /\ AddonModDataPrefetchHandler.info_groups info <> []
         | Settled.Failed _ => AddonModDataPrefetchHandler.info_entries info = []
         end)
  /\ (forall e,
        getDatabase c (id m) (Some (Settled.site_or siteId site)) forceCache
        = Settled.Failed e ->
        getDatabaseInfoHelper m c false forceCache ignoreCache siteId = Settled.Failed e
        /\ getDatabaseInfoHelper m c true forceCache ignoreCache siteId
           = Settled.Fulfilled (AddonModDataPrefetchHandler.mkInfo None [] [] []))
  /\ exists files, data_getFiles m c single = Settled.Fulfilled files.
Proof.
  assert (Hmain : forall fc ic s, exists info,
      getDatabaseInfoHelper m c true fc ic s = Settled.Fulfilled info
      /\ AddonModDataPrefetchHandler.info_files info
         = match AddonModDataPrefetchHandler.info_database info with
           | Some data => getIntroFilesFromInstance m (Some data)
           | None => []
           end
           ++ AddonModDataPrefetchHandler.getEntriesFiles
                (AddonModDataPrefetchHandler.info_entries info)
      /\ match getDatabaseInfoHelper m c false fc ic s with
         | Settled.Fulfilled info' =>
             info' = info
             /\ is_Some (AddonModDataPrefetchHandler.info_database info)
             /\ AddonModDataPrefetchHandler.info_groups info <> []
         | Settled.Failed _ => AddonModDataPrefetchHandler.info_entries info = []
         end).
  { intros fc ic s. unfold AddonModDataPrefetchHandler.getDatabaseInfoHelper.
    destruct (getDatabase c (id m) (Some (Settled.site_or s site)) fc) as [data|e];
      [|by eexists].
    destruct (getActivityGroupInfo (id m) (Settled.site_or s site)) as [groupInfo|e];
      [|eexists; (split; [reflexivity|]); simpl; by rewrite app_nil_r].
    match goal with
    | |- context [AddonModDataPrefetchHandler.getAllUniqueEntries ?f ?a ?b ?c' ?d ?e'] =>
        destruct (AddonModDataPrefetchHandler.getAllUniqueEntries f a b c' d e')
          as [entries|e]
    end.
    - eexists. split; [done|]. split; [done|]. split; [done|]. split; [by eexists|].
      simpl. by destruct (AddonModDataPrefetchHandler.groupInfo_groups groupInfo)
        as [[|g gs]|].
    - eexists. split; [reflexivity|]. simpl. by rewrite app_nil_r. }
  split; [apply Hmain|]. split.
  - intros e He. unfold AddonModDataPrefetchHandler.getDatabaseInfoHelper.
    by rewrite He.
  - unfold AddonModDataPrefetchHandler.getFiles.
    destruct (Hmain false false None) as (info&->&_). simpl. eauto.
Qed.

(** X22. [isDownloadable] of the database handler.  For a database that
    could be fetched together with its access information, it resolves with
    true exactly when the access information says the database is available
    or the current time lies within the availability window of the database,
    bounds included, a bound of 0 being no bound.  When the database or its
    access information cannot be fetched the promise is rejected with that
    error: it does not resolve with false. *)
Theorem isDownloadable_within_the_availability_window m c :
  match getDatabase c (id m) None true with
  | Settled.Fulfilled database =>
      match getDatabaseAccessInformation
              (AddonModDataPrefetchHandler.database_id database) with
      | Settled.Fulfilled accessData =>
          exists b,
            isDownloadable m c = Settled.Fulfilled b
            /\ (b = true <->
                AddonModDataPrefetchHandler.timeavailable accessData = true
                \/ ((AddonModDataPrefetchHandler.timeavailablefrom database = 0
                     \/ AddonModDataPrefetchHandler.timeavailablefrom database
                        <= timestamp)
                    /\ (AddonModDataPrefetchHandler.timeavailableto database = 0
                        \/ timestamp
                           <= AddonModDataPrefetchHandler.timeavailableto database)))%Z
      | Settled.Failed e => isDownloadable m c = Settled.Failed e
      end
  | Settled.Failed e => isDownloadable m c = Settled.Failed e
  end.
Proof.
  unfold AddonModDataPrefetchHandler.isDownloadable.
  destruct (getDatabase c (id m) None true) as [database|e]; simpl; [|done].
  destruct (getDatabaseAccessInformation
              (AddonModDataPrefetchHandler.database_id database))
    as [accessData|e]; simpl; [|done].
  destruct (AddonModDataPrefetchHandler.timeavailable accessData); simpl.
  { exists true. split; [done|]. split; [by left|done]. }
  destruct (Z.eqb_spec (AddonModDataPrefetchHandler.timeavailablefrom database) 0)
    as [Hf|Hf];
    destruct (Z.ltb_spec timestamp
                (AddonModDataPrefetchHandler.timeavailablefrom database)) as [Hlf|Hlf];
    destruct (Z.eqb_spec (AddonModDataPrefetchHandler.timeavailableto database) 0)
      as [Ht|Ht];
    destruct (Z.ltb_spec (AddonModDataPrefetchHandler.timeavailableto database)
                timestamp) as [Hlt|Hlt];
    simpl; eexists; (split; [done|]);
    (split; [intros H; try discriminate H; right; lia
            |intros [H|H]; [discriminate H|try done; lia]]).
Qed.

End DatabaseHandler.

(** ** Database: unique entries *)

Section ObjectProperties.
Context {E : Type}.
Implicit Types (obj : list (N * E)) (key : N).










End ObjectProperties.




